(** * Emotion-classification fine-tuning script: a shallow embedding

    The development follows [code/classifier/fine-tuning.py].  Python
    exceptions are values of an error monad, data frames are lists of
    rows, dictionaries are association lists in insertion order (the
    script iterates over [MULTICLASS_LABEL_MAP.keys()], so the order is
    observable), floating-point numbers are idealised as rationals with
    an extra [NaN], and calls into pandas, numpy, scikit-learn, torch
    and transformers are either small executable models of the
    documented behaviour of the call or fields of the class
    [Environment].  The file system is threaded through every statement
    that can change it: the script's own writes and the calls that load,
    train and evaluate models.  The messages sent to the logger are not
    part of the model. *)

From Stdlib Require Import String Ascii List ZArith QArith Bool Lia Arith.
From Stdlib Require Import DecimalString Permutation Morphisms Setoid Sorted.
From Stdlib Require Import Qfield.
From Stdlib Require DecimalNat DecimalFacts.
Import ListNotations.
Local Open Scope nat_scope.
Local Open Scope string_scope.
Local Open Scope list_scope.

(* ================================================================== *)
(** * Python: exceptions, results, dictionaries *)
(* ================================================================== *)

Module Py.

(** The exception classes the script can meet. *)
Inductive exn : Type :=
| KeyError
| TypeError
| ValueError
| IndexError
| OSError
| RuntimeError.

(** The outcome of evaluating an expression: a value or a raised
    exception. *)
Inductive result (A : Type) : Type :=
| Ok (a : A)
| Raise (e : exn).
Arguments Ok {A} a.
Arguments Raise {A} e.

Definition bind {A B} (c : result A) (k : A -> result B) : result B :=
  match c with
  | Ok a => k a
  | Raise e => Raise e
  end.

(** A comprehension / row-wise apply: the elements are evaluated from
    left to right and the first exception escapes. *)
Fixpoint mapM {A B} (f : A -> result B) (l : list A) : result (list B) :=
  match l with
  | [] => Ok []
  | a :: l' =>
      bind (f a) (fun b => bind (mapM f l') (fun bs => Ok (b :: bs)))
  end.

(** A [for] loop threading an accumulator. *)
Fixpoint foldM {A S} (f : S -> A -> result S) (s : S) (l : list A)
  : result S :=
  match l with
  | [] => Ok s
  | a :: l' => bind (f s a) (fun s' => foldM f s' l')
  end.

(** [d[k]] on a dictionary with string keys. *)
Fixpoint lookup {V} (d : list (string * V)) (k : string) : option V :=
  match d with
  | [] => None
  | (k', v) :: d' => if String.eqb k' k then Some v else lookup d' k
  end.

Definition getitem {V} (d : list (string * V)) (k : string) : result V :=
  match lookup d k with
  | Some v => Ok v
  | None => Raise KeyError
  end.

Definition keys {V} (d : list (string * V)) : list string := map fst d.

(** [d[k] = v]: an existing key keeps its position, a new key goes
    last. *)
Fixpoint setitem {V} (d : list (string * V)) (k : string) (v : V)
  : list (string * V) :=
  match d with
  | [] => [(k, v)]
  | (k', v') :: d' =>
      if String.eqb k' k then (k', v) :: d' else (k', v') :: setitem d' k v
  end.

(** [{**d, **e}]: the entries of [e] are written into [d] in order. *)
Definition merge {V} (d e : list (string * V)) : list (string * V) :=
  fold_left (fun acc kv => setitem acc (fst kv) (snd kv)) e d.

(** [l[0]] on a list. *)
Definition first {A} (l : list A) : result A :=
  match l with
  | [] => Raise IndexError
  | a :: _ => Ok a
  end.

End Py.
Import Py.

Declare Scope py_scope.
Delimit Scope py_scope with py.
Notation "x <- c ;; k" := (Py.bind c (fun x => k))
  (at level 61, c at next level, right associativity) : py_scope.
Local Open Scope py_scope.

(* ================================================================== *)
(** * The data frame read from the input CSV *)
(* ================================================================== *)

(** A cell of the frame [pd.read_csv] returns: a string, a number (when
    the whole column parses as numbers) or the missing value [nan]. *)
Inductive cell : Type :=
| CStr (s : string)
| CNum (z : Z)
| CNaN.

(** Python's [==] between a string and a cell: only an equal string is
    equal; a number and [nan] are not equal to any string. *)
Definition str_eq_cell (s : string) (c : cell) : bool :=
  match c with
  | CStr s' => String.eqb s s'
  | CNum _ | CNaN => false
  end.

(** [pd.notna]. *)
Definition notna (c : cell) : bool :=
  match c with
  | CNaN => false
  | CStr _ | CNum _ => true
  end.

(** A row of the frame, with the three columns the script reads. *)
Record row : Type := Row {
  sentence : cell;
  emotion_A : cell;
  emotion_B : cell
}.

(** The frame: its rows and, once [load_data] has added it in multiclass
    mode, the column ['labels']. *)
Record DataFrame : Type := Frame {
  rows : list row;
  labels_column : option (list Z)
}.

(** The frame as [pd.read_csv] returns it. *)
Definition read_frame (rs : list row) : DataFrame :=
  {| rows := rs; labels_column := None |}.

(* ================================================================== *)
(** * Label maps (lines 19-24) *)
(* ================================================================== *)

Definition MULTICLASS_LABEL_MAP : list (string * Z) :=
  [ ("Joy", 0%Z); ("Sadness", 1%Z); ("Anger", 2%Z); ("Fear", 3%Z);
    ("Trust", 4%Z); ("Disgust", 5%Z); ("Surprise", 6%Z);
    ("Anticipation", 7%Z); ("Neutral", 8%Z) ].

Definition BINARY_LABEL_MAP : list (string * Z) :=
  [ ("Positive", 1%Z); ("Negative", 0%Z) ].

(** [MULTICLASS_LABEL_MAP[c]] for a cell: a number or [nan] is not a key. *)
Definition multiclass_label (c : cell) : result Z :=
  match c with
  | CStr s => getitem MULTICLASS_LABEL_MAP s
  | CNum _ | CNaN => Raise KeyError
  end.

(* ================================================================== *)
(** * [load_data] (lines 34-55) *)
(* ================================================================== *)

(** What [load_data] returns: the frame alone in multiclass mode, the
    tuple [(df, binary_labels)] in binary mode. *)
Inductive loaded : Type :=
| RetFrame (df : DataFrame)
| RetTuple (df : DataFrame) (binary_labels : list (string * list Z)).

(** The lambda of line 42, applied to the pair of cells
    [(x[0], x[1]) = (emotion-A, emotion-B)] of one row ([x[0]] and
    [x[1]] are positional on the two-column selection). *)
Definition row_labels (x0 x1 : cell) : result (list Z) :=
  if notna x1 then
    a <- multiclass_label x0 ;;
    b <- multiclass_label x1 ;;
    Ok [a; b]
  else
    a <- multiclass_label x0 ;;
    Ok [a].

(** Lines 41-45: the row-wise apply, then the flattening apply.  On a
    frame without rows pandas does not call the lambda: [apply] returns
    a copy of the two-column selection, which the assignment to the
    single column ['labels'] refuses with [ValueError]. *)
Definition multiclass_labels (rs : list row) : result (list Z) :=
  match rs with
  | [] => Raise ValueError
  | _ :: _ =>
      ls <- mapM (fun r => row_labels (emotion_A r) (emotion_B r)) rs ;;
      mapM first ls
  end.

(** [emotion in [row['emotion-A'], row['emotion-B']]]. *)
Definition emotion_in (emotion : string) (r : row) : bool :=
  existsb (str_eq_cell emotion) [emotion_A r; emotion_B r].

(** The body of the inner loop, lines 50-52:
    [binary_labels[emotion].append(...)]. *)
Definition binary_step (r : row) (d : list (string * list Z))
  (emotion : string) : result (list (string * list Z)) :=
  l <- getitem d emotion ;;
  v <- (if emotion_in emotion r
        then getitem BINARY_LABEL_MAP "Positive"
        else getitem BINARY_LABEL_MAP "Negative") ;;
  Ok (setitem d emotion (l ++ [v])).

(** Lines 47-52. *)
Definition binary_labels_of (rs : list row)
  : result (list (string * list Z)) :=
  foldM (fun d r => foldM (binary_step r) d (keys MULTICLASS_LABEL_MAP))
        (map (fun emotion => (emotion, [])) (keys MULTICLASS_LABEL_MAP))
        rs.

(** [load_data], from the frame [pd.read_csv(input_csv)] returned. *)
Definition load_data (df : list row) (multiclass : bool) : result loaded :=
  if multiclass then
    ls <- multiclass_labels df ;;
    Ok (RetFrame {| rows := df; labels_column := Some ls |})
  else
    bl <- binary_labels_of df ;;
    Ok (RetTuple (read_frame df) bl).

(* ================================================================== *)
(** * numpy *)
(* ================================================================== *)

Module Np.

(** A float: a rational, or [nan]. *)
Inductive npfloat : Type :=
| Fin (q : Q)
| NaN.

(** The sum numpy accumulates, from the left. *)
Definition total (l : list Q) : Q := fold_left Qplus l 0%Q.

(** The elements of an array when none of them is [nan]. *)
Fixpoint finite (l : list npfloat) : option (list Q) :=
  match l with
  | [] => Some []
  | Fin q :: l' =>
      match finite l' with
      | Some qs => Some (q :: qs)
      | None => None
      end
  | NaN :: _ => None
  end.

(** Modelled from the spec: [np.mean] on a one-dimensional array, which
    is numpy's and not part of the repository: the sum of the elements
    divided by their number; [nan] for an empty array (numpy warns and
    returns [nan]) and when an element is [nan]. *)
Definition mean (l : list npfloat) : npfloat :=
  match l with
  | [] => NaN
  | _ :: _ =>
      match finite l with
      | Some qs => Fin (total qs / inject_Z (Z.of_nat (length qs)))
      | None => NaN
      end
  end.

(** The scan behind [argmax]: the index of the first largest element so
    far. *)
Fixpoint argmax_from (best : Q) (besti i : nat) (l : list Q) : nat :=
  match l with
  | [] => besti
  | x :: l' =>
      if Qle_bool x best then argmax_from best besti (S i) l'
      else argmax_from x i (S i) l'
  end.

(** Modelled from the spec: [ndarray.argmax] along one row, numpy's: the
    index of the first occurrence of the maximum; an empty row raises
    [ValueError]. *)
Definition argmax (scores : list Q) : result nat :=
  match scores with
  | [] => Raise ValueError
  | x :: l => Ok (argmax_from x 0 1 l)
  end.

(** [a[idx]] with an array of indices: every index must be in range. *)
Definition take {A} (a : list A) (idx : list nat) : result (list A) :=
  mapM (fun i => match nth_error a i with
                 | Some x => Ok x
                 | None => Raise IndexError
                 end) idx.

End Np.
Import Np.

(* ================================================================== *)
(** * Metric dictionaries *)
(* ================================================================== *)

(** A value of a metrics dictionary: an integer (the fold number), a
    float, or a per-class list of floats. *)
Inductive value : Type :=
| VInt (z : Z)
| VFloat (x : npfloat)
| VList (l : list npfloat).

Definition metrics : Type := list (string * value).

(** [np.mean(v)] of one value: a number is its own mean. *)
Definition mean_value (v : value) : npfloat :=
  match v with
  | VInt z => Fin (inject_Z z)
  | VFloat x => x
  | VList l => Np.mean l
  end.

Definition scalar_of (v : value) : option npfloat :=
  match v with
  | VInt z => Some (Fin (inject_Z z))
  | VFloat x => Some x
  | VList _ => None
  end.

Definition list_of (v : value) : option (list npfloat) :=
  match v with
  | VList l => Some l
  | VInt _ | VFloat _ => None
  end.

Fixpoint all_some {A} (l : list (option A)) : option (list A) :=
  match l with
  | [] => Some []
  | Some a :: l' =>
      match all_some l' with
      | Some xs => Some (a :: xs)
      | None => None
      end
  | None :: _ => None
  end.

Definition same_length {A} (ls : list (list A)) : bool :=
  match ls with
  | [] => true
  | l :: ls' => forallb (fun l' => Nat.eqb (length l') (length l)) ls'
  end.

(** [np.mean(vs)] of a Python list of values: numbers give a vector,
    lists of one length give a matrix whose mean runs over all entries,
    and a ragged list is refused by numpy with [ValueError]. *)
Definition mean_values (vs : list value) : result npfloat :=
  match all_some (map scalar_of vs) with
  | Some xs => Ok (Np.mean xs)
  | None =>
      match all_some (map list_of vs) with
      | Some ls =>
          if same_length ls then Ok (Np.mean (concat ls))
          else Raise ValueError
      | None => Raise ValueError
      end
  end.

(* ================================================================== *)
(** * scikit-learn *)
(* ================================================================== *)

Module Sk.

Definition count {A} (f : A -> bool) (l : list A) : nat :=
  length (filter f l).

(** The sorted distinct labels of an array, as [np.unique] gives them. *)
Fixpoint insert_label (z : Z) (l : list Z) : list Z :=
  match l with
  | [] => [z]
  | x :: l' =>
      if (z <? x)%Z then z :: l
      else if (z =? x)%Z then l
      else x :: insert_label z l'
  end.

Definition unique (y : list Z) : list Z := fold_right insert_label [] y.

(** Modelled from the spec: [accuracy_score(y_true, y_pred)],
    scikit-learn's: the mean of the indicator "prediction equals label";
    arrays of different lengths are refused with [ValueError]. *)
Definition accuracy_score (y_true y_pred : list Z) : result npfloat :=
  if negb (length y_true =? length y_pred)%nat then Raise ValueError
  else Ok (Np.mean (map (fun p => if (fst p =? snd p)%Z
                                  then Fin 1 else Fin 0)
                        (combine y_true y_pred))).

(** A ratio of counts; a zero denominator gives 0 (scikit-learn warns,
    [zero_division="warn"]). *)
Definition prf_divide (num den : nat) : npfloat :=
  if (den =? 0)%nat then Fin 0
  else Fin (inject_Z (Z.of_nat num) / inject_Z (Z.of_nat den)).

(** Modelled from the spec:
    [precision_recall_fscore_support(y_true, y_pred, average=None)],
    scikit-learn's: one precision, recall, F1 and support per label
    present in [y_true] or [y_pred], labels in increasing order, nothing
    averaged. *)
Definition precision_recall_fscore_support (y_true y_pred : list Z)
  : result (list npfloat * list npfloat * list npfloat * list nat) :=
  if negb (length y_true =? length y_pred)%nat then Raise ValueError
  else
    let present := unique (y_true ++ y_pred) in
    let tp_sum c :=
      count (fun p => (fst p =? c)%Z && (snd p =? c)%Z)
            (combine y_true y_pred) in
    let pred_sum c := count (Z.eqb c) y_pred in
    let true_sum c := count (Z.eqb c) y_true in
    Ok (map (fun c => prf_divide (tp_sum c) (pred_sum c)) present,
        map (fun c => prf_divide (tp_sum c) (true_sum c)) present,
        map (fun c => prf_divide (2 * tp_sum c) (true_sum c + pred_sum c))
            present,
        map true_sum present).


(** The splitter object. *)
Record StratifiedKFold : Type := {
  n_splits : nat;
  shuffle : bool;
  random_state : nat
}.

(** The constructor refuses fewer than two splits. *)
Definition new_StratifiedKFold (k : nat) (sh : bool) (seed : nat)
  : result StratifiedKFold :=
  if (k <=? 1)%nat then Raise ValueError
  else Ok {| n_splits := k; shuffle := sh; random_state := seed |}.

(** The distinct labels of [y] in the order in which they first
    appear. *)
Fixpoint appearance (y : list Z) : list Z :=
  match y with
  | [] => []
  | c :: y' => c :: filter (fun c' => negb (c' =? c)%Z) (appearance y')
  end.

Fixpoint index_of (c : Z) (cs : list Z) : nat :=
  match cs with
  | [] => 0
  | c' :: cs' => if (c' =? c)%Z then 0 else S (index_of c cs')
  end.

(** [y_encoded]: every label replaced by the rank of its class, classes
    ranked by first appearance. *)
Definition encode (y : list Z) : list nat :=
  map (fun c => index_of c (appearance y)) y.

(** [np.sort] on class ranks. *)
Fixpoint insert_sorted (x : nat) (l : list nat) : list nat :=
  match l with
  | [] => [x]
  | a :: l' => if (x <=? a)%nat then x :: l else a :: insert_sorted x l'
  end.

Definition sort (l : list nat) : list nat := fold_right insert_sorted [] l.

(** The slice [a[i::n]]. *)
Definition every {A} (n i : nat) (a : list A) : list A :=
  map snd
      (filter (fun p => (i <=? fst p)%nat && ((fst p - i) mod n =? 0)%nat)
              (combine (seq 0 (length a)) a)).

(** [allocation[i, k]]: how many samples of class [k] fold [i] tests,
    dealing the sorted classes round-robin over the folds. *)
Definition allocation (n : nat) (y_order : list nat) (i k : nat) : nat :=
  count (Nat.eqb k) (every n i y_order).

(** [np.arange(n_splits).repeat(allocation[:, k])]. *)
Definition folds_for_class (n : nat) (y_order : list nat) (k : nat)
  : list nat :=
  flat_map (fun i => repeat i (allocation n y_order i k)) (seq 0 n).

Fixpoint insert_keyed (x : nat * nat) (l : list (nat * nat))
  : list (nat * nat) :=
  match l with
  | [] => [x]
  | a :: l' =>
      if (fst x <=? fst a)%nat then x :: l else a :: insert_keyed x l'
  end.

(** [rng.shuffle(a)]: the array in another order.  Which order is the
    seeded generator's; it is given here by the keys the generator
    draws, one per position, the elements being put in the order of
    their keys. *)
Definition shuffled (keys : nat -> nat) (a : list nat) : list nat :=
  map snd (fold_right insert_keyed []
                      (combine (map keys (seq 0 (length a))) a)).

(** Modelled from the spec: [StratifiedKFold._make_test_folds],
    scikit-learn's, which is not part of the repository: for every
    sample the number of the one fold that tests it.  Per class, the
    fold numbers are laid out in blocks after [allocation], shuffled
    when the splitter shuffles, and handed to the samples of the class
    in their order. *)
Definition make_test_folds (skf : StratifiedKFold)
  (keys : nat -> nat -> nat) (y : list Z) : list nat :=
  let y_encoded := encode y in
  let y_order := sort y_encoded in
  let folds k :=
    let folds_for_class := folds_for_class (n_splits skf) y_order k in
    if shuffle skf then shuffled (keys k) folds_for_class
    else folds_for_class in
  map (fun j =>
         let k := nth j y_encoded 0 in
         nth (count (Nat.eqb k) (firstn j y_encoded)) (folds k) 0)
      (seq 0 (length y)).

(** Modelled from the spec: [StratifiedKFold.split], scikit-learn's
    standard stratified k-fold splitter, which is not part of the
    repository.  It refuses arrays of different lengths, more splits
    than samples, and more splits than the members of every class; then
    fold [i] tests the samples whose number in [test_folds] (the array
    [_make_test_folds] returned) is [i] and trains on all the others. *)
Definition split {A} (skf : StratifiedKFold)
  (test_folds : list nat) (X : list A) (y : list Z)
  : result (list (list nat * list nat)) :=
  let n := length X in
  if negb (length y =? n)%nat then Raise ValueError
  else if (n <? n_splits skf)%nat then Raise ValueError
  else if forallb (fun c => (count (Z.eqb c) y <? n_splits skf)%nat) (unique y)
  then Raise ValueError
  else
    Ok (map (fun i =>
               let test_mask j := (nth j test_folds 0 =? i)%nat in
               (filter (fun j => negb (test_mask j)) (seq 0 n),
                filter test_mask (seq 0 n)))
            (seq 0 (n_splits skf))).

End Sk.

(* ================================================================== *)
(** * [os.path.join] *)
(* ================================================================== *)

Module OsPath.

Definition startswith_sep (s : string) : bool :=
  match s with
  | String c _ => Ascii.eqb c "/"
  | EmptyString => false
  end.

Fixpoint endswith_sep (s : string) : bool :=
  match s with
  | EmptyString => false
  | String c EmptyString => Ascii.eqb c "/"
  | String _ s' => endswith_sep s'
  end.

(** [os.path.join(a, b)] on POSIX: an absolute [b] discards [a]; else
    the two are joined with one separator. *)
Definition join (a b : string) : string :=
  if startswith_sep b then b
  else if String.eqb a "" || endswith_sep a then a ++ b
  else a ++ "/" ++ b.

End OsPath.

(* ================================================================== *)
(** * The file system *)
(* ================================================================== *)

(** What a file holds: the frame [to_csv] wrote, or anything else (a
    checkpoint, a cached model, ...). *)
Inductive content : Type :=
| Csv (frame : list metrics)
| Data (bytes : string).

(** The file system: the directories, and what the paths hold, the
    latest write of a path first. *)
Record FS : Type := {
  directories : list string;
  files : list (string * content)
}.

(** A statement that may raise and may change the file system; what was
    written before an exception stays written. *)
Definition io (A : Type) : Type := FS -> result A * FS.

Definition io_bind {A B} (c : io A) (k : A -> io B) : io B :=
  fun fs =>
    match c fs with
    | (Ok a, fs') => k a fs'
    | (Raise e, fs') => (Raise e, fs')
    end.

(** A statement that leaves the file system alone. *)
Definition io_lift {A} (c : result A) : io A := fun fs => (c, fs).

(** A [for] loop threading an accumulator and the file system. *)
Fixpoint io_foldM {A S} (f : S -> A -> io S) (s : S) (l : list A) : io S :=
  match l with
  | [] => io_lift (Ok s)
  | a :: l' => io_bind (f s a) (fun s' => io_foldM f s' l')
  end.

Notation "x <~ c ;; k" := (io_bind c (fun x => k))
  (at level 61, c at next level, right associativity) : py_scope.

(** The file a path holds. *)
Definition read_file (fs : FS) (path : string) : option content :=
  Py.lookup (files fs) path.

(* ================================================================== *)
(** * transformers, torch and the operating system *)
(* ================================================================== *)

(** What a tokenizer returns for a batch: per key ([input_ids],
    [attention_mask], ...) one row of integers per text. *)
Definition encodings : Type := list (string * list (list Z)).

Inductive tensor : Type :=
| Tensor0 (z : Z)
| Tensor1 (v : list Z).

(** The integers of a 64-bit tensor. *)
Definition fits_int64 (z : Z) : bool :=
  ((- 2 ^ 63 <=? z) && (z <? 2 ^ 63))%Z.

(** Modelled from the spec: [torch.tensor(z)] for a Python integer,
    torch's: a 64-bit integer tensor; an integer out of the signed
    64-bit range is refused ([RuntimeError], overflow). *)
Definition torch_tensor0 (z : Z) : result tensor :=
  if fits_int64 z then Ok (Tensor0 z) else Raise RuntimeError.

(** [torch.tensor(v)] for a list of Python integers. *)
Definition torch_tensor1 (v : list Z) : result tensor :=
  if forallb fits_int64 v then Ok (Tensor1 v) else Raise RuntimeError.

(** One example of a dataset: a dictionary of tensors. *)
Definition example : Type := list (string * tensor).

Record TrainingArguments : Type := {
  output_dir : string;
  num_train_epochs : nat;
  per_device_train_batch_size : nat;
  eval_strategy : string;
  save_strategy : string;
  logging_dir : string;
  report_to : string
}.

(** The keyword arguments of the call [Trainer(...)], lines 134-140. *)
Record TrainerInit (Model : Type) : Type := {
  model : Model;
  args : TrainingArguments;
  train_dataset : list example;
  eval_dataset : list example;
  compute_metrics_fn : list (list Q) * list Z -> result metrics
}.
Arguments model {Model} _.
Arguments args {Model} _.
Arguments train_dataset {Model} _.
Arguments eval_dataset {Model} _.
Arguments compute_metrics_fn {Model} _.

(** The calls whose results the script takes as given.  Loading a
    tokenizer or a model, constructing a trainer, training and
    evaluating may each raise and may each change the file system (the
    cache of the hub, the output directory, the checkpoints training
    saves at the end of every epoch); [Trainer_train t] is
    [t.train()], which updates the trainer in place, and returns the
    trainer as training left it.  The tokenizer call only computes.
    [shuffle_keys seed y k] are the keys the generator seeded with
    [seed] draws for the shuffle of class [k] of the labels [y], and
    [os_permits] is whether the operating system lets a path be made or
    written. *)
Class Environment : Type := {
  Tokenizer : Type;
  Model : Type;
  Trainer : Type;
  AutoTokenizer_from_pretrained : string -> io Tokenizer;
  tokenizer_call :
    Tokenizer -> list cell -> bool -> bool -> nat -> result encodings;
  AutoModel_from_pretrained : string -> nat -> io Model;
  Trainer_new : TrainerInit Model -> io Trainer;
  Trainer_train : Trainer -> io Trainer;
  Trainer_evaluate : Trainer -> io metrics;
  shuffle_keys : nat -> list Z -> nat -> nat -> nat;
  os_permits : FS -> string -> bool
}.

(** [f"{n}"] for a non-negative integer. *)
Definition str_of_nat (n : nat) : string :=
  DecimalString.NilZero.string_of_uint (Nat.to_uint n).

Section Pipeline.

Context {env : Environment}.

(** [os.makedirs(path, exist_ok=True)]. *)
Definition makedirs (path : string) : io unit :=
  fun fs =>
    if os_permits fs path
    then (Ok tt, {| directories := path :: directories fs;
                    files := files fs |})
    else (Raise OSError, fs).

(** [frame.to_csv(path, index=False)]. *)
Definition to_csv (frame : list metrics) (path : string) : io unit :=
  fun fs =>
    if os_permits fs path
    then (Ok tt, {| directories := directories fs;
                    files := (path, Csv frame) :: files fs |})
    else (Raise OSError, fs).

(* ---------------------------------------------------------------- *)
(** ** [display_emotion_counts] (lines 57-64) *)

(** [df[['emotion-A', 'emotion-B']]]: a tuple cannot be indexed by a
    list. *)
Definition emotion_columns (df : loaded) : result (list (cell * cell)) :=
  match df with
  | RetFrame f => Ok (map (fun r => (emotion_A r, emotion_B r)) (rows f))
  | RetTuple _ _ => Raise TypeError
  end.

(** [.stack()]: the cells row by row, missing values dropped. *)
Definition stack (cols : list (cell * cell)) : list cell :=
  filter notna (flat_map (fun p => [fst p; snd p]) cols).

(** The counts are only logged: the function returns [None]. *)
Definition display_emotion_counts (df : loaded) : result unit :=
  cols <- emotion_columns df ;;
  let emotion_counts := stack cols in
  Ok tt.

(** [df['sentence'].to_numpy()]. *)
Definition sentence_column (df : loaded) : result (list cell) :=
  match df with
  | RetFrame f => Ok (map sentence (rows f))
  | RetTuple _ _ => Raise TypeError
  end.

(** [df['labels'].to_numpy()]. *)
Definition labels_of (df : loaded) : result (list Z) :=
  match df with
  | RetFrame f =>
      match labels_column f with
      | Some ls => Ok ls
      | None => Raise KeyError
      end
  | RetTuple _ _ => Raise TypeError
  end.

(* ---------------------------------------------------------------- *)
(** ** [preprocess_data] (lines 66-69) *)

Definition preprocess_data {L : Type} (texts : list cell) (labels : L)
  (tokenizer : Tokenizer) : result (encodings * L) :=
  encodings <- tokenizer_call tokenizer texts true true 128 ;;
  Ok (encodings, labels).

(* ---------------------------------------------------------------- *)
(** ** [compute_metrics] (lines 71-83) *)

Definition compute_metrics (predictions : list (list Q) * list Z)
  : result metrics :=
  let '(preds, labels) := predictions in
  preds <- mapM Np.argmax preds ;;
  let preds := map Z.of_nat preds in
  accuracy <- Sk.accuracy_score labels preds ;;
  prfs <- Sk.precision_recall_fscore_support labels preds ;;
  let '(precision, recall, f1, _) := prfs in
  Ok [ ("accuracy", VFloat accuracy);
       ("precision", VList precision);
       ("recall", VList recall);
       ("f1", VList f1) ].

(* ---------------------------------------------------------------- *)
(** ** [aggregate_metrics] (lines 162-169) *)

(** [np.mean([metrics[key] for metrics in fold_metrics])]. *)
Definition mean_over_folds (key : string) (fold_metrics : list metrics)
  : result npfloat :=
  vs <- mapM (fun m => getitem m key) fold_metrics ;;
  mean_values vs.

(** [np.mean([np.mean(metrics[key]) for metrics in fold_metrics])]. *)
Definition mean_of_means (key : string) (fold_metrics : list metrics)
  : result npfloat :=
  xs <- mapM (fun m => v <- getitem m key ;; Ok (mean_value v))
             fold_metrics ;;
  Ok (Np.mean xs).

Definition aggregate_metrics (fold_metrics : list metrics) : result metrics :=
  accuracy <- mean_over_folds "eval_accuracy" fold_metrics ;;
  precision <- mean_of_means "eval_precision" fold_metrics ;;
  recall <- mean_of_means "eval_recall" fold_metrics ;;
  f1 <- mean_of_means "eval_f1" fold_metrics ;;
  Ok [ ("accuracy", VFloat accuracy);
       ("precision", VFloat precision);
       ("recall", VFloat recall);
       ("f1", VFloat f1) ].

(* ---------------------------------------------------------------- *)
(** ** [cross_validate_model] (lines 85-160) *)

(** [l[i]] on a list, for an index that is not negative. *)
Definition item {A} (l : list A) (i : nat) : result A :=
  match nth_error l i with
  | Some a => Ok a
  | None => Raise IndexError
  end.

(** Lines 107-114: one dictionary of tensors per label, the [i]-th row
    of every encoding key and the [i]-th label. *)
Definition dataset (enc : encodings) (labels : list Z)
  : result (list example) :=
  mapM (fun i =>
          d <- mapM (fun kv =>
                       v <- item (snd kv) i ;;
                       t <- torch_tensor1 v ;;
                       Ok (fst kv, t)) enc ;;
          l <- item labels i ;;
          t <- torch_tensor0 l ;;
          Ok (Py.merge (Py.merge [] d) [("labels", t)]))
       (seq 0 (length labels)).

(** [num_labels] of line 119. *)
Definition num_labels (multiclass : bool) : nat :=
  if multiclass then length MULTICLASS_LABEL_MAP else 2.

(** Lines 123-131. *)
Definition training_args (output_dir : string) (fold : nat)
  : TrainingArguments :=
  {| output_dir := OsPath.join output_dir ("fold-" ++ str_of_nat fold);
     num_train_epochs := 3;
     per_device_train_batch_size := 16;
     eval_strategy := "epoch";
     save_strategy := "epoch";
     logging_dir :=
       OsPath.join output_dir ("fold-" ++ str_of_nat fold ++ "/logs");
     report_to := "none" |}.

(** Lines 99-114: the two datasets of one fold. *)
Definition fold_datasets (tokenizer : Tokenizer)
  (texts : list cell) (labels : list Z) (train_idx test_idx : list nat)
  : result (list example * list example) :=
  train_texts <- Np.take texts train_idx ;;
  test_texts <- Np.take texts test_idx ;;
  train_labels <- Np.take labels train_idx ;;
  test_labels <- Np.take labels test_idx ;;
  train <- preprocess_data train_texts train_labels tokenizer ;;
  test <- preprocess_data test_texts test_labels tokenizer ;;
  train_dataset <- dataset (fst train) (snd train) ;;
  test_dataset <- dataset (fst test) (snd test) ;;
  Ok (train_dataset, test_dataset).

(** Lines 94-149: one turn of the loop; the accumulator holds
    [fold_metrics] and [fold_detailed_metrics]. *)
Definition fold_body (model_id : string) (tokenizer : Tokenizer)
  (texts : list cell) (labels : list Z) (multiclass : bool)
  (output_dir : string)
  (acc : list metrics * list metrics)
  (it : nat * (list nat * list nat))
  : io (list metrics * list metrics) :=
  let '(fold, (train_idx, test_idx)) := it in
  datasets <~ io_lift (fold_datasets tokenizer texts labels
                         train_idx test_idx) ;;
  model <~ AutoModel_from_pretrained model_id (num_labels multiclass) ;;
  let training_args := training_args output_dir fold in
  trainer <~ Trainer_new {| model := model;
                            args := training_args;
                            train_dataset := fst datasets;
                            eval_dataset := snd datasets;
                            compute_metrics_fn := compute_metrics |} ;;
  trainer <~ Trainer_train trainer ;;
  eval_metrics <~ Trainer_evaluate trainer ;;
  io_lift (Ok (fst acc ++ [eval_metrics],
               snd acc ++ [Py.merge [("fold", VInt (Z.of_nat (fold + 1)))]
                                    eval_metrics])).

(** [enumerate]. *)
Definition enumerate {A} (l : list A) : list (nat * A) :=
  combine (seq 0 (length l)) l.

(** Lines 87-149: the splitter, the tokenizer and the loop over the
    folds. *)
Definition cross_validate_folds (model_id tokenizer_id : string)
  (texts : list cell) (labels : list Z) (k : nat) (multiclass : bool)
  (output_dir : string) : io (list metrics * list metrics) :=
  skf <~ io_lift (Sk.new_StratifiedKFold k true 42) ;;
  tokenizer <~ AutoTokenizer_from_pretrained tokenizer_id ;;
  let test_folds :=
    Sk.make_test_folds skf (shuffle_keys (Sk.random_state skf) labels)
                       labels in
  splits <~ io_lift (Sk.split skf test_folds texts labels) ;;
  io_foldM (fold_body model_id tokenizer texts labels multiclass output_dir)
           ([], []) (enumerate splits).

Definition cross_validate_model (model_id tokenizer_id : string)
  (texts : list cell) (labels : list Z) (k : nat) (multiclass : bool)
  (output_dir : string) : io metrics :=
  folds <~ cross_validate_folds model_id tokenizer_id texts labels
             k multiclass output_dir ;;
  let '(fold_metrics, fold_detailed_metrics) := folds in
  let fold_metrics_csv := OsPath.join output_dir "fold_metrics.csv" in
  _ <~ to_csv fold_detailed_metrics fold_metrics_csv ;;
  io_lift (aggregate_metrics fold_metrics).

(* ---------------------------------------------------------------- *)
(** ** [save_metrics] (lines 171-175) *)

(** [pd.DataFrame(metrics, index=[0])]: one row; a list value must have
    exactly the one element the index asks for. *)
Definition one_row_frame (m : metrics) : result (list metrics) :=
  row <- mapM (fun kv =>
                 match snd kv with
                 | VList [x] => Ok (fst kv, VFloat x)
                 | VList _ => Raise ValueError
                 | v => Ok (fst kv, v)
                 end) m ;;
  Ok [row].

Definition save_metrics (m : metrics) (output_csv : string) : io unit :=
  metrics_df <~ io_lift (one_row_frame m) ;;
  to_csv metrics_df output_csv.

(* ---------------------------------------------------------------- *)
(** ** [main] (lines 177-200) *)

(** The parsed command line. *)
Record Args : Type := {
  model_id : string;
  tokenizer_id : string;
  input_csv : string;
  multiclass : bool
}.

(** Line 199. *)
Definition avg_metrics_csv (output_dir : string) (a : Args) : string :=
  OsPath.join output_dir
    (model_id a ++ "-" ++ (if multiclass a then "multiclass" else "binary")
       ++ "_metrics.csv").

(** [main], from the parsed arguments and the frame
    [pd.read_csv(args.input_csv)] returns. *)
Definition main (a : Args) (csv : list row) : io unit :=
  df <~ io_lift (load_data csv (multiclass a)) ;;
  _ <~ io_lift (display_emotion_counts df) ;;
  texts <~ io_lift (sentence_column df) ;;
  labels <~ io_lift (labels_of df) ;;
  let output_dir := "./evaluation" in
  _ <~ makedirs output_dir ;;
  avg_metrics <~ cross_validate_model (model_id a) (tokenizer_id a)
                   texts labels 10 (multiclass a) output_dir ;;
  save_metrics avg_metrics (avg_metrics_csv output_dir a).

End Pipeline.

(* ================================================================== *)
(** * Vocabulary of the statements *)
(* ================================================================== *)

(** The code of a cell in [MULTICLASS_LABEL_MAP], when it is a key. *)
Definition code_of (c : cell) : option Z :=
  match c with
  | CStr s => Py.lookup MULTICLASS_LABEL_MAP s
  | CNum _ | CNaN => None
  end.

(** The cell holds one of the nine keys of [MULTICLASS_LABEL_MAP]. *)
Definition is_key (c : cell) : Prop :=
  exists s, c = CStr s /\ In s (Py.keys MULTICLASS_LABEL_MAP).

(** A row multiclass [load_data] accepts: emotion-A is a key, and
    emotion-B is missing or a key. *)
Definition valid_row (r : row) : Prop :=
  is_key (emotion_A r) /\ (emotion_B r = CNaN \/ is_key (emotion_B r)).

(** The label the flattened column holds for a row, when the row is
    accepted. *)
Definition row_code (r : row) : option Z :=
  match code_of (emotion_A r) with
  | None => None
  | Some a =>
      if notna (emotion_B r) then
        match code_of (emotion_B r) with
        | Some _ => Some a
        | None => None
        end
      else Some a
  end.

(** The flattened label of a row, or the [KeyError] its lookup raises. *)
Definition row_label (r : row) : result Z :=
  match row_code r with
  | Some a => Ok a
  | None => Raise KeyError
  end.

(** The binary label of an emotion for a row. *)
Definition flag (emotion : string) (r : row) : Z :=
  if emotion_in emotion r then 1%Z else 0%Z.

(** A dictionary with the given keys, each with the list [f] gives. *)
Definition tabulate (f : string -> list Z) (ks : list string)
  : list (string * list Z) :=
  map (fun k => (k, f k)) ks.

(** The sum of a list of rationals. *)
Definition sum_Q (l : list Q) : Q := fold_right Qplus 0%Q l.

(** The arithmetic mean, in the spec's words: the sum of the values
    divided by their number. *)
Definition arithmetic_mean (l : list Q) : Q :=
  (sum_Q l / inject_Z (Z.of_nat (length l)))%Q.

(** The mean numpy computes for a non-empty array of finite floats. *)
Definition np_mean_Q (qs : list Q) : Q :=
  (Np.total qs / inject_Z (Z.of_nat (length qs)))%Q.

(** [i] is the argmax of a row of scores: in range, no score is larger,
    and every earlier score is smaller. *)
Definition is_argmax (scores : list Q) (i : nat) : Prop :=
  i < length scores /\
  (forall j, j < length scores -> (nth j scores 0 <= nth i scores 0)%Q) /\
  (forall j, j < i -> (nth j scores 0 < nth i scores 0)%Q).

(** The number of samples whose predicted class equals the true label. *)
Fixpoint agreements (labels : list Z) (predicted : list nat) : nat :=
  match labels, predicted with
  | l :: labels', p :: predicted' =>
      (if (l =? Z.of_nat p)%Z then 1 else 0) + agreements labels' predicted'
  | _, _ => 0
  end.

(** A ratio of two counts, 0 when the denominator is 0. *)
Definition ratio (num den : nat) : Q :=
  match den with
  | O => 0%Q
  | S _ => (inject_Z (Z.of_nat num) / inject_Z (Z.of_nat den))%Q
  end.

(** Per class [c]: the samples labelled [c], those predicted [c], and
    those both. *)
Definition actual (labels : list Z) (c : Z) : nat :=
  count_occ Z.eq_dec labels c.

Definition predicted_as (predicted : list nat) (c : Z) : nat :=
  count_occ Z.eq_dec (map Z.of_nat predicted) c.

Fixpoint true_positives (labels : list Z) (predicted : list nat) (c : Z)
  : nat :=
  match labels, predicted with
  | l :: labels', p :: predicted' =>
      (if (l =? c)%Z && (Z.of_nat p =? c)%Z then 1 else 0)
      + true_positives labels' predicted' c
  | _, _ => 0
  end.

(** What a fold's metric record holds: the accuracy of the fold and its
    per-class precision, recall and F1. *)
Record fold_record : Type := {
  eval_accuracy : Q;
  eval_precision : list Q;
  eval_recall : list Q;
  eval_f1 : list Q
}.

(** The dictionary [m] is a fold metric record with the contents [r]:
    it has the four keys [aggregate_metrics] reads, the accuracy a float
    and the others non-empty per-class lists of floats. *)
Definition holds (m : metrics) (r : fold_record) : Prop :=
  Py.lookup m "eval_accuracy" = Some (VFloat (Fin (eval_accuracy r))) /\
  (Py.lookup m "eval_precision" = Some (VList (map Fin (eval_precision r)))
   /\ eval_precision r <> []) /\
  (Py.lookup m "eval_recall" = Some (VList (map Fin (eval_recall r)))
   /\ eval_recall r <> []) /\
  (Py.lookup m "eval_f1" = Some (VList (map Fin (eval_f1 r)))
   /\ eval_f1 r <> []).

(** ** Sample inputs *)

Definition sample_row (text a : string) (b : cell) : row :=
  {| sentence := CStr text; emotion_A := CStr a; emotion_B := b |}.

(** Two rows with the same emotion-A and different, valid emotion-B. *)
Definition two_joy_rows : list row :=
  [ sample_row "I love it" "Joy" (CStr "Sadness");
    sample_row "so much fun" "Joy" (CStr "Anger") ].

(** Two fold records, as dictionaries and as contents. *)
Definition sample_fold_metrics : list metrics :=
  [ [ ("eval_loss", VFloat (Fin (1 # 2)));
      ("eval_accuracy", VFloat (Fin (1 # 2)));
      ("eval_precision", VList [Fin 1; Fin 0]);
      ("eval_recall", VList [Fin (1 # 2); Fin 0]);
      ("eval_f1", VList [Fin (2 # 3); Fin 0]) ];
    [ ("eval_loss", VFloat (Fin (1 # 4)));
      ("eval_accuracy", VFloat (Fin 1));
      ("eval_precision", VList [Fin 1; Fin 1; Fin 1]);
      ("eval_recall", VList [Fin 1; Fin 1; Fin 1]);
      ("eval_f1", VList [Fin 1; Fin 1; Fin 1]) ] ].

Definition sample_fold_records : list fold_record :=
  [ {| eval_accuracy := 1 # 2;
       eval_precision := [1; 0];
       eval_recall := [1 # 2; 0];
       eval_f1 := [2 # 3; 0] |};
    {| eval_accuracy := 1;
       eval_precision := [1; 1; 1];
       eval_recall := [1; 1; 1];
       eval_f1 := [1; 1; 1] |} ]%Q.

(** Score rows for three samples and their labels. *)
Definition sample_preds : list (list Q) :=
  [ [1; 2; 0]; [3; 1; 1]; [0; 0; 5] ]%Q.

Definition sample_labels : list Z := [1; 0; 1]%Z.

(** Twelve rows: ten of one emotion, two of another. *)
Definition sample_csv : list row :=
  repeat (sample_row "what a day" "Joy" CNaN) 10
  ++ [ sample_row "not again" "Sadness" (CStr "Fear");
       sample_row "oh no" "Sadness" CNaN ].


(** ** A small environment to run the pipeline in

    Tokenizers and models are their identifiers, a trainer is the
    arguments it was made from, every text gets the same two tokens,
    training saves one checkpoint file under the output directory of
    the trainer, evaluation scores class 0 highest for every example and
    reports the metrics of [compute_metrics] under the prefix [eval_],
    the shuffle keeps the order, and every path can be written. *)

(** The label an example carries (0 when it carries none). *)
Definition example_label (ex : example) : Z :=
  match Py.lookup ex "labels" with
  | Some (Tensor0 z) => z
  | _ => 0%Z
  end.

Definition toy_evaluate (t : TrainerInit nat) : io metrics :=
  io_lift (m <- compute_metrics_fn t
                  (map (fun _ => [1; 0]%Q) (eval_dataset t),
                   map example_label (eval_dataset t)) ;;
           Ok (map (fun kv => (("eval_" ++ fst kv)%string, snd kv)) m)).

Definition checkpoint_path (t : TrainerInit nat) : string :=
  OsPath.join (output_dir (args t)) "checkpoint-1/model.safetensors".

Definition toy_train (t : TrainerInit nat) : io (TrainerInit nat) :=
  fun fs =>
    (Ok t, {| directories := directories fs;
              files := (checkpoint_path t, Data "weights") :: files fs |}).

Definition toy_env : Environment :=
  {| Tokenizer := string;
     Model := nat;
     Trainer := TrainerInit nat;
     AutoTokenizer_from_pretrained := fun id => io_lift (Ok id);
     tokenizer_call := fun _ texts _ _ _ =>
       Ok [("input_ids", map (fun _ => [101; 102]%Z) texts)];
     AutoModel_from_pretrained := fun _ n => io_lift (Ok n);
     Trainer_new := fun t => io_lift (Ok t);
     Trainer_train := toy_train;
     Trainer_evaluate := toy_evaluate;
     shuffle_keys := fun _ _ _ position => position;
     os_permits := fun _ _ => true |}.

Definition empty_fs : FS := {| directories := []; files := [] |}.

(** The command line of a multiclass run on a model stored at an
    absolute path. *)
Definition absolute_args : Args :=
  {| model_id := "/opt/models/bert";
     tokenizer_id := "bert-base-uncased";
     input_csv := "reviews.csv";
     multiclass := true |}.

(** The command line of a multiclass run on a model of the hub. *)
Definition relative_args : Args :=
  {| model_id := "bert-base-uncased";
     tokenizer_id := "bert-base-uncased";
     input_csv := "reviews.csv";
     multiclass := true |}.

(** ** What happened in a run

    The statements about the loop speak of the calls the run made to
    the libraries, in their order, each from the file system the call
    before it left. *)

(** What one fold did: the sample indices it trained and tested on, the
    arguments it gave to [Trainer(...)], the trainer as [train()] left
    it, and the metrics [evaluate()] returned. *)
Record fold_run {env : Environment} : Type := {
  train_idx : list nat;
  test_idx : list nat;
  init : TrainerInit Model;
  trained : Trainer;
  metrics_of : metrics
}.

(** [fold_steps model_id n fs runs fs']: from the file system [fs], one
    fold after the other loaded the model [model_id] with [n] labels,
    made a trainer from the model just loaded and the fold's other
    arguments, trained that trainer and evaluated it, each call
    returning without an exception, and the last one left [fs']. *)
Inductive fold_steps {env : Environment} (model_id : string) (n : nat)
  : FS -> list fold_run -> FS -> Prop :=
| no_fold (fs : FS) : fold_steps model_id n fs [] fs
| one_fold (fs fs1 fs2 fs3 fs4 fs' : FS) (r : fold_run) (t : Trainer)
    (rs : list fold_run) :
    AutoModel_from_pretrained model_id n fs = (Ok (model (init r)), fs1) ->
    Trainer_new (init r) fs1 = (Ok t, fs2) ->
    Trainer_train t fs2 = (Ok (trained r), fs3) ->
    Trainer_evaluate (trained r) fs3 = (Ok (metrics_of r), fs4) ->
    fold_steps model_id n fs4 rs fs' ->
    fold_steps model_id n fs (r :: rs) fs'.

(** [ds] is the dataset of the samples [idx]: the tokenizer was called
    on the texts of these samples, in their order, and the example at
    position [p] holds the label of sample [idx[p]] under ['labels'],
    row [p] of every other key of the encodings, and nothing else. *)
Definition is_dataset_of {env : Environment} (tokenizer : Tokenizer)
  (texts : list cell) (labels : list Z) (idx : list nat)
  (ds : list example) : Prop :=
  exists enc : encodings,
    tokenizer_call tokenizer (map (fun j => nth j texts CNaN) idx)
                   true true 128 = Ok enc /\
    length ds = length idx /\
    forall p j,
      nth_error idx p = Some j ->
      exists ex,
        nth_error ds p = Some ex /\
        Py.lookup ex "labels" = Some (Tensor0 (nth j labels 0%Z)) /\
        (NoDup (Py.keys enc) ->
         forall key rows,
           key <> "labels" -> Py.lookup enc key = Some rows ->
           exists v, nth_error rows p = Some v
                     /\ Py.lookup ex key = Some (Tensor1 v)) /\
        (forall key, In key (Py.keys ex) ->
                     key = "labels" \/ In key (Py.keys enc)).

(** What the turn [fold] of the loop gave to [Trainer(...)]: the two
    datasets of lines 99-114 for the fold's indices, the training
    arguments of the fold, and [compute_metrics]. *)
Definition ran_fold {env : Environment} (tokenizer : Tokenizer)
  (texts : list cell) (labels : list Z) (output_dir : string)
  (fold : nat) (r : fold_run) : Prop :=
  fold_datasets tokenizer texts labels (train_idx r) (test_idx r)
  = Ok (train_dataset (init r), eval_dataset (init r)) /\
  args (init r) = training_args output_dir fold /\
  compute_metrics_fn (init r) = compute_metrics.

(** The row of [fold_metrics.csv] for fold index [fst im] with the
    metrics [snd im]. *)
Definition detailed (im : nat * metrics) : metrics :=
  Py.merge [("fold", VInt (Z.of_nat (fst im + 1)))] (snd im).

(** [row] is the row of [fold_metrics.csv] for the fold at position [i]
    whose evaluation returned [m]: it is numbered [i + 1] and carries
    the entries of [m] (a dictionary: distinct keys; the number is under
    ['fold'] unless [m] has that key itself). *)
Definition is_fold_row (i : nat) (m row : metrics) : Prop :=
  (~ In "fold" (Py.keys m) ->
   Py.lookup row "fold" = Some (VInt (Z.of_nat (i + 1)))) /\
  (NoDup (Py.keys m) ->
   forall k v, Py.lookup m k = Some v -> Py.lookup row k = Some v).



(** A statement that leaves the whole file system as it was. *)
Definition silent {A} (c : io A) : Prop := forall fs, snd (c fs) = fs.

(** None of the library calls of the loop writes anything. *)
Definition libraries_silent {env : Environment} : Prop :=
  (forall id, silent (AutoTokenizer_from_pretrained id)) /\
  (forall id n, silent (AutoModel_from_pretrained id n)) /\
  (forall t, silent (Trainer_new t)) /\
  (forall t, silent (Trainer_train t)) /\
  (forall t, silent (Trainer_evaluate t)).

(** The texts and the labels of [sample_csv]. *)
Definition sample_texts : list cell := map sentence sample_csv.

Definition sample_class_labels : list Z := repeat 0%Z 10 ++ [1%Z; 1%Z].

(** The loop of [cross_validate_model] on the sample, in the small
    environment. *)
Definition sample_run : result (list metrics * list metrics) * FS :=
  @cross_validate_folds toy_env "bert-base-uncased" "bert-base-uncased"
    sample_texts sample_class_labels 10 true "./evaluation" empty_fs.

(** The splitter [cross_validate_model] constructs for [k] folds. *)
Definition skf_of (k : nat) : Sk.StratifiedKFold :=
  {| Sk.n_splits := k; Sk.shuffle := true; Sk.random_state := 42 |}.

(** The fold numbers of the labels [y] in a run with [k] folds. *)
Definition test_folds_of {env : Environment} (k : nat) (y : list Z)
  : list nat :=
  Sk.make_test_folds (skf_of k) (shuffle_keys 42 y) y.

(** ** Further vocabulary *)

(** A frame of nine valid rows: one short of the ten folds. *)
Definition nine_rows : list row := firstn 9 sample_csv.

(** The path of [fold_metrics.csv] in [main]. *)
Definition fold_metrics_path : string :=
  OsPath.join "./evaluation" "fold_metrics.csv".

(** The dictionary has the four keys [aggregate_metrics] reads. *)
Definition has_eval_keys (m : metrics) : Prop :=
  forall k, In k ["eval_accuracy"; "eval_precision"; "eval_recall"; "eval_f1"]
            -> exists v, Py.lookup m k = Some v.

(** A rational between 0 and 1. *)
Definition in_unit (q : Q) : Prop := (0 <= q <= 1)%Q.

(** A float that is a number between 0 and 1. *)
Definition unit_float (x : npfloat) : Prop :=
  exists q, x = Fin q /\ in_unit q.

(** A fold record whose accuracy and per-class values are all between 0
    and 1. *)
Definition unit_record (r : fold_record) : Prop :=
  in_unit (eval_accuracy r) /\
  Forall in_unit (eval_precision r) /\
  Forall in_unit (eval_recall r) /\
  Forall in_unit (eval_f1 r).

(** The four averages as [aggregate_metrics] returns them. *)
Definition averages (a p r f : Q) : metrics :=
  [ ("accuracy", VFloat (Fin a)); ("precision", VFloat (Fin p));
    ("recall", VFloat (Fin r)); ("f1", VFloat (Fin f)) ].

(** The tensors of sample [i]: the comprehension of lines 108 and 112. *)
Definition tensors_at (enc : encodings) (i : nat) : result example :=
  mapM (fun kv =>
          v <- item (snd kv) i ;;
          t <- torch_tensor1 v ;;
          Ok (fst kv, t)) enc.

(** An integer a 64-bit tensor can hold. *)
Definition int64 (z : Z) : Prop := (- 2 ^ 63 <= z < 2 ^ 63)%Z.

(** The integers of the first [n] rows of every key of the encodings
    fit in 64 bits. *)
Definition rows_fit (n : nat) (enc : encodings) : Prop :=
  Forall (fun kv => Forall (Forall int64) (firstn n (snd kv))) enc.

(** An encoding of two keys for three texts, and three labels. *)
Definition sample_encodings : encodings :=
  [ ("input_ids", [[101; 7592; 102]; [101; 2088; 102]; [101; 999; 102]]%Z);
    ("attention_mask", [[1; 1; 1]; [1; 1; 1]; [1; 1; 1]]%Z) ].

(** The train and test indices of the first fold of the sample. *)
Definition fold0_train : list nat := [1; 2; 3; 4; 5; 6; 7; 8; 9; 11].

Definition fold0_test : list nat := [0; 10].

(** The strings a cell can be equal to. *)
Definition cell_strings (c : cell) : list string :=
  match c with
  | CStr s => [s]
  | CNum _ | CNaN => []
  end.

(** The binary label list of an emotion has a 1 at row [i]. *)
Definition positive_at (i : nat) (kv : string * list Z) : bool :=
  match nth_error (snd kv) i with
  | Some z => (z =? 1)%Z
  | None => false
  end.

(* ================================================================== *)
(** * Theorems *)
(* ================================================================== *)

(** ** Results and dictionaries *)

Lemma bind_Ok {A B} (c : result A) (k : A -> result B) (b : B) :
  Py.bind c k = Ok b -> exists a, c = Ok a /\ k a = Ok b.
Proof.
  destruct c as [a|e]; simpl; intros H; [eauto | discriminate].
Qed.

Lemma lookup_keys {V} (d : list (string * V)) (k : string) :
  (exists v, Py.lookup d k = Some v) <-> In k (Py.keys d).
Proof.
  induction d as [|[k' v'] d IH]; simpl.
  - split; [intros [v H]; discriminate | tauto].
  - destruct (String.eqb_spec k' k) as [->|Hne].
    + split; eauto.
    + rewrite IH. split; [tauto | intros [H|H]; [contradiction | exact H]].
Qed.

Lemma lookup_tabulate (f : string -> list Z) (ks : list string) (k : string) :
  In k ks -> Py.lookup (tabulate f ks) k = Some (f k).
Proof.
  induction ks as [|k' ks IH]; simpl; [tauto|].
  intros [->|H].
  - now rewrite String.eqb_refl.
  - destruct (String.eqb_spec k' k) as [->|_]; auto.
Qed.

Lemma setitem_tabulate (f : string -> list Z) (ks : list string)
  (k : string) (v : list Z) :
  NoDup ks -> In k ks ->
  Py.setitem (tabulate f ks) k v
  = tabulate (fun k' => if String.eqb k' k then v else f k') ks.
Proof.
  induction ks as [|k' ks IH]; simpl; [tauto|].
  intros Hnd Hin. inversion Hnd as [|? ? Hnotin Hnd']; subst.
  destruct (String.eqb_spec k' k) as [->|Hne].
  - f_equal. apply map_ext_in. intros a Ha.
    destruct (String.eqb_spec a k) as [->|_]; [contradiction | reflexivity].
  - f_equal. apply IH; [assumption|]. destruct Hin; [contradiction | assumption].
Qed.

(** ** [load_data], binary mode *)

Lemma binary_step_tabulate (r : row) (f : string -> list Z)
  (ks : list string) (k : string) :
  NoDup ks -> In k ks ->
  binary_step r (tabulate f ks) k
  = Ok (tabulate (fun k' => if String.eqb k' k then f k ++ [flag k r]
                            else f k') ks).
Proof.
  intros Hnd Hin. unfold binary_step, Py.getitem.
  rewrite (lookup_tabulate f ks k Hin). simpl.
  unfold flag. destruct (emotion_in k r); simpl;
    now rewrite setitem_tabulate.
Qed.

Lemma existsb_eqb_In (k : string) (ks : list string) :
  existsb (String.eqb k) ks = true <-> In k ks.
Proof.
  rewrite existsb_exists. split.
  - intros [x [Hin Heq]]. apply String.eqb_eq in Heq. now subst.
  - intros Hin. exists k. split; [assumption | apply String.eqb_refl].
Qed.

Lemma inner_loop (r : row) (ks : list string) :
  NoDup ks ->
  forall (todo : list string) (f : string -> list Z),
    NoDup todo -> incl todo ks ->
    foldM (binary_step r) (tabulate f ks) todo
    = Ok (tabulate (fun k => if existsb (String.eqb k) todo
                             then f k ++ [flag k r] else f k) ks).
Proof.
  intros Hks todo. induction todo as [|k0 todo IH]; intros f Hnd Hincl.
  - reflexivity.
  - inversion Hnd as [|? ? Hnotin Hnd']; subst.
    cbn [foldM]. rewrite binary_step_tabulate by (auto with datatypes).
    cbn [Py.bind]. rewrite IH by (auto; intros x Hx; apply Hincl; now right).
    f_equal. apply map_ext. intros k. cbn [existsb].
    destruct (String.eqb_spec k k0) as [->|Hne]; cbn [orb].
    + destruct (existsb (String.eqb k0) todo) eqn:E; [|reflexivity].
      apply existsb_eqb_In in E. contradiction.
    + reflexivity.
Qed.

Lemma NoDup_keys_MULTICLASS : NoDup (Py.keys MULTICLASS_LABEL_MAP).
Proof.
  cbn. repeat constructor; cbn; intuition discriminate.
Qed.

Lemma binary_loop (rs : list row) :
  forall f : string -> list Z,
    foldM (fun d r => foldM (binary_step r) d (Py.keys MULTICLASS_LABEL_MAP))
          (tabulate f (Py.keys MULTICLASS_LABEL_MAP)) rs
    = Ok (tabulate (fun k => f k ++ map (flag k) rs)
                   (Py.keys MULTICLASS_LABEL_MAP)).
Proof.
  induction rs as [|r rs IH]; intros f.
  - cbn [foldM map]. f_equal. apply map_ext. intros k. now rewrite app_nil_r.
  - cbn [foldM].
    rewrite (inner_loop r _ NoDup_keys_MULTICLASS _ f NoDup_keys_MULTICLASS)
      by apply incl_refl.
    cbn [Py.bind].
    assert (E : tabulate (fun k => if existsb (String.eqb k)
                                        (Py.keys MULTICLASS_LABEL_MAP)
                                   then f k ++ [flag k r] else f k)
                         (Py.keys MULTICLASS_LABEL_MAP)
                = tabulate (fun k => f k ++ [flag k r])
                           (Py.keys MULTICLASS_LABEL_MAP)).
    { apply map_ext_in. intros k Hk. apply existsb_eqb_In in Hk.
      now rewrite Hk. }
    rewrite E, IH. f_equal. apply map_ext. intros k.
    now rewrite <- app_assoc.
Qed.

Lemma binary_labels_of_eq (rs : list row) :
  binary_labels_of rs
  = Ok (tabulate (fun k => map (flag k) rs) (Py.keys MULTICLASS_LABEL_MAP)).
Proof.
  unfold binary_labels_of.
  exact (binary_loop rs (fun _ => [])).
Qed.

Lemma str_eq_cell_iff (s : string) (c : cell) :
  str_eq_cell s c = true <-> c = CStr s.
Proof.
  destruct c as [s'| |]; simpl; try (split; intros; discriminate).
  rewrite String.eqb_eq. split; intros H; [now subst | now inversion H].
Qed.

Lemma emotion_in_iff (emotion : string) (r : row) :
  emotion_in emotion r = true
  <-> emotion_A r = CStr emotion \/ emotion_B r = CStr emotion.
Proof.
  unfold emotion_in. cbn [existsb].
  rewrite orb_false_r, orb_true_iff, !str_eq_cell_iff. tauto.
Qed.

(** C3: in binary mode [load_data] returns nine label lists, one per
    emotion of [MULTICLASS_LABEL_MAP] and in its order, each with one
    entry per row of the input; the entry of emotion [e] at row [r] is 1
    exactly when [e] is the row's emotion-A or emotion-B value, and 0
    otherwise. *)
Theorem load_data_binary_labels (df : list row) :
  exists bl : list (string * list Z),
    load_data df false = Ok (RetTuple (read_frame df) bl) /\
    Py.keys bl = Py.keys MULTICLASS_LABEL_MAP /\
    length bl = 9 /\
    forall emotion : string,
      In emotion (Py.keys MULTICLASS_LABEL_MAP) ->
      exists l : list Z,
        Py.lookup bl emotion = Some l /\
        length l = length df /\
        forall (i : nat) (r : row),
          nth_error df i = Some r ->
          (nth_error l i = Some 1%Z /\
           (emotion_A r = CStr emotion \/ emotion_B r = CStr emotion))
          \/
          (nth_error l i = Some 0%Z /\
           emotion_A r <> CStr emotion /\ emotion_B r <> CStr emotion).
Proof.
  exists (tabulate (fun k => map (flag k) df) (Py.keys MULTICLASS_LABEL_MAP)).
  split; [|split; [|split]].
  - unfold load_data. now rewrite binary_labels_of_eq.
  - unfold tabulate, Py.keys. rewrite map_map. cbn [fst]. apply map_id.
  - reflexivity.
  - intros emotion Hin. exists (map (flag emotion) df).
    split; [now apply lookup_tabulate|].
    split; [apply length_map|].
    intros i r Hr. rewrite nth_error_map, Hr. cbn [option_map].
    unfold flag. destruct (emotion_in emotion r) eqn:E.
    + left. split; [reflexivity|]. now apply emotion_in_iff.
    + right. split; [reflexivity|].
      split; intros H;
        (assert (emotion_in emotion r = true) as E'
            by (apply emotion_in_iff; tauto));
        congruence.
Qed.

(** ** [load_data], multiclass mode *)

Lemma multiclass_label_code (c : cell) :
  multiclass_label c
  = match code_of c with
    | Some z => Ok z
    | None => Raise KeyError
    end.
Proof.
  destruct c; reflexivity.
Qed.

Lemma code_of_is_key (c : cell) :
  (exists z, code_of c = Some z) <-> is_key c.
Proof.
  unfold is_key. destruct c as [s|n|]; cbn [code_of].
  - rewrite lookup_keys. split.
    + intros H. now exists s.
    + intros [s' [E H]]. now inversion E; subst.
  - split; [intros [z H]; discriminate | intros [s [E _]]; discriminate].
  - split; [intros [z H]; discriminate | intros [s [E _]]; discriminate].
Qed.

Lemma code_of_range (c : cell) (z : Z) :
  code_of c = Some z -> (0 <= z <= 8)%Z.
Proof.
  destruct c as [s|n|]; cbn [code_of]; try discriminate.
  cbn [Py.lookup MULTICLASS_LABEL_MAP].
  repeat match goal with
         | |- context [String.eqb ?a s] => destruct (String.eqb a s)
         end;
    intros H; inversion H; lia.
Qed.

Lemma row_code_valid (r : row) :
  (exists z, row_code r = Some z) <-> valid_row r.
Proof.
  unfold row_code, valid_row.
  rewrite <- !code_of_is_key.
  destruct (code_of (emotion_A r)) as [a|].
  - destruct (emotion_B r) as [s|n|] eqn:EB; cbn [notna].
    + destruct (code_of (CStr s)) as [b|].
      * split; eauto.
      * split; [intros [z H]; discriminate|].
        intros [_ [H|[z H]]]; discriminate.
    + cbn [code_of]. split; [intros [z H]; discriminate|].
      intros [_ [H|[z H]]]; discriminate.
    + split; eauto.
  - split; [intros [z H]; discriminate|].
    intros [[z H] _]; discriminate.
Qed.

Lemma row_labels_cases (r : row) :
  (exists a tl, row_labels (emotion_A r) (emotion_B r) = Ok (a :: tl)
                /\ row_code r = Some a)
  \/ (row_labels (emotion_A r) (emotion_B r) = Raise KeyError
       /\ row_code r = None).
Proof.
  unfold row_labels, row_code. rewrite !multiclass_label_code.
  destruct (code_of (emotion_A r)) as [a|];
    destruct (notna (emotion_B r)); cbn;
    try destruct (code_of (emotion_B r)); cbn;
    first [ left; do 2 eexists; split; reflexivity
          | right; split; reflexivity ].
Qed.

Lemma apply_row_labels (rs : list row) :
  (ls <- mapM (fun r => row_labels (emotion_A r) (emotion_B r)) rs ;;
   mapM first ls)
  = mapM row_label rs.
Proof.
  induction rs as [|r rs IH]; [reflexivity|].
  cbn [mapM]. unfold row_label at 1.
  destruct (row_labels_cases r) as [[a [tl [E C]]]|[E C]]; rewrite E, C;
    cbn [Py.bind]; [|reflexivity].
  rewrite <- IH.
  destruct (mapM (fun r0 => row_labels (emotion_A r0) (emotion_B r0)) rs)
    as [ls|e]; reflexivity.
Qed.

Lemma multiclass_labels_eq (rs : list row) :
  rs <> [] -> multiclass_labels rs = mapM row_label rs.
Proof.
  intros Hne. unfold multiclass_labels.
  destruct rs as [|r rs]; [contradiction|]. apply apply_row_labels.
Qed.

Lemma multiclass_labels_Ok (rs : list row) (ls : list Z) :
  multiclass_labels rs = Ok ls -> rs <> [] /\ mapM row_label rs = Ok ls.
Proof.
  intros H. assert (Hne : rs <> []) by (intros ->; discriminate).
  split; [assumption|]. now rewrite <- multiclass_labels_eq.
Qed.

Lemma mapM_Forall2 {A B} (f : A -> result B) (l : list A) (bs : list B) :
  mapM f l = Ok bs <-> Forall2 (fun a b => f a = Ok b) l bs.
Proof.
  revert bs. induction l as [|a l IH]; intros bs; cbn [mapM].
  - split; intros H; [inversion H; constructor | now inversion H].
  - split.
    + intros H. apply bind_Ok in H as [b [Hb H]].
      apply bind_Ok in H as [bs' [Hbs H]]. inversion H; subst.
      constructor; [assumption | now apply IH].
    + intros H. inversion H as [|? b ? bs' Hb Hbs]; subst.
      apply IH in Hbs. now rewrite Hb, Hbs.
Qed.

Lemma mapM_Raise {A B} (f : A -> result B) (l : list A) (e : exn) :
  mapM f l = Raise e -> exists a, In a l /\ f a = Raise e.
Proof.
  induction l as [|a l IH]; cbn [mapM]; [discriminate|].
  destruct (f a) as [b|e'] eqn:Ea; cbn [Py.bind].
  - destruct (mapM f l) as [bs|e'']; cbn [Py.bind]; [discriminate|].
    intros H. destruct (IH H) as [a' [Hin Ha']]. exists a'. split; auto.
    now right.
  - intros H. inversion H; subst. exists a. split; [now left | assumption].
Qed.

Lemma mapM_length {A B} (f : A -> result B) (l : list A) (bs : list B) :
  mapM f l = Ok bs -> length bs = length l.
Proof.
  intros H. apply mapM_Forall2 in H. symmetry.
  exact (Forall2_length H).
Qed.

Lemma mapM_nth_error {A B} (f : A -> result B) (l : list A) (bs : list B) :
  mapM f l = Ok bs ->
  forall i a, nth_error l i = Some a ->
              exists b, nth_error bs i = Some b /\ f a = Ok b.
Proof.
  intros H. apply mapM_Forall2 in H.
  induction H as [|a0 b0 l bs H0 H IH]; intros i a Hi.
  - destruct i; discriminate.
  - destruct i as [|i]; cbn in *.
    + inversion Hi; subst. eauto.
    + eauto.
Qed.

Lemma row_label_Ok (r : row) (z : Z) :
  row_label r = Ok z <-> row_code r = Some z.
Proof.
  unfold row_label. destruct (row_code r); split; intros H;
    inversion H; reflexivity.
Qed.

Lemma row_label_Raise (r : row) (e : exn) :
  row_label r = Raise e -> e = KeyError.
Proof.
  unfold row_label. destruct (row_code r); intros H; inversion H; reflexivity.
Qed.

Lemma row_code_emotion_A (r : row) (z : Z) :
  row_code r = Some z -> code_of (emotion_A r) = Some z.
Proof.
  unfold row_code. destruct (code_of (emotion_A r)) as [a|]; [|discriminate].
  destruct (notna (emotion_B r)); [|trivial].
  destruct (code_of (emotion_B r)); [trivial | discriminate].
Qed.

Lemma multiclass_labels_valid (rs : list row) (ls : list Z) :
  multiclass_labels rs = Ok ls -> Forall valid_row rs.
Proof.
  intros H. apply multiclass_labels_Ok in H as [_ H].
  apply mapM_Forall2 in H.
  induction H as [|r z rs ls Hr H IH]; constructor; [|assumption].
  apply row_code_valid. exists z. now apply row_label_Ok.
Qed.

Lemma multiclass_labels_total (rs : list row) :
  rs <> [] -> Forall valid_row rs -> exists ls, multiclass_labels rs = Ok ls.
Proof.
  intros Hne. rewrite (multiclass_labels_eq rs Hne). clear Hne.
  induction 1 as [|r rs Hr H [ls IH]]; [now exists []|].
  apply row_code_valid in Hr as [z Hz]. exists (z :: ls).
  cbn [mapM]. apply row_label_Ok in Hz. now rewrite Hz, IH.
Qed.

Lemma multiclass_labels_KeyError (rs : list row) (e : exn) :
  rs <> [] -> multiclass_labels rs = Raise e -> e = KeyError.
Proof.
  intros Hne. rewrite (multiclass_labels_eq rs Hne). intros H.
  apply mapM_Raise in H as [r [_ Hr]]. exact (row_label_Raise r e Hr).
Qed.

Lemma multiclass_labels_length (rs : list row) (ls : list Z) :
  multiclass_labels rs = Ok ls -> length ls = length rs.
Proof.
  intros H. apply multiclass_labels_Ok in H as [_ H].
  exact (mapM_length _ _ _ H).
Qed.

Lemma multiclass_labels_nth (rs : list row) (ls : list Z) :
  multiclass_labels rs = Ok ls ->
  forall i r, nth_error rs i = Some r ->
              exists z, code_of (emotion_A r) = Some z
                        /\ nth_error ls i = Some z.
Proof.
  intros H i r Hi. apply multiclass_labels_Ok in H as [_ H].
  destruct (mapM_nth_error _ _ _ H i r Hi) as [z [Hz Hr]].
  exists z. split; [|assumption].
  apply row_code_emotion_A. now apply row_label_Ok.
Qed.

Lemma load_data_multiclass_inv (df : list row) (out : loaded) :
  load_data df true = Ok out ->
  exists ls, multiclass_labels df = Ok ls
             /\ out = RetFrame {| rows := df; labels_column := Some ls |}.
Proof.
  unfold load_data. intros H. apply bind_Ok in H as [ls [Hls H]].
  inversion H; subst. eauto.
Qed.

(** C9: in multiclass mode [load_data] succeeds only when every row's
    emotion-A value, and its emotion-B value when present, is one of the
    nine keys of [MULTICLASS_LABEL_MAP] (and on a frame with at least one
    row it does succeed then); otherwise it raises [KeyError]; on success
    there is one label per row, each an integer in 0..8, below the
    [num_labels] = 9 the model is loaded with. *)
Theorem load_data_multiclass_keys (df : list row) :
  (forall out, load_data df true = Ok out -> Forall valid_row df) /\
  (df <> [] -> Forall valid_row df -> exists out, load_data df true = Ok out) /\
  (~ Forall valid_row df -> load_data df true = Raise KeyError) /\
  (forall out, load_data df true = Ok out ->
     exists ls,
       out = RetFrame {| rows := df; labels_column := Some ls |} /\
       length ls = length df /\
       Forall (fun l => (0 <= l <= 8)%Z /\ (l < Z.of_nat (num_labels true))%Z)
              ls).
Proof.
  split; [|split; [|split]].
  - intros out H. apply load_data_multiclass_inv in H as [ls [H _]].
    exact (multiclass_labels_valid df ls H).
  - intros Hne H. apply (multiclass_labels_total df Hne) in H as [ls H].
    unfold load_data. rewrite H. cbn. eauto.
  - intros Hn. unfold load_data.
    assert (Hne : df <> []) by (intros ->; apply Hn; constructor).
    destruct (multiclass_labels df) as [ls|e] eqn:E; cbn [Py.bind].
    + exfalso. apply Hn. exact (multiclass_labels_valid df ls E).
    + now rewrite (multiclass_labels_KeyError df e Hne E).
  - intros out H. apply load_data_multiclass_inv in H as [ls [H ->]].
    exists ls. split; [reflexivity|].
    assert (Hlen := multiclass_labels_length df ls H).
    split; [exact Hlen|].
    apply Forall_forall. intros l Hl.
    apply In_nth_error in Hl as [i Hi].
    assert (Hi' : i < length df).
    { rewrite <- Hlen. apply nth_error_Some. congruence. }
    destruct (nth_error df i) as [r|] eqn:Er;
      [|apply nth_error_None in Er; lia].
    destruct (multiclass_labels_nth df ls H i r Er) as [z [Hz Hz']].
    assert (l = z) by congruence. subst l.
    apply code_of_range in Hz. cbn. lia.
Qed.

(** C2, as the code has it: in multiclass mode the label of a row is the
    code of its emotion-A value alone; emotion-B is looked up, so it must
    be a key when present, and is then dropped by the flattening of line
    45: two rows that agree on emotion-A get the same label whatever
    their emotion-B. *)
Theorem load_data_multiclass_label_is_emotion_A
  (df : list row) (f : DataFrame) :
  load_data df true = Ok (RetFrame f) ->
  exists ls,
    labels_column f = Some ls /\
    (forall i r, nth_error df i = Some r ->
       exists z, multiclass_label (emotion_A r) = Ok z
                 /\ nth_error ls i = Some z) /\
    (forall i j ri rj li lj,
       nth_error df i = Some ri -> nth_error df j = Some rj ->
       emotion_A ri = emotion_A rj ->
       nth_error ls i = Some li -> nth_error ls j = Some lj ->
       li = lj).
Proof.
  intros H. apply load_data_multiclass_inv in H as [ls [H E]].
  inversion E; subst f. exists ls. split; [reflexivity|]. split.
  - intros i r Hi.
    destruct (multiclass_labels_nth df ls H i r Hi) as [z [Hz Hn]].
    exists z. split; [|assumption].
    now rewrite multiclass_label_code, Hz.
  - intros i j ri rj li lj Hi Hj HA Hli Hlj.
    destruct (multiclass_labels_nth df ls H i ri Hi) as [zi [Hzi Hni]].
    destruct (multiclass_labels_nth df ls H j rj Hj) as [zj [Hzj Hnj]].
    rewrite HA in Hzi. congruence.
Qed.

(** C2 as stated fails: no frame has two rows that agree on emotion-A,
    differ in a present, valid emotion-B, and get different labels. *)
Lemma multiclass_label_ignores_emotion_B :
  ~ (exists (df : list row) (f : DataFrame) (ls : list Z)
            (i j : nat) (ri rj : row) (li lj : Z),
        load_data df true = Ok (RetFrame f) /\
        labels_column f = Some ls /\
        nth_error df i = Some ri /\ nth_error df j = Some rj /\
        emotion_A ri = emotion_A rj /\
        is_key (emotion_B ri) /\ is_key (emotion_B rj) /\
        emotion_B ri <> emotion_B rj /\
        nth_error ls i = Some li /\ nth_error ls j = Some lj /\
        li <> lj).
Proof.
  intros (df & f & ls & i & j & ri & rj & li & lj & H & Hls & Hi & Hj & HA
          & _ & _ & _ & Hli & Hlj & Hne).
  apply load_data_multiclass_inv in H as [ls' [H E]].
  inversion E; subst f. cbn in Hls. inversion Hls; subst ls'.
  destruct (multiclass_labels_nth df ls H i ri Hi) as [zi [Hzi Hni]].
  destruct (multiclass_labels_nth df ls H j rj Hj) as [zj [Hzj Hnj]].
  rewrite HA in Hzi. congruence.
Qed.

Lemma load_data_multiclass_label_is_emotion_A_witness :
  exists ls,
    labels_column {| rows := two_joy_rows;
                     labels_column := Some [0%Z; 0%Z] |} = Some ls /\
    (forall i r, nth_error two_joy_rows i = Some r ->
       exists z, multiclass_label (emotion_A r) = Ok z
                 /\ nth_error ls i = Some z) /\
    (forall i j ri rj li lj,
       nth_error two_joy_rows i = Some ri ->
       nth_error two_joy_rows j = Some rj ->
       emotion_A ri = emotion_A rj ->
       nth_error ls i = Some li -> nth_error ls j = Some lj ->
       li = lj).
Proof.
  apply (load_data_multiclass_label_is_emotion_A two_joy_rows).
  reflexivity.
Defined.

(** ** [preprocess_data] *)

(** C10: [preprocess_data] leaves the labels unchanged: when the
    tokenizer returns, the second component of the result is the labels
    argument itself and the first is what the tokenizer returned for the
    texts; when the tokenizer raises, so does [preprocess_data]. *)
Theorem preprocess_data_labels {env : Environment} {L : Type}
  (texts : list cell) (labels : L) (tokenizer : Tokenizer) :
  match preprocess_data texts labels tokenizer with
  | Ok r =>
      snd r = labels /\
      tokenizer_call tokenizer texts true true 128 = Ok (fst r)
  | Raise e => tokenizer_call tokenizer texts true true 128 = Raise e
  end.
Proof.
  unfold preprocess_data.
  destruct (tokenizer_call tokenizer texts true true 128) as [enc|e];
    cbn [Py.bind fst snd]; [split|]; reflexivity.
Qed.

(** ** [aggregate_metrics] *)

Lemma fold_left_Qplus (l : list Q) (a : Q) :
  (fold_left Qplus l a == a + sum_Q l)%Q.
Proof.
  revert a. induction l as [|x l IH]; intros a; cbn [fold_left sum_Q fold_right].
  - ring.
  - rewrite IH. fold (sum_Q l). ring.
Qed.

Lemma total_sum_Q (l : list Q) : (Np.total l == sum_Q l)%Q.
Proof.
  unfold Np.total. rewrite fold_left_Qplus. ring.
Qed.

Lemma sum_Q_map_ext {A} (f g : A -> Q) (l : list A) :
  (forall a, In a l -> (f a == g a)%Q) ->
  (sum_Q (map f l) == sum_Q (map g l))%Q.
Proof.
  induction l as [|a l IH]; intros H; cbn [map sum_Q fold_right].
  - reflexivity.
  - fold (sum_Q (map f l)) (sum_Q (map g l)).
    rewrite (H a) by now left. rewrite IH; [reflexivity|].
    intros a' Ha'. apply H. now right.
Qed.

Lemma finite_map_Fin (qs : list Q) : Np.finite (map Fin qs) = Some qs.
Proof.
  induction qs as [|q qs IH]; cbn [map Np.finite]; [reflexivity|].
  now rewrite IH.
Qed.

Lemma mean_map_Fin (qs : list Q) :
  qs <> [] -> Np.mean (map Fin qs) = Fin (np_mean_Q qs).
Proof.
  intros Hne. destruct qs as [|q0 qs]; [contradiction|].
  unfold Np.mean. cbn [map].
  change (Fin q0 :: map Fin qs) with (map Fin (q0 :: qs)).
  now rewrite finite_map_Fin.
Qed.

Lemma np_mean_Q_arithmetic (qs : list Q) :
  (np_mean_Q qs == arithmetic_mean qs)%Q.
Proof.
  unfold np_mean_Q, arithmetic_mean. now rewrite total_sum_Q.
Qed.

Lemma np_mean_Q_map_ext {A} (f g : A -> Q) (l : list A) :
  (forall a, In a l -> (f a == g a)%Q) ->
  (np_mean_Q (map f l) == arithmetic_mean (map g l))%Q.
Proof.
  intros H. rewrite np_mean_Q_arithmetic. unfold arithmetic_mean.
  rewrite !length_map. now rewrite (sum_Q_map_ext f g l H).
Qed.

Lemma mapM_map {A B C} (f : A -> result B) (g : C -> B)
  (l : list A) (cs : list C) :
  Forall2 (fun a c => f a = Ok (g c)) l cs -> mapM f l = Ok (map g cs).
Proof.
  intros H. apply mapM_Forall2.
  induction H; cbn [map]; constructor; assumption.
Qed.

Lemma all_some_map_Some {A B} (f : A -> option B) (g : A -> B) (l : list A) :
  (forall a, In a l -> f a = Some (g a)) ->
  all_some (map f l) = Some (map g l).
Proof.
  induction l as [|a l IH]; intros H; cbn [map all_some]; [reflexivity|].
  rewrite (H a) by now left. rewrite IH; [reflexivity|].
  intros a' Ha'. apply H. now right.
Qed.

Lemma mean_over_folds_accuracy (fm : list metrics) (rs : list fold_record) :
  fm <> [] -> Forall2 holds fm rs ->
  mean_over_folds "eval_accuracy" fm
  = Ok (Fin (np_mean_Q (map eval_accuracy rs))).
Proof.
  intros Hne H. unfold mean_over_folds.
  rewrite (mapM_map _ (fun r => VFloat (Fin (eval_accuracy r))) fm rs).
  - cbn [Py.bind]. unfold mean_values. rewrite map_map.
    rewrite (all_some_map_Some _ (fun r => Fin (eval_accuracy r)))
      by reflexivity.
    rewrite <- (map_map eval_accuracy Fin), mean_map_Fin; [reflexivity|].
    destruct H; [contradiction | discriminate].
  - eapply Forall2_impl; [|exact H]. intros m r [Ha _].
    unfold Py.getitem. now rewrite Ha.
Qed.

Lemma mean_of_means_per_class (key : string) (proj : fold_record -> list Q)
  (fm : list metrics) (rs : list fold_record) :
  fm <> [] ->
  Forall2 (fun m r => Py.lookup m key = Some (VList (map Fin (proj r)))
                      /\ proj r <> []) fm rs ->
  mean_of_means key fm
  = Ok (Fin (np_mean_Q (map (fun r => np_mean_Q (proj r)) rs))).
Proof.
  intros Hne H. unfold mean_of_means.
  rewrite (mapM_map _ (fun r => Fin (np_mean_Q (proj r))) fm rs).
  - cbn [Py.bind].
    rewrite <- (map_map (fun r => np_mean_Q (proj r)) Fin), mean_map_Fin;
      [reflexivity|].
    destruct H; [contradiction | discriminate].
  - eapply Forall2_impl; [|exact H]. intros m r [Hl Hp].
    unfold Py.getitem. rewrite Hl. cbn [Py.bind mean_value].
    now rewrite mean_map_Fin.
Qed.

(** C5: for a non-empty list of fold metric records,
    [aggregate_metrics] returns the four averages: ['accuracy'] is the
    arithmetic mean over the folds of [eval_accuracy], and ['precision'],
    ['recall'] and ['f1'] are each the arithmetic mean over the folds of
    the fold's own mean over its per-class values. *)
Theorem aggregate_metrics_means
  (fold_metrics : list metrics) (rs : list fold_record) :
  fold_metrics <> [] ->
  Forall2 holds fold_metrics rs ->
  exists a p r f : Q,
    aggregate_metrics fold_metrics
    = Ok [ ("accuracy", VFloat (Fin a)); ("precision", VFloat (Fin p));
           ("recall", VFloat (Fin r)); ("f1", VFloat (Fin f)) ] /\
    (a == arithmetic_mean (map eval_accuracy rs))%Q /\
    (p == arithmetic_mean
            (map (fun x => arithmetic_mean (eval_precision x)) rs))%Q /\
    (r == arithmetic_mean
            (map (fun x => arithmetic_mean (eval_recall x)) rs))%Q /\
    (f == arithmetic_mean
            (map (fun x => arithmetic_mean (eval_f1 x)) rs))%Q.
Proof.
  intros Hne H.
  exists (np_mean_Q (map eval_accuracy rs)),
         (np_mean_Q (map (fun x => np_mean_Q (eval_precision x)) rs)),
         (np_mean_Q (map (fun x => np_mean_Q (eval_recall x)) rs)),
         (np_mean_Q (map (fun x => np_mean_Q (eval_f1 x)) rs)).
  split; [|split; [|split; [|split]]].
  - unfold aggregate_metrics.
    rewrite (mean_over_folds_accuracy _ rs Hne H).
    rewrite (mean_of_means_per_class "eval_precision" eval_precision _ rs Hne)
      by (eapply Forall2_impl; [|exact H]; intros m x Hx; apply Hx).
    rewrite (mean_of_means_per_class "eval_recall" eval_recall _ rs Hne)
      by (eapply Forall2_impl; [|exact H]; intros m x Hx; apply Hx).
    rewrite (mean_of_means_per_class "eval_f1" eval_f1 _ rs Hne)
      by (eapply Forall2_impl; [|exact H]; intros m x Hx; apply Hx).
    reflexivity.
  - apply np_mean_Q_arithmetic.
  - apply np_mean_Q_map_ext. intros x _. apply np_mean_Q_arithmetic.
  - apply np_mean_Q_map_ext. intros x _. apply np_mean_Q_arithmetic.
  - apply np_mean_Q_map_ext. intros x _. apply np_mean_Q_arithmetic.
Qed.

Lemma aggregate_metrics_means_witness :
  exists a p r f : Q,
    aggregate_metrics sample_fold_metrics
    = Ok [ ("accuracy", VFloat (Fin a)); ("precision", VFloat (Fin p));
           ("recall", VFloat (Fin r)); ("f1", VFloat (Fin f)) ] /\
    (a == arithmetic_mean (map eval_accuracy sample_fold_records))%Q /\
    (p == arithmetic_mean
            (map (fun x => arithmetic_mean (eval_precision x))
                 sample_fold_records))%Q /\
    (r == arithmetic_mean
            (map (fun x => arithmetic_mean (eval_recall x))
                 sample_fold_records))%Q /\
    (f == arithmetic_mean
            (map (fun x => arithmetic_mean (eval_f1 x))
                 sample_fold_records))%Q.
Proof.
  apply (aggregate_metrics_means sample_fold_metrics sample_fold_records).
  - discriminate.
  - repeat constructor; discriminate.
Defined.

(** ** [compute_metrics] *)

Lemma argmax_from_spec (l : list Q) :
  forall (pre : list Q) (best : Q) (besti : nat),
    besti < length pre ->
    nth besti pre 0%Q = best ->
    (forall j, j < length pre -> (nth j pre 0 <= best)%Q) ->
    (forall j, j < besti -> (nth j pre 0 < best)%Q) ->
    is_argmax (pre ++ l) (Np.argmax_from best besti (length pre) l).
Proof.
  induction l as [|x l IH]; intros pre best besti Hlt Hbest Hmax Hfirst.
  - cbn [Np.argmax_from]. rewrite app_nil_r. subst best.
    repeat split; auto.
  - cbn [Np.argmax_from].
    replace (pre ++ x :: l) with ((pre ++ [x]) ++ l)
      by (rewrite <- app_assoc; reflexivity).
    replace (S (length pre)) with (length (pre ++ [x]))
      by (rewrite length_app; cbn; lia).
    destruct (Qle_bool x best) eqn:E.
    + apply Qle_bool_iff in E. apply IH.
      * rewrite length_app. cbn. lia.
      * rewrite app_nth1 by assumption. assumption.
      * intros j Hj. rewrite length_app in Hj. cbn in Hj.
        destruct (Nat.eq_dec j (length pre)) as [->|Hne].
        -- rewrite app_nth2, Nat.sub_diag by lia. exact E.
        -- rewrite app_nth1 by lia. apply Hmax. lia.
      * intros j Hj. rewrite app_nth1 by lia. now apply Hfirst.
    + assert (Hx : (best < x)%Q).
      { apply Qnot_le_lt. intros H. apply Qle_bool_iff in H. congruence. }
      rewrite length_app. cbn [length]. rewrite Nat.add_1_r.
      replace (S (length pre)) with (length (pre ++ [x]))
        by (rewrite length_app; cbn; lia).
      apply IH.
      * rewrite length_app. cbn. lia.
      * rewrite app_nth2, Nat.sub_diag by lia. reflexivity.
      * intros j Hj. rewrite length_app in Hj. cbn in Hj.
        destruct (Nat.eq_dec j (length pre)) as [->|Hne].
        -- rewrite app_nth2, Nat.sub_diag by lia. apply Qle_refl.
        -- rewrite app_nth1 by lia. apply Qlt_le_weak.
           eapply Qle_lt_trans; [apply Hmax; lia | exact Hx].
      * intros j Hj. rewrite app_nth1 by lia.
        eapply Qle_lt_trans; [apply Hmax; lia | exact Hx].
Qed.

Lemma argmax_spec (scores : list Q) :
  scores <> [] -> exists i, Np.argmax scores = Ok i /\ is_argmax scores i.
Proof.
  destruct scores as [|x l]; [contradiction|]. intros _.
  exists (Np.argmax_from x 0 1 l). split; [reflexivity|].
  apply (argmax_from_spec l [x] x 0); cbn.
  - lia.
  - reflexivity.
  - intros j Hj. assert (j = 0) as -> by lia. apply Qle_refl.
  - intros j Hj. lia.
Qed.

Lemma mapM_argmax (preds : list (list Q)) :
  Forall (fun scores => scores <> []) preds ->
  exists predicted,
    mapM Np.argmax preds = Ok predicted /\ Forall2 is_argmax preds predicted.
Proof.
  induction 1 as [|scores preds Hs H [predicted [IH1 IH2]]].
  - exists []. split; [reflexivity | constructor].
  - destruct (argmax_spec scores Hs) as [i [Hi1 Hi2]].
    exists (i :: predicted). cbn [mapM]. rewrite Hi1, IH1.
    split; [reflexivity | now constructor].
Qed.

Lemma insert_label_In (z : Z) (l : list Z) (c : Z) :
  In c (Sk.insert_label z l) <-> c = z \/ In c l.
Proof.
  induction l as [|x l IH]; cbn [Sk.insert_label].
  - cbn. intuition.
  - destruct (Z.ltb_spec z x).
    + cbn. intuition.
    + destruct (Z.eqb_spec z x) as [->|Hne].
      * cbn. intuition.
      * cbn [In]. rewrite IH. intuition.
Qed.

Lemma unique_In (l : list Z) (c : Z) : In c (Sk.unique l) <-> In c l.
Proof.
  induction l as [|x l IH]; cbn [Sk.unique fold_right]; [reflexivity|].
  fold (Sk.unique l). rewrite insert_label_In, IH. cbn. intuition.
Qed.

Lemma insert_label_HdRel (x z : Z) (l : list Z) :
  (x < z)%Z -> HdRel Z.lt x l -> HdRel Z.lt x (Sk.insert_label z l).
Proof.
  intros Hxz H. destruct l as [|y l]; cbn [Sk.insert_label].
  - now constructor.
  - inversion H; subst.
    destruct (Z.ltb_spec z y); [now constructor|].
    destruct (Z.eqb_spec z y); now constructor.
Qed.

Lemma insert_label_Sorted (z : Z) (l : list Z) :
  Sorted Z.lt l -> Sorted Z.lt (Sk.insert_label z l).
Proof.
  induction 1 as [|x l Hs IH Hd]; cbn [Sk.insert_label].
  - repeat constructor.
  - destruct (Z.ltb_spec z x).
    + constructor; [now constructor | now constructor].
    + destruct (Z.eqb_spec z x) as [->|Hne].
      * now constructor.
      * constructor; [assumption|]. apply insert_label_HdRel; [lia | assumption].
Qed.

Lemma unique_Sorted (l : list Z) : Sorted Z.lt (Sk.unique l).
Proof.
  induction l as [|x l IH]; cbn [Sk.unique fold_right]; [constructor|].
  now apply insert_label_Sorted.
Qed.

Lemma count_eqb_count_occ (l : list Z) (c : Z) :
  Sk.count (Z.eqb c) l = count_occ Z.eq_dec l c.
Proof.
  unfold Sk.count. induction l as [|x l IH]; cbn [filter count_occ];
    [reflexivity|].
  destruct (Z.eqb_spec c x) as [E'|E']; destruct (Z.eq_dec x c) as [E|E];
    cbn [length]; congruence.
Qed.

Lemma count_true_positives (labels : list Z) (predicted : list nat) (c : Z) :
  Sk.count (fun p => (fst p =? c)%Z && (snd p =? c)%Z)
           (combine labels (map Z.of_nat predicted))
  = true_positives labels predicted c.
Proof.
  unfold Sk.count. revert predicted.
  induction labels as [|l labels IH]; intros [|p predicted];
    cbn [map combine filter length true_positives]; try reflexivity.
  cbn [fst snd].
  destruct ((l =? c)%Z && (Z.of_nat p =? c)%Z); cbn [length];
    now rewrite IH.
Qed.

Lemma prf_divide_ratio (num den : nat) :
  Sk.prf_divide num den = Fin (ratio num den).
Proof.
  destruct den; reflexivity.
Qed.

Lemma sum_Q_indicator (labels : list Z) (predicted : list nat) :
  (sum_Q (map (fun p : Z * Z => if (fst p =? snd p)%Z then 1 else 0)
              (combine labels (map Z.of_nat predicted)))
   == inject_Z (Z.of_nat (agreements labels predicted)))%Q.
Proof.
  revert predicted.
  induction labels as [|l labels IH]; intros [|p predicted];
    cbn [map combine sum_Q fold_right agreements]; try reflexivity.
  fold (sum_Q (map (fun p : Z * Z => if (fst p =? snd p)%Z then 1%Q else 0%Q)
                   (combine labels (map Z.of_nat predicted)))).
  rewrite IH, Nat2Z.inj_add, inject_Z_plus. cbn [fst snd].
  destruct (l =? Z.of_nat p)%Z; reflexivity.
Qed.

Lemma accuracy_score_agreements (labels : list Z) (predicted : list nat) :
  labels <> [] -> length predicted = length labels ->
  exists a,
    Sk.accuracy_score labels (map Z.of_nat predicted) = Ok (Fin a) /\
    (a == inject_Z (Z.of_nat (agreements labels predicted))
          / inject_Z (Z.of_nat (length labels)))%Q.
Proof.
  intros Hne Hlen. unfold Sk.accuracy_score.
  rewrite length_map, Hlen, Nat.eqb_refl. cbn [negb].
  rewrite (map_ext _ (fun p => Fin (if (fst p =? snd p)%Z then 1 else 0)))
    by (intros [a b]; cbn; now destruct (a =? b)%Z).
  rewrite <- (map_map (fun p : Z * Z => if (fst p =? snd p)%Z then 1%Q else 0%Q)
                      Fin).
  rewrite mean_map_Fin.
  - eexists. split; [reflexivity|].
    rewrite np_mean_Q_arithmetic. unfold arithmetic_mean.
    rewrite sum_Q_indicator, length_map, length_combine, length_map, Hlen,
      Nat.min_id.
    reflexivity.
  - destruct labels as [|l labels]; [contradiction|].
    destruct predicted as [|p predicted]; [discriminate|]. discriminate.
Qed.

Lemma precision_recall_fscore_support_eq
  (labels : list Z) (predicted : list nat) :
  length predicted = length labels ->
  let classes := Sk.unique (labels ++ map Z.of_nat predicted) in
  let tp := true_positives labels predicted in
  Sk.precision_recall_fscore_support labels (map Z.of_nat predicted)
  = Ok (map (fun c => Fin (ratio (tp c) (predicted_as predicted c))) classes,
        map (fun c => Fin (ratio (tp c) (actual labels c))) classes,
        map (fun c => Fin (ratio (2 * tp c)
                             (actual labels c + predicted_as predicted c)))
            classes,
        map (actual labels) classes).
Proof.
  intros Hlen. cbv zeta. unfold Sk.precision_recall_fscore_support.
  rewrite length_map, Hlen, Nat.eqb_refl. cbn [negb].
  apply f_equal.
  apply f_equal2; [apply f_equal2; [apply f_equal2|]|];
    apply map_ext; intros c;
    rewrite ?prf_divide_ratio, ?count_true_positives, ?count_eqb_count_occ;
    reflexivity.
Qed.

(** C6: for a non-empty batch of score rows with one label each,
    [compute_metrics] takes as predicted class of a sample the argmax of
    its row of scores and returns four entries: ['accuracy'], the
    fraction of samples whose predicted class equals the label, and
    ['precision'], ['recall'] and ['f1'], lists with one entry per class
    present among the labels and predictions, in increasing order of the
    class, each entry the value of that class alone. *)
Theorem compute_metrics_per_class (preds : list (list Q)) (labels : list Z) :
  preds <> [] ->
  length preds = length labels ->
  Forall (fun scores => scores <> []) preds ->
  exists (predicted : list nat) (accuracy : Q),
    let classes := Sk.unique (labels ++ map Z.of_nat predicted) in
    let tp := true_positives labels predicted in
    compute_metrics (preds, labels)
    = Ok [ ("accuracy", VFloat (Fin accuracy));
           ("precision",
            VList (map (fun c => Fin (ratio (tp c) (predicted_as predicted c)))
                       classes));
           ("recall",
            VList (map (fun c => Fin (ratio (tp c) (actual labels c)))
                       classes));
           ("f1",
            VList (map (fun c => Fin (ratio (2 * tp c)
                                        (actual labels c
                                         + predicted_as predicted c)))
                       classes)) ] /\
    Forall2 is_argmax preds predicted /\
    (accuracy == inject_Z (Z.of_nat (agreements labels predicted))
                 / inject_Z (Z.of_nat (length labels)))%Q /\
    Sorted Z.lt classes /\
    (forall c, In c classes
               <-> In c labels \/ In c (map Z.of_nat predicted)).
Proof.
  intros Hne Hlen Hrows.
  destruct (mapM_argmax preds Hrows) as [predicted [Hp Harg]].
  assert (Hlenp : length predicted = length labels).
  { rewrite <- Hlen. symmetry. exact (Forall2_length Harg). }
  assert (Hlne : labels <> []).
  { destruct labels; [|discriminate]. destruct preds; [contradiction|].
    discriminate. }
  destruct (accuracy_score_agreements labels predicted Hlne Hlenp)
    as [a [Ha1 Ha2]].
  exists predicted, a. cbv zeta.
  split; [|split; [|split; [|split]]].
  - unfold compute_metrics. rewrite Hp. cbn [Py.bind]. rewrite Ha1.
    cbn [Py.bind].
    now rewrite (precision_recall_fscore_support_eq labels predicted Hlenp).
  - exact Harg.
  - exact Ha2.
  - apply unique_Sorted.
  - intros c. rewrite unique_In, in_app_iff. reflexivity.
Qed.

Lemma compute_metrics_per_class_witness :
  exists (predicted : list nat) (accuracy : Q),
    let classes := Sk.unique (sample_labels ++ map Z.of_nat predicted) in
    let tp := true_positives sample_labels predicted in
    compute_metrics (sample_preds, sample_labels)
    = Ok [ ("accuracy", VFloat (Fin accuracy));
           ("precision",
            VList (map (fun c => Fin (ratio (tp c) (predicted_as predicted c)))
                       classes));
           ("recall",
            VList (map (fun c => Fin (ratio (tp c) (actual sample_labels c)))
                       classes));
           ("f1",
            VList (map (fun c => Fin (ratio (2 * tp c)
                                        (actual sample_labels c
                                         + predicted_as predicted c)))
                       classes)) ] /\
    Forall2 is_argmax sample_preds predicted /\
    (accuracy == inject_Z (Z.of_nat (agreements sample_labels predicted))
                 / inject_Z (Z.of_nat (length sample_labels)))%Q /\
    Sorted Z.lt classes /\
    (forall c, In c classes
               <-> In c sample_labels \/ In c (map Z.of_nat predicted)).
Proof.
  apply (compute_metrics_per_class sample_preds sample_labels).
  - discriminate.
  - reflexivity.
  - repeat constructor; discriminate.
Defined.

(** The predicted classes and the accuracy of the sample batch. *)
Example compute_metrics_sample :
  mapM Np.argmax sample_preds = Ok [1; 0; 2] /\
  Py.getitem (match compute_metrics (sample_preds, sample_labels) with
              | Ok m => m
              | Raise _ => []
              end) "accuracy" = Ok (VFloat (Fin (2 # 3))).
Proof.
  split; vm_compute; reflexivity.
Qed.

(** ** [main] in binary mode *)

Lemma main_binary_outcome {env : Environment}
  (a : Args) (csv : list row) (fs : FS) :
  multiclass a = false -> main a csv fs = (Raise TypeError, fs).
Proof.
  intros Hb. unfold main, io_bind, io_lift. rewrite Hb.
  unfold load_data. rewrite binary_labels_of_eq. reflexivity.
Qed.

(** C1 fails on the code: without [--multiclass], [main] raises
    [TypeError] for every input frame, before anything is written:
    [load_data] returns the tuple [(df, binary_labels)], and [main] hands
    the tuple to [display_emotion_counts], which indexes it with a list
    of column names. *)
Theorem main_binary_raises {env : Environment}
  (model tokenizer path : string) (csv : list row) (fs : FS) :
  main {| model_id := model; tokenizer_id := tokenizer;
          input_csv := path; multiclass := false |} csv fs
  = (Raise TypeError, fs).
Proof.
  unfold main, io_bind, io_lift. cbn [multiclass].
  assert (E : exists bl, load_data csv false
                         = Ok (RetTuple (read_frame csv) bl)).
  { unfold load_data. rewrite binary_labels_of_eq. cbn [Py.bind]. eauto. }
  destruct E as [bl ->].
  cbn [display_emotion_counts emotion_columns Py.bind].
  reflexivity.
Qed.

(** ** The stratified splitter *)

(** The pair of index sets of fold [i], as [split] builds it. *)
Lemma split_inv {A} (skf : Sk.StratifiedKFold) (tf : list nat)
  (X : list A) (y : list Z) (splits : list (list nat * list nat)) :
  Sk.split skf tf X y = Ok splits ->
  Sk.n_splits skf <= length X /\
  splits
  = map (fun i =>
           (filter (fun j => negb (nth j tf 0 =? i)%nat) (seq 0 (length X)),
            filter (fun j => (nth j tf 0 =? i)%nat) (seq 0 (length X))))
        (seq 0 (Sk.n_splits skf)).
Proof.
  unfold Sk.split.
  destruct (negb (length y =? length X)%nat); [discriminate|].
  destruct (Nat.ltb_spec (length X) (Sk.n_splits skf)) as [Hlt|Hle];
    [discriminate|].
  destruct (forallb _ _); [discriminate|].
  intros H. inversion H. split; [assumption | reflexivity].
Qed.

Lemma split_length {A} (skf : Sk.StratifiedKFold) (tf : list nat)
  (X : list A) (y : list Z) (splits : list (list nat * list nat)) :
  Sk.split skf tf X y = Ok splits -> length splits = Sk.n_splits skf.
Proof.
  intros H. apply split_inv in H as [_ ->].
  now rewrite length_map, length_seq.
Qed.

Lemma split_nth {A} (skf : Sk.StratifiedKFold) (tf : list nat)
  (X : list A) (y : list Z) (splits : list (list nat * list nat))
  (i : nat) (tr te : list nat) :
  Sk.split skf tf X y = Ok splits ->
  nth_error splits i = Some (tr, te) ->
  i < Sk.n_splits skf /\
  tr = filter (fun j => negb (nth j tf 0 =? i)%nat) (seq 0 (length X)) /\
  te = filter (fun j => (nth j tf 0 =? i)%nat) (seq 0 (length X)).
Proof.
  intros H Hi. apply split_inv in H as [_ ->].
  rewrite nth_error_map in Hi.
  destruct (nth_error (seq 0 (Sk.n_splits skf)) i) as [i'|] eqn:E;
    [|discriminate].
  assert (Hlt : i < Sk.n_splits skf).
  { rewrite <- (length_seq (Sk.n_splits skf) 0). apply nth_error_Some.
    congruence. }
  rewrite nth_error_seq in E.
  destruct (Nat.ltb_spec i (Sk.n_splits skf)); [|lia].
  inversion E; subst i'. cbn in Hi. inversion Hi. auto.
Qed.









(** ** Dictionaries: writing and merging *)

Lemma lookup_setitem {V} (d : list (string * V)) (k k' : string) (v : V) :
  Py.lookup (Py.setitem d k v) k'
  = if String.eqb k k' then Some v else Py.lookup d k'.
Proof.
  induction d as [|[k0 v0] d IH]; cbn [Py.setitem Py.lookup].
  - reflexivity.
  - destruct (String.eqb_spec k0 k) as [->|Hne]; cbn [Py.lookup].
    + destruct (String.eqb k k'); reflexivity.
    + rewrite IH. destruct (String.eqb_spec k0 k') as [->|Hne'];
        [|reflexivity].
      destruct (String.eqb_spec k k') as [->|_]; [contradiction | reflexivity].
Qed.

Lemma lookup_merge_fresh {V} (e d : list (string * V)) (k : string) :
  ~ In k (Py.keys e) -> Py.lookup (Py.merge d e) k = Py.lookup d k.
Proof.
  unfold Py.merge. revert d.
  induction e as [|[k0 v0] e IH]; intros d Hk; cbn [fold_left fst snd].
  - reflexivity.
  - cbn in Hk. rewrite IH by tauto. rewrite lookup_setitem.
    destruct (String.eqb_spec k0 k) as [->|_]; [tauto | reflexivity].
Qed.

Lemma lookup_merge {V} (e d : list (string * V)) (k : string) (v : V) :
  NoDup (Py.keys e) -> Py.lookup e k = Some v ->
  Py.lookup (Py.merge d e) k = Some v.
Proof.
  unfold Py.merge. revert d.
  induction e as [|[k0 v0] e IH]; intros d Hnd Hk; [discriminate|].
  cbn in Hnd. inversion Hnd as [|? ? Hnotin Hnd']; subst.
  cbn [fold_left fst snd]. cbn [Py.lookup] in Hk.
  destruct (String.eqb_spec k0 k) as [->|Hne].
  - inversion Hk; subst v0.
    change (Py.lookup (Py.merge (Py.setitem d k v) e) k = Some v).
    rewrite lookup_merge_fresh by assumption.
    now rewrite lookup_setitem, String.eqb_refl.
  - now apply IH.
Qed.

Lemma keys_setitem {V} (d : list (string * V)) (k k' : string) (v : V) :
  In k' (Py.keys (Py.setitem d k v)) <-> k' = k \/ In k' (Py.keys d).
Proof.
  unfold Py.keys.
  induction d as [|[k0 v0] d IH]; cbn [Py.setitem map fst In].
  - intuition.
  - destruct (String.eqb_spec k0 k) as [->|Hne]; cbn [map fst In].
    + intuition.
    + rewrite IH. intuition.
Qed.

Lemma keys_merge {V} (e d : list (string * V)) (k : string) :
  In k (Py.keys (Py.merge d e)) <-> In k (Py.keys d) \/ In k (Py.keys e).
Proof.
  unfold Py.merge. revert d.
  induction e as [|[k0 v0] e IH]; intros d; cbn [fold_left fst snd].
  - cbn. intuition.
  - rewrite IH, keys_setitem. cbn. intuition.
Qed.

(** ** The datasets of a fold (lines 99-114) *)

Lemma fits_int64_iff (z : Z) : fits_int64 z = true <-> int64 z.
Proof.
  unfold fits_int64, int64. rewrite andb_true_iff, Z.leb_le, Z.ltb_lt.
  tauto.
Qed.

Lemma item_Ok {A} (l : list A) (i : nat) (a : A) :
  item l i = Ok a <-> nth_error l i = Some a.
Proof.
  unfold item. destruct (nth_error l i); split; intros H; inversion H;
    reflexivity.
Qed.

Lemma torch_tensor0_Ok (z : Z) (t : tensor) :
  torch_tensor0 z = Ok t <-> t = Tensor0 z /\ int64 z.
Proof.
  unfold torch_tensor0. rewrite <- fits_int64_iff.
  destruct (fits_int64 z); split.
  - intros H. inversion H. auto.
  - intros [-> _]. reflexivity.
  - discriminate.
  - intros [_ H]. discriminate.
Qed.

Lemma torch_tensor1_Ok (v : list Z) (t : tensor) :
  torch_tensor1 v = Ok t <-> t = Tensor1 v /\ Forall int64 v.
Proof.
  unfold torch_tensor1.
  assert (E : forallb fits_int64 v = true <-> Forall int64 v).
  { rewrite forallb_forall, Forall_forall.
    split; intros H z Hz; apply fits_int64_iff; auto. }
  rewrite <- E. destruct (forallb fits_int64 v); split.
  - intros H. inversion H. auto.
  - intros [-> _]. reflexivity.
  - discriminate.
  - intros [_ H]. discriminate.
Qed.

Lemma tensors_at_Ok (enc : encodings) (i : nat) (d : example) :
  tensors_at enc i = Ok d ->
  Py.keys d = Py.keys enc /\
  Forall (fun kv => exists v, nth_error (snd kv) i = Some v /\ Forall int64 v)
         enc /\
  forall k rows, Py.lookup enc k = Some rows ->
                 exists v, nth_error rows i = Some v
                           /\ Py.lookup d k = Some (Tensor1 v).
Proof.
  unfold tensors_at. revert d.
  induction enc as [|[k0 rows0] enc IH]; intros d H; cbn [mapM] in H.
  - inversion H. repeat split; [constructor | discriminate].
  - apply bind_Ok in H as [kv [Hkv H]].
    apply bind_Ok in H as [d' [Hd' H]]. inversion H; subst d. clear H.
    cbn [fst snd] in Hkv.
    apply bind_Ok in Hkv as [v0 [E0 Hkv]]. apply item_Ok in E0.
    apply bind_Ok in Hkv as [t0 [Et Hkv]].
    apply torch_tensor1_Ok in Et as [-> Hfit].
    inversion Hkv; subst kv. clear Hkv.
    destruct (IH d' Hd') as [Hk [Hf Hl]].
    split; [|split].
    + unfold Py.keys in *. cbn [map fst]. now rewrite Hk.
    + constructor; [|exact Hf]. cbn. eauto.
    + intros k rows Hrows. cbn [Py.lookup] in *.
      destruct (String.eqb k0 k).
      * inversion Hrows; subst rows. eauto.
      * now apply Hl.
Qed.

Lemma dataset_unfold (enc : encodings) (labels : list Z) :
  dataset enc labels
  = mapM (fun i =>
            d <- tensors_at enc i ;;
            l <- item labels i ;;
            t <- torch_tensor0 l ;;
            Ok (Py.merge (Py.merge [] d) [("labels", t)]))
         (seq 0 (length labels)).
Proof.
  reflexivity.
Qed.

Lemma dataset_length (enc : encodings) (labels : list Z) (ds : list example) :
  dataset enc labels = Ok ds -> length ds = length labels.
Proof.
  rewrite dataset_unfold. intros H. apply mapM_length in H.
  now rewrite length_seq in H.
Qed.

(** The example a built dataset holds at a position. *)
Lemma dataset_example_at (enc : encodings) (labels : list Z)
  (ds : list example) (i : nat) (l : Z) :
  dataset enc labels = Ok ds ->
  nth_error labels i = Some l ->
  exists ex,
    nth_error ds i = Some ex /\
    Py.lookup ex "labels" = Some (Tensor0 l) /\
    (NoDup (Py.keys enc) ->
     forall k rows,
       k <> "labels" -> Py.lookup enc k = Some rows ->
       exists v, nth_error rows i = Some v
                 /\ Py.lookup ex k = Some (Tensor1 v)) /\
    (forall k, In k (Py.keys ex) -> k = "labels" \/ In k (Py.keys enc)).
Proof.
  intros H Hi. rewrite dataset_unfold in H.
  assert (Hseq : nth_error (seq 0 (length labels)) i = Some i).
  { rewrite nth_error_seq.
    destruct (Nat.ltb_spec i (length labels)) as [_|Hge]; [reflexivity|].
    exfalso. apply nth_error_None in Hge. congruence. }
  destruct (mapM_nth_error _ _ _ H i i Hseq) as [ex [Hex Hbody]].
  apply bind_Ok in Hbody as [d [Hd Hbody]].
  apply bind_Ok in Hbody as [l' [Hl' Hbody]].
  apply item_Ok in Hl'. assert (l' = l) by congruence. subst l'.
  apply bind_Ok in Hbody as [t [Ht Hbody]].
  apply torch_tensor0_Ok in Ht as [-> _].
  inversion Hbody; subst ex. clear Hbody.
  destruct (tensors_at_Ok enc i d Hd) as [Hk [_ Hl]].
  exists (Py.merge (Py.merge [] d) [("labels", Tensor0 l)]).
  split; [exact Hex|]. split; [|split].
  - apply lookup_merge; [repeat constructor; cbn; tauto | reflexivity].
  - intros Hnd k rows Hne Hrows.
    destruct (Hl k rows Hrows) as [v [Hv Hdv]]. exists v.
    split; [exact Hv|].
    rewrite lookup_merge_fresh by (cbn; intuition congruence).
    apply lookup_merge; [now rewrite Hk | exact Hdv].
  - intros k Hin. rewrite !keys_merge in Hin. cbn in Hin.
    rewrite Hk in Hin. intuition.
Qed.

(** [a[idx]] holds the elements of [a] at the indices, in their order. *)
Lemma take_nth {A} (a : list A) (idx : list nat) (l : list A) (d : A) :
  Np.take a idx = Ok l ->
  l = map (fun j => nth j a d) idx /\ Forall (fun j => j < length a) idx.
Proof.
  unfold Np.take. revert l.
  induction idx as [|j idx IH]; intros l H; cbn [mapM] in H.
  - inversion H. split; [reflexivity | constructor].
  - apply bind_Ok in H as [x [Hx H]].
    apply bind_Ok in H as [xs [Hxs H]]. inversion H; subst l. clear H.
    destruct (nth_error a j) as [x'|] eqn:E; [|discriminate].
    inversion Hx; subst x'. clear Hx.
    destruct (IH xs Hxs) as [-> Hall].
    split.
    + cbn [map]. f_equal. symmetry. now apply nth_error_nth.
    + constructor; [|exact Hall]. apply nth_error_Some. congruence.
Qed.

Section FoldDatasets.

Context {env : Environment}.

Variables (tokenizer : Tokenizer) (texts : list cell) (labels : list Z).

Lemma one_dataset (idx : list nat) (txs : list cell) (lbs : list Z)
  (enc : encodings) (ds : list example) :
  Np.take texts idx = Ok txs ->
  Np.take labels idx = Ok lbs ->
  tokenizer_call tokenizer txs true true 128 = Ok enc ->
  dataset enc lbs = Ok ds ->
  is_dataset_of tokenizer texts labels idx ds.
Proof.
  intros Ht Hl Henc Hds.
  destruct (take_nth _ _ _ CNaN Ht) as [-> _].
  destruct (take_nth _ _ _ 0%Z Hl) as [-> _].
  exists enc. split; [exact Henc|]. split.
  - rewrite (dataset_length _ _ _ Hds). apply length_map.
  - intros p j Hp.
    apply (dataset_example_at enc _ ds p (nth j labels 0%Z) Hds).
    now rewrite nth_error_map, Hp.
Qed.

Lemma fold_datasets_Ok (tr te : list nat) (dtr dte : list example) :
  fold_datasets tokenizer texts labels tr te = Ok (dtr, dte) ->
  is_dataset_of tokenizer texts labels tr dtr /\
  is_dataset_of tokenizer texts labels te dte.
Proof.
  unfold fold_datasets, preprocess_data. intros H.
  apply bind_Ok in H as [train_texts [E1 H]].
  apply bind_Ok in H as [test_texts [E2 H]].
  apply bind_Ok in H as [train_labels [E3 H]].
  apply bind_Ok in H as [test_labels [E4 H]].
  apply bind_Ok in H as [train [E5 H]].
  apply bind_Ok in E5 as [train_enc [E5 E5']].
  apply bind_Ok in H as [test [E6 H]].
  apply bind_Ok in E6 as [test_enc [E6 E6']].
  apply bind_Ok in H as [train_ds [E7 H]].
  apply bind_Ok in H as [test_ds [E8 H]].
  inversion E5'; subst train. inversion E6'; subst test.
  inversion H; subst dtr dte. cbn [fst snd] in *.
  split; eapply one_dataset; eassumption.
Qed.

End FoldDatasets.

(** ** Statements that change the file system *)

Lemma io_bind_Ok {A B} (c : io A) (k : A -> io B) (fs fs' : FS) (b : B) :
  io_bind c k fs = (Ok b, fs') ->
  exists a fs1, c fs = (Ok a, fs1) /\ k a fs1 = (Ok b, fs').
Proof.
  unfold io_bind. destruct (c fs) as [[a|e] fs1]; intros H.
  - eauto.
  - inversion H.
Qed.

Lemma io_lift_Ok {A} (c : result A) (fs fs' : FS) (a : A) :
  io_lift c fs = (Ok a, fs') -> c = Ok a /\ fs' = fs.
Proof.
  unfold io_lift. intros H. inversion H. auto.
Qed.

(** ** The cross-validation loop *)

Section CrossValidation.

Context {env : Environment}.

Variables (model_id : string) (tokenizer : Tokenizer).
Variables (texts : list cell) (labels : list Z).
Variables (multiclass : bool) (output_dir : string).

Lemma fold_body_Ok (acc res : list metrics * list metrics)
  (fold : nat) (tr te : list nat) (fs fs' : FS) :
  fold_body model_id tokenizer texts labels multiclass output_dir
            acc (fold, (tr, te)) fs = (Ok res, fs') ->
  exists r : fold_run,
    train_idx r = tr /\ test_idx r = te /\
    ran_fold tokenizer texts labels output_dir fold r /\
    (forall rs fs'',
       fold_steps model_id (num_labels multiclass) fs' rs fs'' ->
       fold_steps model_id (num_labels multiclass) fs (r :: rs) fs'') /\
    res = (fst acc ++ [metrics_of r],
           snd acc ++ [detailed (fold, metrics_of r)]).
Proof.
  unfold fold_body. intros H.
  apply io_bind_Ok in H as [[dtr dte] [fs0 [Hds H]]].
  apply io_lift_Ok in Hds as [Hds ->].
  apply io_bind_Ok in H as [m [fs1 [Hm H]]].
  apply io_bind_Ok in H as [t [fs2 [Ht H]]].
  apply io_bind_Ok in H as [t' [fs3 [Ht' H]]].
  apply io_bind_Ok in H as [em [fs4 [Hem H]]].
  apply io_lift_Ok in H as [H ->]. inversion H; subst res. clear H.
  cbn [fst snd] in Ht.
  exists {| train_idx := tr; test_idx := te;
            init := {| model := m;
                       args := training_args output_dir fold;
                       train_dataset := dtr;
                       eval_dataset := dte;
                       compute_metrics_fn := compute_metrics |};
            trained := t';
            metrics_of := em |}.
  cbn [train_idx test_idx init trained metrics_of].
  split; [reflexivity|]. split; [reflexivity|]. split; [|split].
  - unfold ran_fold. cbn. auto.
  - intros rs fs'' Hrs. econstructor; cbn; eassumption.
  - reflexivity.
Qed.

Lemma fold_loop (splits : list (list nat * list nat)) :
  forall (s : nat) (acc res : list metrics * list metrics) (fs fs' : FS),
    io_foldM (fold_body model_id tokenizer texts labels multiclass output_dir)
             acc (combine (seq s (length splits)) splits) fs
    = (Ok res, fs') ->
    exists runs : list fold_run,
      fold_steps model_id (num_labels multiclass) fs runs fs' /\
      map (fun r => (train_idx r, test_idx r)) runs = splits /\
      fst res = fst acc ++ map metrics_of runs /\
      snd res
      = snd acc
        ++ map detailed (combine (seq s (length runs)) (map metrics_of runs)) /\
      forall i r, nth_error runs i = Some r ->
                  ran_fold tokenizer texts labels output_dir (s + i) r.
Proof.
  induction splits as [|[tr0 te0] splits IH]; intros s acc res fs fs' H.
  - cbn in H. inversion H; subst res fs'. exists [].
    split; [apply no_fold|]. cbn. rewrite !app_nil_r.
    split; [reflexivity|]. split; [reflexivity|]. split; [reflexivity|].
    intros i r Hi. destruct i; discriminate.
  - cbn [length seq combine io_foldM] in H.
    apply io_bind_Ok in H as [acc1 [fs1 [Hbody H]]].
    apply fold_body_Ok in Hbody
      as [r [Etr [Ete [Hran [Hstep Hacc]]]]]. subst acc1.
    destruct (IH (S s) _ res fs1 fs' H) as [runs [St [Sp [E1 [E2 E3]]]]].
    cbn [fst snd] in E1, E2.
    exists (r :: runs). split; [|split; [|split; [|split]]].
    + now apply Hstep.
    + cbn [map]. now rewrite Etr, Ete, Sp.
    + rewrite E1, <- app_assoc. reflexivity.
    + rewrite E2, <- app_assoc. reflexivity.
    + intros i r' Hi. destruct i as [|i].
      * cbn in Hi. inversion Hi; subst r'. now rewrite Nat.add_0_r.
      * cbn in Hi. rewrite Nat.add_succ_r. exact (E3 i r' Hi).
Qed.

End CrossValidation.

Section Loop.

Context {env : Environment}.

Lemma cross_validate_folds_inv (model_id tokenizer_id : string)
  (texts : list cell) (labels : list Z) (k : nat) (multiclass : bool)
  (output_dir : string) (fm fdm : list metrics) (fs fs' : FS) :
  cross_validate_folds model_id tokenizer_id texts labels k multiclass
                       output_dir fs = (Ok (fm, fdm), fs') ->
  2 <= k /\
  exists (tokenizer : Tokenizer) (fs0 : FS) (runs : list fold_run),
    AutoTokenizer_from_pretrained tokenizer_id fs = (Ok tokenizer, fs0) /\
    Sk.split (skf_of k) (test_folds_of k labels) texts labels
    = Ok (map (fun r => (train_idx r, test_idx r)) runs) /\
    fold_steps model_id (num_labels multiclass) fs0 runs fs' /\
    fm = map metrics_of runs /\
    fdm = map detailed (enumerate fm) /\
    forall i r,
      nth_error runs i = Some r ->
      ran_fold tokenizer texts labels output_dir i r.
Proof.
  unfold cross_validate_folds, Sk.new_StratifiedKFold. intros H.
  destruct (Nat.leb_spec k 1) as [Hk|Hk].
  { cbn in H. discriminate. }
  split; [lia|].
  apply io_bind_Ok in H as [skf [fs1 [Hskf H]]].
  apply io_lift_Ok in Hskf as [Hskf ->]. inversion Hskf; subst skf.
  clear Hskf. fold (skf_of k) in H.
  apply io_bind_Ok in H as [tok [fs0 [Htok H]]].
  apply io_bind_Ok in H as [splits [fs1 [Hs H]]].
  apply io_lift_Ok in Hs as [Hs ->].
  change (Sk.make_test_folds (skf_of k)
            (shuffle_keys (Sk.random_state (skf_of k)) labels) labels)
    with (test_folds_of k labels) in Hs.
  destruct (fold_loop model_id tok texts labels multiclass output_dir
                      splits 0 ([], []) (fm, fdm) fs0 fs' H)
    as [runs [St [Sp [E1 [E2 E3]]]]].
  cbn [fst snd app] in E1, E2. subst fm.
  exists tok, fs0, runs.
  split; [exact Htok|]. split; [now rewrite Sp|]. split; [exact St|].
  split; [reflexivity|]. split.
  - rewrite E2. unfold enumerate. now rewrite length_map.
  - exact E3.
Qed.

Lemma runs_length (k : nat) (tf : list nat) (texts : list cell)
  (labels : list Z) (runs : list fold_run) :
  Sk.split (skf_of k) tf texts labels
  = Ok (map (fun r => (train_idx r, test_idx r)) runs) ->
  length runs = k.
Proof.
  intros H. apply split_length in H. now rewrite length_map in H.
Qed.

End Loop.



(** ** Persistence *)

(** A row of [fold_metrics.csv] carries the number of its fold, counted
    from 1, and the evaluation metrics of the fold. *)
Lemma detailed_row (i : nat) (m : metrics) :
  is_fold_row i m (detailed (i, m)).
Proof.
  unfold is_fold_row, detailed. cbn [fst snd]. split.
  - intros H. now rewrite lookup_merge_fresh.
  - intros H k v Hk. now apply lookup_merge.
Qed.

Lemma nth_error_combine_seq {A} (l : list A) :
  forall (s i : nat) (a : A),
    nth_error l i = Some a ->
    nth_error (combine (seq s (length l)) l) i = Some (s + i, a).
Proof.
  induction l as [|x l IH]; intros s i a Hi; [destruct i; discriminate|].
  destruct i as [|i]; cbn in *.
  - inversion Hi. now rewrite Nat.add_0_r.
  - rewrite (IH (S s) i a Hi). now rewrite Nat.add_succ_r.
Qed.

Lemma nth_error_enumerate {A} (l : list A) (i : nat) (a : A) :
  nth_error l i = Some a -> nth_error (enumerate l) i = Some (i, a).
Proof.
  intros H. exact (nth_error_combine_seq l 0 i a H).
Qed.

Lemma length_detailed_rows (fm : list metrics) :
  length (map detailed (enumerate fm)) = length fm.
Proof.
  unfold enumerate.
  now rewrite length_map, length_combine, length_seq, Nat.min_id.
Qed.

(** The rows of [fold_metrics.csv] for the folds that ran. *)
Lemma detailed_rows_of_runs {env : Environment} (runs : list fold_run)
  (i : nat) (r : fold_run) :
  nth_error runs i = Some r ->
  exists row,
    nth_error (map detailed (enumerate (map metrics_of runs))) i = Some row /\
    is_fold_row i (metrics_of r) row.
Proof.
  intros Hi. exists (detailed (i, metrics_of r)). split.
  - rewrite nth_error_map.
    rewrite (nth_error_enumerate (map metrics_of runs) i (metrics_of r));
      [reflexivity|].
    now rewrite nth_error_map, Hi.
  - apply detailed_row.
Qed.

Lemma string_length_append (s1 s2 : string) :
  String.length (s1 ++ s2) = String.length s1 + String.length s2.
Proof.
  induction s1 as [|c s1 IH]; cbn; [reflexivity | now rewrite IH].
Qed.



Lemma avg_metrics_csv_not_fold_metrics (a : Args) :
  avg_metrics_csv "./evaluation" a <> fold_metrics_path.
Proof.
  unfold avg_metrics_csv, fold_metrics_path, OsPath.join.
  destruct (OsPath.startswith_sep _) eqn:S.
  - destruct (model_id a ++ _)%string as [|c s]; [discriminate|].
    cbn in S. apply Ascii.eqb_eq in S. subst c. cbn. discriminate.
  - cbn. intros E. apply (f_equal String.length) in E.
    cbn in E. rewrite !string_length_append in E.
    destruct (multiclass a); cbn in E; lia.
Qed.

Section Persistence.

Context {env : Environment}.

Lemma to_csv_Ok (frame : list metrics) (path : string) (fs fs' : FS) (u : unit) :
  to_csv frame path fs = (Ok u, fs') ->
  files fs' = (path, Csv frame) :: files fs /\
  directories fs' = directories fs.
Proof.
  unfold to_csv. destruct (os_permits fs path); intros H; inversion H.
  auto.
Qed.

Lemma makedirs_Ok (path : string) (fs fs' : FS) (u : unit) :
  makedirs path fs = (Ok u, fs') -> files fs' = files fs.
Proof.
  unfold makedirs. destruct (os_permits fs path); intros H; inversion H.
  reflexivity.
Qed.

Lemma one_row_frame_Ok (m : metrics) (frame : list metrics) :
  one_row_frame m = Ok frame -> exists row, frame = [row].
Proof.
  unfold one_row_frame. intros H. apply bind_Ok in H as [row [_ H]].
  inversion H. eauto.
Qed.

(** When no library call writes, the folds leave the file system as
    they found it. *)
Lemma fold_steps_silent (model_id : string) (n : nat) (fs fs' : FS)
  (runs : list fold_run) :
  libraries_silent ->
  fold_steps model_id n fs runs fs' -> fs' = fs.
Proof.
  intros [_ [Hm [Hn [Ht He]]]] H.
  induction H as [fs|fs fs1 fs2 fs3 fs4 fs' r t rs H1 H2 H3 H4 _ IH];
    [reflexivity|].
  rewrite IH.
  specialize (Hm model_id n fs). rewrite H1 in Hm.
  specialize (Hn (init r) fs1). rewrite H2 in Hn.
  specialize (Ht t fs2). rewrite H3 in Ht.
  specialize (He (trained r) fs3). rewrite H4 in He.
  cbn in Hm, Hn, Ht, He. congruence.
Qed.

(** What a completed [cross_validate_model] did and left behind: the
    folds ran from the file system the tokenizer's loading left, then
    [fold_metrics.csv] was written under the output directory, one row
    per fold, and the value is the averages of the fold metrics. *)
Lemma cross_validate_model_Ok (model_id tokenizer_id : string)
  (texts : list cell) (labels : list Z) (k : nat) (multiclass : bool)
  (output_dir : string) (fs fs' : FS) (avg : metrics) :
  cross_validate_model model_id tokenizer_id texts labels k multiclass
                       output_dir fs = (Ok avg, fs') ->
  exists (tokenizer : Tokenizer) (fs0 fs1 : FS) (runs : list fold_run),
    AutoTokenizer_from_pretrained tokenizer_id fs = (Ok tokenizer, fs0) /\
    Sk.split (skf_of k) (test_folds_of k labels) texts labels
    = Ok (map (fun r => (train_idx r, test_idx r)) runs) /\
    fold_steps model_id (num_labels multiclass) fs0 runs fs1 /\
    (forall i r, nth_error runs i = Some r ->
                 ran_fold tokenizer texts labels output_dir i r) /\
    length runs = k /\
    aggregate_metrics (map metrics_of runs) = Ok avg /\
    files fs'
    = (OsPath.join output_dir "fold_metrics.csv",
       Csv (map detailed (enumerate (map metrics_of runs)))) :: files fs1.
Proof.
  unfold cross_validate_model. intros H.
  apply io_bind_Ok in H as [[fm fdm] [fs1 [Hf H]]].
  apply io_bind_Ok in H as [u [fs2 [Hw H]]].
  apply io_lift_Ok in H as [Ha ->].
  apply to_csv_Ok in Hw as [Hw _].
  apply cross_validate_folds_inv
    in Hf as [_ [tok [fs0 [runs [Htok [Hs [St [Hfm [Hfdm Hran]]]]]]]]].
  subst fm fdm.
  exists tok, fs0, fs1, runs.
  split; [exact Htok|]. split; [exact Hs|]. split; [exact St|].
  split; [exact Hran|]. split; [exact (runs_length _ _ _ _ _ Hs)|].
  split; [exact Ha | exact Hw].
Qed.

(** What a completed [main] did and left behind. *)
Lemma main_Ok (a : Args) (csv : list row) (fs fs' : FS) (u : unit) :
  main a csv fs = (Ok u, fs') ->
  multiclass a = true /\
  exists (ls : list Z) (tokenizer : Tokenizer) (fs1 fs2 fs3 : FS)
         (runs : list fold_run) (avg row : metrics),
    multiclass_labels csv = Ok ls /\
    makedirs "./evaluation" fs = (Ok tt, fs1) /\
    AutoTokenizer_from_pretrained (tokenizer_id a) fs1 = (Ok tokenizer, fs2) /\
    Sk.split (skf_of 10) (test_folds_of 10 ls) (map sentence csv) ls
    = Ok (map (fun r => (train_idx r, test_idx r)) runs) /\
    fold_steps (model_id a) 9 fs2 runs fs3 /\
    (forall i r, nth_error runs i = Some r ->
                 ran_fold tokenizer (map sentence csv) ls "./evaluation" i r) /\
    length runs = 10 /\
    aggregate_metrics (map metrics_of runs) = Ok avg /\
    one_row_frame avg = Ok [row] /\
    files fs'
    = (avg_metrics_csv "./evaluation" a, Csv [row])
        :: (fold_metrics_path,
            Csv (map detailed (enumerate (map metrics_of runs))))
        :: files fs3.
Proof.
  intros H.
  assert (Hmc : multiclass a = true).
  { destruct (multiclass a) eqn:E; [reflexivity|].
    rewrite (main_binary_outcome a csv fs E) in H. discriminate. }
  split; [exact Hmc|].
  unfold main in H. rewrite Hmc in H.
  apply io_bind_Ok in H as [df [fs1 [H1 H]]].
  apply io_lift_Ok in H1 as [Hload ->].
  apply load_data_multiclass_inv in Hload as [ls [Hls ->]].
  apply io_bind_Ok in H as [u1 [fs1 [H1 H]]].
  apply io_lift_Ok in H1 as [_ ->].
  apply io_bind_Ok in H as [texts [fs1 [H1 H]]].
  apply io_lift_Ok in H1 as [Ht ->].
  apply io_bind_Ok in H as [labels [fs1 [H1 H]]].
  apply io_lift_Ok in H1 as [Hl ->].
  cbn in Ht, Hl. inversion Ht; subst texts. inversion Hl; subst labels.
  apply io_bind_Ok in H as [[] [fs1 [Hmk H]]].
  apply io_bind_Ok in H as [avg [fs4 [Hcv H]]].
  apply cross_validate_model_Ok in Hcv
    as [tok [fs2 [fs3 [runs [Htok [Hs [St [Hran [Hlen [Havg Hfiles]]]]]]]]]].
  unfold save_metrics in H.
  apply io_bind_Ok in H as [frame [fs5 [Hrow H]]].
  apply io_lift_Ok in Hrow as [Hrow ->].
  destruct (one_row_frame_Ok _ _ Hrow) as [row ->].
  apply to_csv_Ok in H as [H _].
  exists ls, tok, fs1, fs2, fs3, runs, avg, row.
  repeat (split; [assumption|]).
  rewrite H, Hfiles. reflexivity.
Qed.

(** The two result files as a completed [main] leaves them, and every
    other path as the last library call left it. *)
Lemma main_reads (a : Args) (fs' fs3 : FS) (row : metrics)
  (rows : list metrics) :
  files fs'
  = (avg_metrics_csv "./evaluation" a, Csv [row])
      :: (fold_metrics_path, Csv rows) :: files fs3 ->
  read_file fs' (avg_metrics_csv "./evaluation" a) = Some (Csv [row]) /\
  read_file fs' fold_metrics_path = Some (Csv rows) /\
  forall p, p <> avg_metrics_csv "./evaluation" a -> p <> fold_metrics_path ->
            read_file fs' p = read_file fs3 p.
Proof.
  intros H. unfold read_file. rewrite H. cbn [Py.lookup].
  split; [|split].
  - now rewrite String.eqb_refl.
  - destruct (String.eqb_spec (avg_metrics_csv "./evaluation" a)
                              fold_metrics_path) as [E|_].
    + now apply avg_metrics_csv_not_fold_metrics in E.
    + now rewrite String.eqb_refl.
  - intros p Hp1 Hp2.
    destruct (String.eqb_spec (avg_metrics_csv "./evaluation" a) p);
      [congruence|].
    destruct (String.eqb_spec fold_metrics_path p); [congruence|].
    reflexivity.
Qed.

End Persistence.

(** C7 fails on the code for a model stored at an absolute path: when
    [main] completes for [--model-id /opt/models/bert --multiclass], the
    ten fold rows are in [./evaluation/fold_metrics.csv], but the averaged
    metrics are in [/opt/models/bert-multiclass_metrics.csv], which is
    not under [./evaluation]: [os.path.join] drops the output directory
    in front of an absolute file name.  When the library calls write
    nothing themselves, these two files are all the run added to the
    file system. *)
Theorem main_absolute_model_id {env : Environment}
  (csv : list row) (fs fs' : FS) :
  main absolute_args csv fs = (Ok tt, fs') ->
  exists (fold_rows : list metrics) (row : metrics),
    length fold_rows = 10 /\
    read_file fs' "/opt/models/bert-multiclass_metrics.csv"
    = Some (Csv [row]) /\
    read_file fs' "./evaluation/fold_metrics.csv" = Some (Csv fold_rows) /\
    (libraries_silent ->
     files fs'
     = ("/opt/models/bert-multiclass_metrics.csv", Csv [row])
         :: ("./evaluation/fold_metrics.csv", Csv fold_rows)
         :: files fs).
Proof.
  intros H.
  apply main_Ok in H
    as [_ [ls [tok [fs1 [fs2 [fs3 [runs [avg [row
         [_ [Hmk [Htok [_ [St [_ [Hlen [_ [_ Hfiles]]]]]]]]]]]]]]]]]].
  exists (map detailed (enumerate (map metrics_of runs))), row.
  destruct (main_reads absolute_args fs' fs3 row _ Hfiles) as [R1 [R2 _]].
  split; [|split; [exact R1|split; [exact R2|]]].
  - now rewrite length_detailed_rows, length_map.
  - intros Hsilent.
    assert (E3 : fs3 = fs2) by exact (fold_steps_silent _ _ _ _ _ Hsilent St).
    assert (E2 : fs2 = fs1).
    { destruct Hsilent as [Hs _].
      specialize (Hs (tokenizer_id absolute_args) fs1).
      rewrite Htok in Hs. exact Hs. }
    apply makedirs_Ok in Hmk.
    rewrite Hfiles, E3, E2, Hmk. reflexivity.
Qed.

Lemma main_absolute_model_id_witness :
  let fs' := snd (@main toy_env absolute_args sample_csv empty_fs) in
  exists (fold_rows : list metrics) (row : metrics),
    length fold_rows = 10 /\
    read_file fs' "/opt/models/bert-multiclass_metrics.csv"
    = Some (Csv [row]) /\
    read_file fs' "./evaluation/fold_metrics.csv" = Some (Csv fold_rows) /\
    (@libraries_silent toy_env ->
     files fs'
     = ("/opt/models/bert-multiclass_metrics.csv", Csv [row])
         :: ("./evaluation/fold_metrics.csv", Csv fold_rows)
         :: files empty_fs).
Proof.
  apply (@main_absolute_model_id toy_env sample_csv empty_fs).
  vm_compute. reflexivity.
Defined.

(** ** Rows of the two files *)

Section Results.

Context {env : Environment}.


End Results.


(** ** The model on small inputs *)

Example join_examples :
  OsPath.join "./evaluation" "fold_metrics.csv"
  = "./evaluation/fold_metrics.csv" /\
  OsPath.join "./evaluation/" "fold-0" = "./evaluation/fold-0" /\
  OsPath.join "./evaluation" "/opt/models/bert-multiclass_metrics.csv"
  = "/opt/models/bert-multiclass_metrics.csv" /\
  avg_metrics_csv "./evaluation" relative_args
  = "./evaluation/bert-base-uncased-multiclass_metrics.csv".
Proof.
  repeat split.
Qed.

Example load_data_two_joy_rows :
  load_data two_joy_rows true
  = Ok (RetFrame {| rows := two_joy_rows;
                    labels_column := Some [0%Z; 0%Z] |}) /\
  load_data two_joy_rows false
  = Ok (RetTuple (read_frame two_joy_rows)
          [ ("Joy", [1; 1]); ("Sadness", [1; 0]); ("Anger", [0; 1]);
            ("Fear", [0; 0]); ("Trust", [0; 0]); ("Disgust", [0; 0]);
            ("Surprise", [0; 0]); ("Anticipation", [0; 0]);
            ("Neutral", [0; 0]) ]%Z) /\
  load_data [sample_row "odd" "Joy" (CStr "Bored")] true = Raise KeyError /\
  load_data [] true = Raise ValueError.
Proof.
  repeat split.
Qed.

(** The sample in ten folds, the shuffle keeping the order: each class
    is dealt to the folds in turn. *)
Example split_sample :
  @test_folds_of toy_env 10 sample_class_labels
  = [0; 1; 2; 3; 4; 5; 6; 7; 8; 9; 0; 1] /\
  Sk.split (skf_of 10) (@test_folds_of toy_env 10 sample_class_labels)
           sample_texts sample_class_labels
  = Ok [ ([1; 2; 3; 4; 5; 6; 7; 8; 9; 11], [0; 10]);
         ([0; 2; 3; 4; 5; 6; 7; 8; 9; 10], [1; 11]);
         ([0; 1; 3; 4; 5; 6; 7; 8; 9; 10; 11], [2]);
         ([0; 1; 2; 4; 5; 6; 7; 8; 9; 10; 11], [3]);
         ([0; 1; 2; 3; 5; 6; 7; 8; 9; 10; 11], [4]);
         ([0; 1; 2; 3; 4; 6; 7; 8; 9; 10; 11], [5]);
         ([0; 1; 2; 3; 4; 5; 7; 8; 9; 10; 11], [6]);
         ([0; 1; 2; 3; 4; 5; 6; 8; 9; 10; 11], [7]);
         ([0; 1; 2; 3; 4; 5; 6; 7; 9; 10; 11], [8]);
         ([0; 1; 2; 3; 4; 5; 6; 7; 8; 10; 11], [9]) ] /\
  Sk.split (skf_of 10) [] (firstn 9 sample_texts)
           (firstn 9 sample_class_labels)
  = Raise ValueError.
Proof.
  repeat split; vm_compute; reflexivity.
Qed.

(** Eight samples of three classes in three folds: without a shuffle
    the classes are dealt in blocks, and keys that reverse the order
    permute the fold numbers inside every class. *)
Example make_test_folds_sample :
  Sk.make_test_folds {| Sk.n_splits := 3; Sk.shuffle := false;
                        Sk.random_state := 42 |}
                     (fun _ position => position) [5; 5; 7; 5; 7; 7; 5; 9]%Z
  = [0; 0; 0; 1; 1; 2; 2; 1] /\
  Sk.make_test_folds (skf_of 3) (fun _ position => 10 - position)
                     [5; 5; 7; 5; 7; 7; 5; 9]%Z
  = [2; 1; 2; 0; 1; 0; 0; 1].
Proof.
  split; vm_compute; reflexivity.
Qed.

(** The two examples of scikit-learn's documentation, without a shuffle:
    four samples of two classes in two folds, and fifty samples, five
    of them of the second class, in three folds, where the folds test
    15 + 2, 15 + 2 and 15 + 1 samples of the two classes. *)
Example split_documented :
  let skf k := {| Sk.n_splits := k; Sk.shuffle := false;
                  Sk.random_state := 0 |} in
  let keys (_ position : nat) := position in
  let y := (repeat 0 45 ++ repeat 1 5)%Z in
  Sk.split (skf 2) (Sk.make_test_folds (skf 2) keys [0; 0; 1; 1]%Z)
           [tt; tt; tt; tt] [0; 0; 1; 1]%Z
  = Ok [([1; 3], [0; 2]); ([0; 2], [1; 3])] /\
  match Sk.split (skf 3) (Sk.make_test_folds (skf 3) keys y) y y with
  | Ok folds =>
      map (fun f => (Sk.count (fun j => (nth j y 0 =? 0)%Z) (snd f),
                     Sk.count (fun j => (nth j y 0 =? 1)%Z) (snd f))) folds
      = [(15, 2); (15, 2); (15, 1)]
  | Raise _ => False
  end.
Proof.
  split; vm_compute; reflexivity.
Qed.

(** The files of a run of the sample in the small environment: the
    checkpoints training saved, fold after fold, then the two result
    files. *)
Example main_sample_files :
  map fst (files (snd (@main toy_env relative_args sample_csv empty_fs)))
  = [ "./evaluation/bert-base-uncased-multiclass_metrics.csv";
      "./evaluation/fold_metrics.csv";
      "./evaluation/fold-9/checkpoint-1/model.safetensors";
      "./evaluation/fold-8/checkpoint-1/model.safetensors";
      "./evaluation/fold-7/checkpoint-1/model.safetensors";
      "./evaluation/fold-6/checkpoint-1/model.safetensors";
      "./evaluation/fold-5/checkpoint-1/model.safetensors";
      "./evaluation/fold-4/checkpoint-1/model.safetensors";
      "./evaluation/fold-3/checkpoint-1/model.safetensors";
      "./evaluation/fold-2/checkpoint-1/model.safetensors";
      "./evaluation/fold-1/checkpoint-1/model.safetensors";
      "./evaluation/fold-0/checkpoint-1/model.safetensors" ].
Proof.
  vm_compute. reflexivity.
Qed.

Example aggregate_sample :
  exists a p r f : Q,
    aggregate_metrics sample_fold_metrics
    = Ok [ ("accuracy", VFloat (Fin a)); ("precision", VFloat (Fin p));
           ("recall", VFloat (Fin r)); ("f1", VFloat (Fin f)) ] /\
    (a == 3 # 4)%Q /\ (p == 3 # 4)%Q /\ (r == 5 # 8)%Q /\ (f == 2 # 3)%Q.
Proof.
  do 4 eexists. split; [vm_compute; reflexivity|].
  repeat split; reflexivity.
Qed.

(* ================================================================== *)
(** * Further properties of the pipeline *)
(* ================================================================== *)

(** ** What a run needs to complete *)

Lemma forallb_false_witness {A} (f : A -> bool) (l : list A) :
  forallb f l = false -> exists a, In a l /\ f a = false.
Proof.
  induction l as [|a l IH]; cbn; [discriminate|].
  destruct (f a) eqn:E; cbn.
  - intros H. destruct (IH H) as [a' [Hin Ha']]. eauto.
  - intros _. eauto.
Qed.

Lemma split_requirements {A} (skf : Sk.StratifiedKFold) (tf : list nat)
  (X : list A) (y : list Z) (splits : list (list nat * list nat)) :
  Sk.split skf tf X y = Ok splits ->
  length y = length X /\
  Sk.n_splits skf <= length X /\
  exists c, In c y /\ Sk.n_splits skf <= count_occ Z.eq_dec y c.
Proof.
  unfold Sk.split.
  destruct (Nat.eqb_spec (length y) (length X)) as [E|E]; cbn [negb];
    [|discriminate].
  destruct (Nat.ltb_spec (length X) (Sk.n_splits skf)) as [Hlt|Hle];
    [discriminate|].
  destruct (forallb _ (Sk.unique y)) eqn:F; [discriminate|].
  intros _. split; [assumption|]. split; [assumption|].
  apply forallb_false_witness in F as [c [Hc Hn]].
  exists c. split; [now apply unique_In|].
  rewrite count_eqb_count_occ in Hn.
  apply Nat.ltb_ge in Hn. exact Hn.
Qed.


(** X2: [cross_validate_model]'s loop completes only for at least two
    folds, at least as many samples as folds, one label per text, and a
    class with at least as many members as folds; it then collected one
    metrics record and one detailed row per fold. *)
Theorem cross_validate_folds_requirements {env : Environment}
  (model_id tokenizer_id : string) (texts : list cell) (labels : list Z)
  (k : nat) (multiclass : bool) (output_dir : string)
  (fm fdm : list metrics) (fs fs' : FS) :
  cross_validate_folds model_id tokenizer_id texts labels k multiclass
                       output_dir fs = (Ok (fm, fdm), fs') ->
  2 <= k /\ k <= length texts /\ length labels = length texts /\
  (exists c, In c labels /\ k <= count_occ Z.eq_dec labels c) /\
  length fm = k /\ length fdm = k.
Proof.
  intros H.
  apply cross_validate_folds_inv
    in H as [Hk [tok [fs0 [runs [_ [Hs [_ [Hfm [Hfdm _]]]]]]]]].
  destruct (split_requirements _ _ _ _ _ Hs) as [Hy [Hn Hc]].
  assert (Hlen := runs_length _ _ _ _ _ Hs). cbn in Hn, Hc.
  assert (Hl : length fm = k) by (subst fm; now rewrite length_map).
  repeat split; try assumption.
  rewrite Hfdm, length_detailed_rows. exact Hl.
Qed.

Lemma cross_validate_folds_requirements_witness :
  match sample_run with
  | (Ok (fm, fdm), _) =>
      2 <= 10 /\ 10 <= length sample_texts /\
      length sample_class_labels = length sample_texts /\
      (exists c, In c sample_class_labels
                 /\ 10 <= count_occ Z.eq_dec sample_class_labels c) /\
      length fm = 10 /\ length fdm = 10
  | (Raise _, _) => False
  end.
Proof.
  destruct sample_run as [[[fm fdm]|e] fs'] eqn:E.
  - exact (@cross_validate_folds_requirements toy_env _ _ _ _ _ _ _ _ _ _ _ E).
  - vm_compute in E. discriminate.
Defined.

Section Requirements.

Context {env : Environment}.

(** X3: [main] completes only for a multiclass run on a frame of at
    least ten rows, all of them valid, in which some label is carried by
    at least ten rows. *)
Theorem main_requirements (a : Args) (csv : list row) (fs fs' : FS) (u : unit) :
  main a csv fs = (Ok u, fs') ->
  multiclass a = true /\
  Forall valid_row csv /\
  10 <= length csv /\
  exists (ls : list Z) (c : Z),
    multiclass_labels csv = Ok ls /\ 10 <= count_occ Z.eq_dec ls c.
Proof.
  intros H.
  apply main_Ok in H
    as [Hmc [ls [tok [fs1 [fs2 [fs3 [runs [avg [row [Hls [_ [_ [Hs _]]]]]]]]]]]]].
  split; [exact Hmc|].
  split; [exact (multiclass_labels_valid csv ls Hls)|].
  destruct (split_requirements _ _ _ _ _ Hs) as [_ [Hn [c [_ Hc]]]].
  rewrite length_map in Hn. cbn in Hn, Hc.
  split; [exact Hn|]. exists ls, c. auto.
Qed.

End Requirements.

Lemma main_requirements_witness :
  multiclass relative_args = true /\
  Forall valid_row sample_csv /\
  10 <= length sample_csv /\
  exists (ls : list Z) (c : Z),
    multiclass_labels sample_csv = Ok ls /\ 10 <= count_occ Z.eq_dec ls c.
Proof.
  apply (@main_requirements toy_env relative_args sample_csv empty_fs
           (snd (@main toy_env relative_args sample_csv empty_fs)) tt).
  vm_compute. reflexivity.
Defined.

(** On nine rows the splitter refuses ten folds: nothing is trained and
    no file is written. *)
Example main_nine_rows :
  @main toy_env relative_args nine_rows empty_fs
  = (Raise ValueError, {| directories := ["./evaluation"]; files := [] |}).
Proof.
  vm_compute. reflexivity.
Qed.

(** ** What the script itself writes *)




Section Writes.

Context {env : Environment}.





End Writes.



(** ** More on [aggregate_metrics] *)

Lemma mapM_Ok_In {A B} (f : A -> result B) (l : list A) (bs : list B) :
  mapM f l = Ok bs -> forall a, In a l -> exists b, f a = Ok b.
Proof.
  intros H a Ha. apply In_nth_error in Ha as [i Hi].
  destruct (mapM_nth_error f l bs H i a Hi) as [b [_ Hb]]. eauto.
Qed.

Lemma getitem_Ok {V} (d : list (string * V)) (k : string) (v : V) :
  Py.getitem d k = Ok v <-> Py.lookup d k = Some v.
Proof.
  unfold Py.getitem. destruct (Py.lookup d k); split; intros H;
    inversion H; reflexivity.
Qed.

Lemma getitem_Raise {V} (d : list (string * V)) (k : string) (e : exn) :
  Py.getitem d k = Raise e -> e = KeyError /\ Py.lookup d k = None.
Proof.
  unfold Py.getitem. destruct (Py.lookup d k); intros H; inversion H. auto.
Qed.

Lemma mean_over_folds_keys (key : string) (fm : list metrics) (x : npfloat) :
  mean_over_folds key fm = Ok x ->
  forall m, In m fm -> exists v, Py.lookup m key = Some v.
Proof.
  unfold mean_over_folds. intros H m Hm.
  apply bind_Ok in H as [vs [H _]].
  destruct (mapM_Ok_In _ _ _ H m Hm) as [v Hv].
  exists v. now apply getitem_Ok.
Qed.

Lemma mean_of_means_keys (key : string) (fm : list metrics) (x : npfloat) :
  mean_of_means key fm = Ok x ->
  forall m, In m fm -> exists v, Py.lookup m key = Some v.
Proof.
  unfold mean_of_means. intros H m Hm.
  apply bind_Ok in H as [xs [H _]].
  destruct (mapM_Ok_In _ _ _ H m Hm) as [y Hy].
  apply bind_Ok in Hy as [v [Hv _]].
  exists v. now apply getitem_Ok.
Qed.

(** X5: when [aggregate_metrics] returns, every fold record had the
    four [eval_] keys, the result has exactly the keys accuracy,
    precision, recall and f1, in this order, each with a single float,
    and it fits the one-row frame [save_metrics] builds from it: that
    frame is the result itself, so [save_metrics] can only fail in
    writing the file. *)
Theorem aggregate_metrics_shape (fold_metrics : list metrics) (avg : metrics) :
  aggregate_metrics fold_metrics = Ok avg ->
  Forall has_eval_keys fold_metrics /\
  (exists a p r f : npfloat,
     avg = [ ("accuracy", VFloat a); ("precision", VFloat p);
             ("recall", VFloat r); ("f1", VFloat f) ]) /\
  one_row_frame avg = Ok [avg].
Proof.
  unfold aggregate_metrics. intros H.
  apply bind_Ok in H as [a [Ha H]].
  apply bind_Ok in H as [p [Hp H]].
  apply bind_Ok in H as [r [Hr H]].
  apply bind_Ok in H as [f [Hf H]].
  inversion H; subst avg. clear H.
  split; [|split].
  - apply Forall_forall. intros m Hm k Hk. cbn in Hk.
    destruct Hk as [<-|[<-|[<-|[<-|[]]]]].
    + exact (mean_over_folds_keys _ _ _ Ha m Hm).
    + exact (mean_of_means_keys _ _ _ Hp m Hm).
    + exact (mean_of_means_keys _ _ _ Hr m Hm).
    + exact (mean_of_means_keys _ _ _ Hf m Hm).
  - exists a, p, r, f. reflexivity.
  - reflexivity.
Qed.

Lemma aggregate_metrics_shape_witness :
  match aggregate_metrics sample_fold_metrics with
  | Ok avg =>
      Forall has_eval_keys sample_fold_metrics /\
      (exists a p r f : npfloat,
         avg = [ ("accuracy", VFloat a); ("precision", VFloat p);
                 ("recall", VFloat r); ("f1", VFloat f) ]) /\
      one_row_frame avg = Ok [avg]
  | Raise _ => False
  end.
Proof.
  destruct (aggregate_metrics sample_fold_metrics) as [avg|e] eqn:E.
  - exact (aggregate_metrics_shape sample_fold_metrics avg E).
  - vm_compute in E. discriminate.
Defined.

Lemma mapM_getitem_missing (key : string) (fm : list metrics) :
  Exists (fun m => Py.lookup m key = None) fm ->
  mapM (fun m => Py.getitem m key) fm = Raise KeyError.
Proof.
  induction 1 as [m fm Hm|m fm H IH]; cbn [mapM].
  - unfold Py.getitem at 1. now rewrite Hm.
  - rewrite IH. destruct (Py.getitem m key) as [v|e] eqn:E; cbn [Py.bind].
    + reflexivity.
    + now apply getitem_Raise in E as [-> _].
Qed.

Lemma mean_values_Raise (vs : list value) (e : exn) :
  mean_values vs = Raise e -> e = ValueError.
Proof.
  unfold mean_values.
  destruct (all_some (map scalar_of vs)); [discriminate|].
  destruct (all_some (map list_of vs)) as [ls|];
    [destruct (same_length ls)|]; intros H; inversion H; reflexivity.
Qed.

Lemma mean_over_folds_Raise (key : string) (fm : list metrics) (e : exn) :
  mean_over_folds key fm = Raise e ->
  (e = KeyError /\ Exists (fun m => Py.lookup m key = None) fm)
  \/ e = ValueError.
Proof.
  unfold mean_over_folds.
  destruct (mapM (fun m => Py.getitem m key) fm) as [vs|e'] eqn:E;
    cbn [Py.bind]; intros H.
  - right. exact (mean_values_Raise vs e H).
  - inversion H; subst e'. left.
    apply mapM_Raise in E as [m [Hm Hr]].
    apply getitem_Raise in Hr as [-> Hr]. split; [reflexivity|].
    apply Exists_exists. eauto.
Qed.

Lemma mean_of_means_Raise (key : string) (fm : list metrics) (e : exn) :
  mean_of_means key fm = Raise e ->
  e = KeyError /\ Exists (fun m => Py.lookup m key = None) fm.
Proof.
  unfold mean_of_means.
  destruct (mapM (fun m => v <- Py.getitem m key ;; Ok (mean_value v)) fm)
    as [xs|e'] eqn:E; cbn [Py.bind]; intros H; [discriminate|].
  inversion H; subst e'.
  apply mapM_Raise in E as [m [Hm Hr]].
  destruct (Py.getitem m key) as [v|e'] eqn:G; cbn [Py.bind] in Hr;
    [discriminate|].
  inversion Hr; subst e'. apply getitem_Raise in G as [-> G].
  split; [reflexivity|]. apply Exists_exists. eauto.
Qed.

(** X6: [aggregate_metrics] raises [KeyError] as soon as one fold record
    has no [eval_accuracy]; it raises nothing but [KeyError] and
    [ValueError]; and a [KeyError] always means that some fold record
    lacks one of the four [eval_] keys. *)
Theorem aggregate_metrics_errors (fold_metrics : list metrics) :
  (Exists (fun m => Py.lookup m "eval_accuracy" = None) fold_metrics ->
   aggregate_metrics fold_metrics = Raise KeyError) /\
  (forall e, aggregate_metrics fold_metrics = Raise e ->
             e = KeyError \/ e = ValueError) /\
  (aggregate_metrics fold_metrics = Raise KeyError ->
   ~ Forall has_eval_keys fold_metrics).
Proof.
  assert (Key : forall e key,
             In key ["eval_accuracy"; "eval_precision"; "eval_recall";
                     "eval_f1"] ->
             e = KeyError /\
             Exists (fun m => Py.lookup m key = None) fold_metrics ->
             ~ Forall has_eval_keys fold_metrics).
  { intros e key Hk [_ Hex] Hall.
    apply Exists_exists in Hex as [m [Hm Hnone]].
    rewrite Forall_forall in Hall.
    destruct (Hall m Hm key Hk) as [v Hv]. congruence. }
  assert (Cases : forall e,
             aggregate_metrics fold_metrics = Raise e ->
             e = ValueError \/
             (e = KeyError /\ ~ Forall has_eval_keys fold_metrics)).
  { unfold aggregate_metrics. intros e H.
    destruct (mean_over_folds "eval_accuracy" fold_metrics) as [a|e1] eqn:Ea;
      cbn [Py.bind] in H.
    - destruct (mean_of_means "eval_precision" fold_metrics) as [p|e2] eqn:Ep;
        cbn [Py.bind] in H.
      + destruct (mean_of_means "eval_recall" fold_metrics) as [r|e3] eqn:Er;
          cbn [Py.bind] in H.
        * destruct (mean_of_means "eval_f1" fold_metrics) as [f|e4] eqn:Ef;
            cbn [Py.bind] in H; [discriminate|].
          inversion H; subst e4. apply mean_of_means_Raise in Ef.
          right. split; [tauto|]. apply (Key e "eval_f1"); cbn; tauto.
        * inversion H; subst e3. apply mean_of_means_Raise in Er.
          right. split; [tauto|]. apply (Key e "eval_recall"); cbn; tauto.
      + inversion H; subst e2. apply mean_of_means_Raise in Ep.
        right. split; [tauto|]. apply (Key e "eval_precision"); cbn; tauto.
    - inversion H; subst e1.
      apply mean_over_folds_Raise in Ea as [Ea|Ea]; [|now left].
      right. split; [tauto|]. apply (Key e "eval_accuracy"); cbn; tauto. }
  split; [|split].
  - intros Hex. unfold aggregate_metrics, mean_over_folds.
    now rewrite (mapM_getitem_missing _ _ Hex).
  - intros e H. destruct (Cases e H) as [->|[-> _]]; auto.
  - intros H. destruct (Cases KeyError H) as [E|[_ Hn]];
      [discriminate | exact Hn].
Qed.

Lemma Q_of_length_pos {A} (l : list A) :
  l <> [] -> (0 < inject_Z (Z.of_nat (length l)))%Q.
Proof.
  intros H. destruct l as [|a l]; [contradiction|].
  unfold Qlt. cbn. lia.
Qed.

Lemma sum_Q_unit (l : list Q) :
  Forall in_unit l ->
  (0 <= sum_Q l)%Q /\ (sum_Q l <= inject_Z (Z.of_nat (length l)))%Q.
Proof.
  induction 1 as [|q l [Hq0 Hq1] H [IH0 IH1]]; cbn [sum_Q fold_right length].
  - split; apply Qle_refl.
  - fold (sum_Q l). split.
    + setoid_replace 0%Q with (0 + 0)%Q by ring.
      now apply Qplus_le_compat.
    + rewrite Nat2Z.inj_succ. unfold Z.succ. rewrite inject_Z_plus.
      setoid_replace (inject_Z (Z.of_nat (length l)) + inject_Z 1)%Q
        with (1 + inject_Z (Z.of_nat (length l)))%Q by ring.
      now apply Qplus_le_compat.
Qed.

Lemma arithmetic_mean_unit (l : list Q) :
  l <> [] -> Forall in_unit l -> in_unit (arithmetic_mean l).
Proof.
  intros Hne H. destruct (sum_Q_unit l H) as [H0 H1].
  assert (Hpos := Q_of_length_pos l Hne).
  unfold in_unit, arithmetic_mean. split.
  - apply Qle_shift_div_l; [assumption|]. now rewrite Qmult_0_l.
  - apply Qle_shift_div_r; [assumption|]. now rewrite Qmult_1_l.
Qed.

Lemma np_mean_Q_unit (l : list Q) :
  l <> [] -> Forall in_unit l -> in_unit (np_mean_Q l).
Proof.
  intros Hne H. destruct (arithmetic_mean_unit l Hne H) as [H0 H1].
  unfold in_unit. rewrite np_mean_Q_arithmetic. now split.
Qed.

Lemma np_mean_Q_of_means_unit (proj : fold_record -> list Q)
  (rs : list fold_record) :
  rs <> [] ->
  Forall (fun r => proj r <> [] /\ Forall in_unit (proj r)) rs ->
  in_unit (np_mean_Q (map (fun r => np_mean_Q (proj r)) rs)).
Proof.
  intros Hne H. apply np_mean_Q_unit.
  - destruct rs; [contradiction | discriminate].
  - apply Forall_map. eapply Forall_impl; [|exact H].
    intros r [Hr1 Hr2]. now apply np_mean_Q_unit.
Qed.

(** X7: averages of values between 0 and 1 stay between 0 and 1: for a
    non-empty list of fold records whose accuracy and per-class
    precision, recall and F1 all lie in the unit interval,
    [aggregate_metrics] returns four numbers in the unit interval. *)
Theorem aggregate_metrics_unit_interval
  (fold_metrics : list metrics) (rs : list fold_record) :
  fold_metrics <> [] ->
  Forall2 holds fold_metrics rs ->
  Forall unit_record rs ->
  exists a p r f : Q,
    aggregate_metrics fold_metrics = Ok (averages a p r f) /\
    in_unit a /\ in_unit p /\ in_unit r /\ in_unit f.
Proof.
  intros Hne H Hu.
  assert (Hrs : rs <> []).
  { destruct H; [contradiction | discriminate]. }
  exists (np_mean_Q (map eval_accuracy rs)),
         (np_mean_Q (map (fun x => np_mean_Q (eval_precision x)) rs)),
         (np_mean_Q (map (fun x => np_mean_Q (eval_recall x)) rs)),
         (np_mean_Q (map (fun x => np_mean_Q (eval_f1 x)) rs)).
  assert (Hfm : forall P : fold_record -> Prop,
             (forall m x, holds m x -> unit_record x -> P x) ->
             Forall P rs).
  { intros P HP. clear Hne Hrs.
    induction H as [|m x fm rs' Hmx H IH]; [constructor|].
    inversion Hu; subst. constructor; eauto. }
  split; [|split; [|split; [|split]]].
  - unfold aggregate_metrics, averages.
    rewrite (mean_over_folds_accuracy _ rs Hne H).
    rewrite (mean_of_means_per_class "eval_precision" eval_precision _ rs Hne)
      by (eapply Forall2_impl; [|exact H]; intros m x Hx; apply Hx).
    rewrite (mean_of_means_per_class "eval_recall" eval_recall _ rs Hne)
      by (eapply Forall2_impl; [|exact H]; intros m x Hx; apply Hx).
    rewrite (mean_of_means_per_class "eval_f1" eval_f1 _ rs Hne)
      by (eapply Forall2_impl; [|exact H]; intros m x Hx; apply Hx).
    reflexivity.
  - apply np_mean_Q_unit.
    + destruct rs; [contradiction | discriminate].
    + apply Forall_map. eapply Forall_impl; [|exact Hu].
      intros x Hx. apply Hx.
  - apply np_mean_Q_of_means_unit; [assumption|]. apply Hfm.
    intros m x Hh Hx. split; [apply Hh | apply Hx].
  - apply np_mean_Q_of_means_unit; [assumption|]. apply Hfm.
    intros m x Hh Hx. split; [apply Hh | apply Hx].
  - apply np_mean_Q_of_means_unit; [assumption|]. apply Hfm.
    intros m x Hh Hx. split; [apply Hh | apply Hx].
Qed.

Lemma aggregate_metrics_unit_interval_witness :
  exists a p r f : Q,
    aggregate_metrics sample_fold_metrics = Ok (averages a p r f) /\
    in_unit a /\ in_unit p /\ in_unit r /\ in_unit f.
Proof.
  apply (aggregate_metrics_unit_interval sample_fold_metrics
           sample_fold_records).
  - discriminate.
  - repeat constructor; discriminate.
  - repeat constructor; unfold Qle; cbn; lia.
Defined.

(** ** More on [compute_metrics] *)

Lemma argmax_Ok (scores : list Q) (i : nat) :
  Np.argmax scores = Ok i -> scores <> [].
Proof.
  destruct scores; [discriminate|]. intros _. discriminate.
Qed.

Lemma argmax_Raise (scores : list Q) (e : exn) :
  Np.argmax scores = Raise e -> e = ValueError.
Proof.
  destruct scores; intros H; inversion H. reflexivity.
Qed.

Lemma mapM_argmax_Ok (preds : list (list Q)) (predicted : list nat) :
  mapM Np.argmax preds = Ok predicted ->
  Forall (fun scores => scores <> []) preds /\
  length predicted = length preds.
Proof.
  intros H. split; [|exact (mapM_length _ _ _ H)].
  apply Forall_forall. intros scores Hs.
  destruct (mapM_Ok_In _ _ _ H scores Hs) as [i Hi].
  exact (argmax_Ok scores i Hi).
Qed.

Lemma accuracy_score_Ok (y_true y_pred : list Z) (a : npfloat) :
  Sk.accuracy_score y_true y_pred = Ok a -> length y_true = length y_pred.
Proof.
  unfold Sk.accuracy_score.
  destruct (Nat.eqb_spec (length y_true) (length y_pred)); cbn [negb];
    [trivial | discriminate].
Qed.

Lemma accuracy_score_Raise (y_true y_pred : list Z) (e : exn) :
  Sk.accuracy_score y_true y_pred = Raise e -> e = ValueError.
Proof.
  unfold Sk.accuracy_score.
  destruct (negb _); intros H; inversion H. reflexivity.
Qed.

Lemma precision_recall_fscore_support_Raise (y_true y_pred : list Z) (e : exn) :
  Sk.precision_recall_fscore_support y_true y_pred = Raise e -> e = ValueError.
Proof.
  unfold Sk.precision_recall_fscore_support.
  destruct (negb _); intros H; inversion H. reflexivity.
Qed.

(** The dictionary [compute_metrics] returns on a well-formed batch. *)
Lemma compute_metrics_eq (preds : list (list Q)) (labels : list Z) :
  preds <> [] ->
  length preds = length labels ->
  Forall (fun scores => scores <> []) preds ->
  exists (predicted : list nat) (accuracy : Q),
    let classes := Sk.unique (labels ++ map Z.of_nat predicted) in
    let tp := true_positives labels predicted in
    length predicted = length labels /\
    (accuracy == inject_Z (Z.of_nat (agreements labels predicted))
                 / inject_Z (Z.of_nat (length labels)))%Q /\
    compute_metrics (preds, labels)
    = Ok [ ("accuracy", VFloat (Fin accuracy));
           ("precision",
            VList (map (fun c => Fin (ratio (tp c) (predicted_as predicted c)))
                       classes));
           ("recall",
            VList (map (fun c => Fin (ratio (tp c) (actual labels c)))
                       classes));
           ("f1",
            VList (map (fun c => Fin (ratio (2 * tp c)
                                        (actual labels c
                                         + predicted_as predicted c)))
                       classes)) ].
Proof.
  intros Hne Hlen Hrows.
  destruct (mapM_argmax preds Hrows) as [predicted [Hp Harg]].
  assert (Hlenp : length predicted = length labels).
  { rewrite <- Hlen. symmetry. exact (Forall2_length Harg). }
  assert (Hlne : labels <> []).
  { destruct labels; [|discriminate]. destruct preds; [contradiction|].
    discriminate. }
  destruct (accuracy_score_agreements labels predicted Hlne Hlenp)
    as [a [Ha1 Ha2]].
  exists predicted, a. cbv zeta.
  split; [exact Hlenp|]. split; [exact Ha2|].
  unfold compute_metrics. rewrite Hp. cbn [Py.bind]. rewrite Ha1.
  cbn [Py.bind].
  now rewrite (precision_recall_fscore_support_eq labels predicted Hlenp).
Qed.

(** X10: on a non-empty batch, [compute_metrics] returns exactly when no
    row of scores is empty and there is one label per row; every
    exception it raises is a [ValueError]. *)
Theorem compute_metrics_outcome (preds : list (list Q)) (labels : list Z) :
  preds <> [] ->
  ((exists m, compute_metrics (preds, labels) = Ok m)
   <-> Forall (fun scores => scores <> []) preds
       /\ length preds = length labels) /\
  (forall e, compute_metrics (preds, labels) = Raise e -> e = ValueError).
Proof.
  intros Hne. split; [split|].
  - intros [m H]. unfold compute_metrics in H.
    apply bind_Ok in H as [predicted [Hp H]].
    apply bind_Ok in H as [a [Ha _]].
    apply mapM_argmax_Ok in Hp as [Hrows Hlen].
    apply accuracy_score_Ok in Ha. rewrite length_map in Ha.
    split; [assumption | congruence].
  - intros [Hrows Hlen].
    destruct (compute_metrics_eq preds labels Hne Hlen Hrows)
      as [predicted [a [_ [_ H]]]].
    eauto.
  - intros e H. unfold compute_metrics in H.
    destruct (mapM Np.argmax preds) as [predicted|e1] eqn:Hp;
      cbn [Py.bind] in H.
    + destruct (Sk.accuracy_score labels (map Z.of_nat predicted))
        as [a|e2] eqn:Ha; cbn [Py.bind] in H.
      * destruct (Sk.precision_recall_fscore_support labels
                    (map Z.of_nat predicted)) as [[[[p r] f] s]|e3] eqn:Hf;
          cbn [Py.bind] in H; [discriminate|].
        inversion H; subst e3.
        exact (precision_recall_fscore_support_Raise _ _ _ Hf).
      * inversion H; subst e2. exact (accuracy_score_Raise _ _ _ Ha).
    + inversion H; subst e1.
      apply mapM_Raise in Hp as [scores [_ Hs]].
      exact (argmax_Raise _ _ Hs).
Qed.

Lemma compute_metrics_outcome_witness :
  ((exists m, compute_metrics (sample_preds, sample_labels) = Ok m)
   <-> Forall (fun scores => scores <> []) sample_preds
       /\ length sample_preds = length sample_labels) /\
  (forall e, compute_metrics (sample_preds, sample_labels) = Raise e ->
             e = ValueError).
Proof.
  apply (compute_metrics_outcome sample_preds sample_labels).
  discriminate.
Defined.

Lemma agreements_le (labels : list Z) (predicted : list nat) :
  agreements labels predicted <= length labels.
Proof.
  revert predicted.
  induction labels as [|l labels IH]; intros [|p predicted];
    cbn [agreements length]; try lia.
  specialize (IH predicted). destruct (l =? Z.of_nat p)%Z; lia.
Qed.

Lemma true_positives_le_actual (labels : list Z) (predicted : list nat)
  (c : Z) :
  true_positives labels predicted c <= actual labels c.
Proof.
  unfold actual. revert predicted.
  induction labels as [|l labels IH]; intros [|p predicted];
    cbn [true_positives count_occ]; try lia.
  specialize (IH predicted).
  destruct (Z.eqb_spec l c) as [E|E]; destruct (Z.eq_dec l c) as [E'|E'];
    try congruence; cbn [andb]; try lia.
  destruct (Z.of_nat p =? c)%Z; lia.
Qed.

Lemma true_positives_le_predicted (labels : list Z) (predicted : list nat)
  (c : Z) :
  true_positives labels predicted c <= predicted_as predicted c.
Proof.
  unfold predicted_as. revert predicted.
  induction labels as [|l labels IH]; intros [|p predicted];
    cbn [true_positives count_occ map]; try lia.
  specialize (IH predicted).
  destruct (Z.eqb_spec (Z.of_nat p) c) as [E|E];
    destruct (Z.eq_dec (Z.of_nat p) c) as [E'|E'];
    try congruence; rewrite ?andb_false_r; try lia.
  destruct (l =? c)%Z; cbn [andb]; lia.
Qed.

Lemma ratio_unit (num den : nat) : num <= den -> in_unit (ratio num den).
Proof.
  intros H. unfold in_unit, ratio. destruct den as [|den].
  - split; [apply Qle_refl | unfold Qle; cbn; lia].
  - assert (Hpos : (0 < inject_Z (Z.of_nat (S den)))%Q)
      by (unfold Qlt; cbn; lia).
    split.
    + apply Qle_shift_div_l; [assumption|]. rewrite Qmult_0_l.
      unfold Qle. cbn. lia.
    + apply Qle_shift_div_r; [assumption|]. rewrite Qmult_1_l.
      rewrite <- Zle_Qle. lia.
Qed.

(** X9: every number [compute_metrics] returns on a non-empty batch lies
    between 0 and 1: the accuracy, and each per-class precision, recall
    and F1; the three lists have the same length. *)
Theorem compute_metrics_unit_interval
  (preds : list (list Q)) (labels : list Z) (m : metrics) :
  preds <> [] ->
  compute_metrics (preds, labels) = Ok m ->
  exists (a : npfloat) (ps rs fs : list npfloat),
    m = [ ("accuracy", VFloat a); ("precision", VList ps);
          ("recall", VList rs); ("f1", VList fs) ] /\
    unit_float a /\
    Forall unit_float ps /\ Forall unit_float rs /\ Forall unit_float fs /\
    length ps = length rs /\ length rs = length fs.
Proof.
  intros Hne H.
  assert (Hwf : Forall (fun scores => scores <> []) preds
                /\ length preds = length labels).
  { unfold compute_metrics in H.
    apply bind_Ok in H as [predicted [Hp H]].
    apply bind_Ok in H as [a [Ha _]].
    apply mapM_argmax_Ok in Hp as [Hrows Hlen].
    apply accuracy_score_Ok in Ha. rewrite length_map in Ha.
    split; [assumption | congruence]. }
  destruct Hwf as [Hrows Hlen].
  destruct (compute_metrics_eq preds labels Hne Hlen Hrows)
    as [predicted [a [Hlenp [Ha E]]]].
  cbv zeta in E. rewrite E in H. inversion H; subst m. clear H E.
  do 4 eexists. split; [reflexivity|].
  assert (Hlne : labels <> []).
  { destruct labels; [|discriminate]. destruct preds; [contradiction|].
    discriminate. }
  split; [|split; [|split; [|split; [|split]]]].
  - exists a. split; [reflexivity|].
    assert (Hpos := Q_of_length_pos labels Hlne).
    unfold in_unit. rewrite Ha. split.
    + apply Qle_shift_div_l; [assumption|]. rewrite Qmult_0_l.
      unfold Qle. cbn. lia.
    + apply Qle_shift_div_r; [assumption|]. rewrite Qmult_1_l.
      rewrite <- Zle_Qle. apply Nat2Z.inj_le. apply agreements_le.
  - apply Forall_map, Forall_forall. intros c _. eexists.
    split; [reflexivity|]. apply ratio_unit, true_positives_le_predicted.
  - apply Forall_map, Forall_forall. intros c _. eexists.
    split; [reflexivity|]. apply ratio_unit, true_positives_le_actual.
  - apply Forall_map, Forall_forall. intros c _. eexists.
    split; [reflexivity|]. apply ratio_unit.
    pose proof (true_positives_le_predicted labels predicted c).
    pose proof (true_positives_le_actual labels predicted c). lia.
  - now rewrite !length_map.
  - now rewrite !length_map.
Qed.

Lemma compute_metrics_unit_interval_witness :
  match compute_metrics (sample_preds, sample_labels) with
  | Ok m =>
      exists (a : npfloat) (ps rs fs : list npfloat),
        m = [ ("accuracy", VFloat a); ("precision", VList ps);
              ("recall", VList rs); ("f1", VList fs) ] /\
        unit_float a /\
        Forall unit_float ps /\ Forall unit_float rs /\
        Forall unit_float fs /\
        length ps = length rs /\ length rs = length fs
  | Raise _ => False
  end.
Proof.
  destruct (compute_metrics (sample_preds, sample_labels)) as [m|e] eqn:E.
  - apply (compute_metrics_unit_interval sample_preds sample_labels m);
      [discriminate | exact E].
  - vm_compute in E. discriminate.
Defined.


(** ** The datasets of a fold (lines 107-114) *)

(** X11: the dataset of lines 107-114 has one example per label, in
    order; example [i] holds the [i]-th label under ['labels'] and, for
    every other key of the encodings, the [i]-th row of that key, and it
    has no key besides these. *)
Theorem dataset_alignment
  (enc : encodings) (labels : list Z) (ds : list example) :
  dataset enc labels = Ok ds ->
  length ds = length labels /\
  forall i l,
    nth_error labels i = Some l ->
    exists ex,
      nth_error ds i = Some ex /\
      Py.lookup ex "labels" = Some (Tensor0 l) /\
      (NoDup (Py.keys enc) ->
       forall k rows,
         k <> "labels" -> Py.lookup enc k = Some rows ->
         exists v, nth_error rows i = Some v
                   /\ Py.lookup ex k = Some (Tensor1 v)) /\
      (forall k, In k (Py.keys ex) -> k = "labels" \/ In k (Py.keys enc)).
Proof.
  intros H. split; [exact (dataset_length enc labels ds H)|].
  intros i l Hi. exact (dataset_example_at enc labels ds i l H Hi).
Qed.

Lemma dataset_alignment_witness :
  match dataset sample_encodings sample_labels with
  | Ok ds =>
      length ds = length sample_labels /\
      forall i l,
        nth_error sample_labels i = Some l ->
        exists ex,
          nth_error ds i = Some ex /\
          Py.lookup ex "labels" = Some (Tensor0 l) /\
          (NoDup (Py.keys sample_encodings) ->
           forall k rows,
             k <> "labels" -> Py.lookup sample_encodings k = Some rows ->
             exists v, nth_error rows i = Some v
                       /\ Py.lookup ex k = Some (Tensor1 v)) /\
          (forall k, In k (Py.keys ex) ->
                     k = "labels" \/ In k (Py.keys sample_encodings))
  | Raise _ => False
  end.
Proof.
  destruct (dataset sample_encodings sample_labels) as [ds|e] eqn:E.
  - exact (dataset_alignment sample_encodings sample_labels ds E).
  - vm_compute in E. discriminate.
Defined.

Lemma mapM_total {A B} (f : A -> result B) (l : list A) :
  (forall a, In a l -> exists b, f a = Ok b) -> exists bs, mapM f l = Ok bs.
Proof.
  induction l as [|a l IH]; intros H; [now exists []|].
  destruct (H a (or_introl eq_refl)) as [b Hb].
  destruct IH as [bs Hbs]; [intros a' Ha'; apply H; now right|].
  exists (b :: bs). cbn [mapM]. now rewrite Hb, Hbs.
Qed.

Lemma item_Raise {A} (l : list A) (i : nat) (e : exn) :
  item l i = Raise e -> e = IndexError /\ length l <= i.
Proof.
  unfold item. destruct (nth_error l i) eqn:E; intros H; inversion H.
  split; [reflexivity | now apply nth_error_None].
Qed.

Lemma torch_tensor0_Raise (z : Z) (e : exn) :
  torch_tensor0 z = Raise e -> e = RuntimeError /\ ~ int64 z.
Proof.
  unfold torch_tensor0. destruct (fits_int64 z) eqn:E; intros H; inversion H.
  split; [reflexivity|]. rewrite <- fits_int64_iff. congruence.
Qed.

Lemma torch_tensor1_Raise (v : list Z) (e : exn) :
  torch_tensor1 v = Raise e -> e = RuntimeError /\ ~ Forall int64 v.
Proof.
  intros H. destruct (torch_tensor1 v) as [t|e'] eqn:E; [discriminate|].
  inversion H; subst e'. split.
  - unfold torch_tensor1 in E. destruct (forallb fits_int64 v); inversion E.
    reflexivity.
  - intros Hall.
    assert (G : torch_tensor1 v = Ok (Tensor1 v))
      by (apply torch_tensor1_Ok; auto).
    congruence.
Qed.

Lemma tensors_at_total (enc : encodings) (i : nat) :
  Forall (fun kv => exists v, nth_error (snd kv) i = Some v /\ Forall int64 v)
         enc ->
  exists d, tensors_at enc i = Ok d.
Proof.
  unfold tensors_at. intros H. apply mapM_total. intros [k rows] Hin.
  rewrite Forall_forall in H. destruct (H _ Hin) as [v [Hv Hfit]].
  cbn [fst snd] in *. exists (k, Tensor1 v).
  assert (E1 : item rows i = Ok v) by now apply item_Ok.
  assert (E2 : torch_tensor1 v = Ok (Tensor1 v))
    by (apply torch_tensor1_Ok; auto).
  rewrite E1. cbn [Py.bind]. rewrite E2. reflexivity.
Qed.

(** Why the tensors of sample [i] cannot be built. *)
Lemma tensors_at_Raise (enc : encodings) (i : nat) (e : exn) :
  tensors_at enc i = Raise e ->
  exists kv, In kv enc /\
    ((e = IndexError /\ length (snd kv) <= i) \/
     (e = RuntimeError /\
      exists v, nth_error (snd kv) i = Some v /\ ~ Forall int64 v)).
Proof.
  unfold tensors_at. intros H.
  apply mapM_Raise in H as [[k rows] [Hin H]]. cbn [fst snd] in H.
  exists (k, rows). split; [exact Hin|]. cbn [snd].
  destruct (item rows i) as [v|e'] eqn:E; cbn [Py.bind] in H.
  - apply item_Ok in E.
    destruct (torch_tensor1 v) as [t|e'] eqn:Et; cbn [Py.bind] in H;
      [discriminate|].
    inversion H; subst e'. apply torch_tensor1_Raise in Et as [-> Hn].
    right. eauto.
  - inversion H; subst e'. apply item_Raise in E as [-> Hlen]. now left.
Qed.

Lemma firstn_In_nth_error {A} (l : list A) (n i : nat) (a : A) :
  i < n -> nth_error l i = Some a -> In a (firstn n l).
Proof.
  intros Hi Ha. apply (nth_error_In _ i).
  now rewrite nth_error_firstn, (proj2 (Nat.ltb_lt i n) Hi).
Qed.

Lemma In_firstn_nth_error {A} (l : list A) (n : nat) (a : A) :
  In a (firstn n l) -> exists i, i < n /\ nth_error l i = Some a.
Proof.
  intros H. apply In_nth_error in H as [i Hi]. exists i.
  rewrite nth_error_firstn in Hi.
  destruct (Nat.ltb_spec i n); [auto | discriminate].
Qed.

(** X12: the dataset of lines 107-114 can be built exactly when every
    key of the encodings has at least as many rows as there are labels
    and every integer that goes into a tensor fits in 64 bits.  It
    raises nothing but [IndexError] and [RuntimeError]: [IndexError]
    only when a key has fewer rows than there are labels, and
    [RuntimeError] only when an integer does not fit. *)
Theorem dataset_outcome (enc : encodings) (labels : list Z) :
  ((exists ds, dataset enc labels = Ok ds)
   <-> Forall (fun kv => length labels <= length (snd kv)) enc /\
       Forall int64 labels /\
       rows_fit (length labels) enc) /\
  (forall e, dataset enc labels = Raise e ->
             e = IndexError \/ e = RuntimeError) /\
  (dataset enc labels = Raise IndexError ->
   exists kv, In kv enc /\ length (snd kv) < length labels) /\
  (dataset enc labels = Raise RuntimeError ->
   ~ (Forall int64 labels /\ rows_fit (length labels) enc)).
Proof.
  rewrite dataset_unfold.
  assert (Cases : forall e,
    mapM (fun i =>
            d <- tensors_at enc i ;;
            l <- item labels i ;;
            t <- torch_tensor0 l ;;
            Ok (Py.merge (Py.merge [] d) [("labels", t)]))
         (seq 0 (length labels)) = Raise e ->
    (e = IndexError /\
     exists kv, In kv enc /\ length (snd kv) < length labels) \/
    (e = RuntimeError /\
     ~ (Forall int64 labels /\ rows_fit (length labels) enc))).
  { intros e H. apply mapM_Raise in H as [i [Hi H]]. apply in_seq in Hi.
    destruct (tensors_at enc i) as [d|e'] eqn:Hd; cbn [Py.bind] in H.
    - destruct (item labels i) as [l|e'] eqn:Hl; cbn [Py.bind] in H.
      + apply item_Ok in Hl.
        destruct (torch_tensor0 l) as [t|e'] eqn:Ht; cbn [Py.bind] in H;
          [discriminate|].
        inversion H; subst e'. apply torch_tensor0_Raise in Ht as [-> Hn].
        right. split; [reflexivity|]. intros [Hall _]. apply Hn.
        rewrite Forall_forall in Hall. apply Hall.
        exact (nth_error_In _ _ Hl).
      + apply item_Raise in Hl as [_ Hl]. lia.
    - inversion H; subst e'.
      apply tensors_at_Raise in Hd as [kv [Hin [[-> Hlen]|[-> [v [Hv Hn]]]]]].
      + left. split; [reflexivity|]. exists kv. split; [exact Hin | lia].
      + right. split; [reflexivity|]. intros [_ Hfit]. apply Hn.
        unfold rows_fit in Hfit. rewrite Forall_forall in Hfit.
        specialize (Hfit kv Hin). rewrite Forall_forall in Hfit.
        apply Hfit. apply (firstn_In_nth_error _ _ i); [lia | exact Hv]. }
  split; [split|split; [|split]].
  - intros [ds H].
    assert (Hbody : forall i, i < length labels ->
              (exists l, nth_error labels i = Some l /\ int64 l) /\
              Forall (fun kv => exists v, nth_error (snd kv) i = Some v
                                          /\ Forall int64 v) enc).
    { intros i Hi.
      assert (Hin : In i (seq 0 (length labels))) by (apply in_seq; lia).
      destruct (mapM_Ok_In _ _ _ H i Hin) as [ex Hex].
      apply bind_Ok in Hex as [d [Hd Hex]].
      apply bind_Ok in Hex as [l [Hl Hex]]. apply item_Ok in Hl.
      apply bind_Ok in Hex as [t [Ht _]].
      apply torch_tensor0_Ok in Ht as [_ Ht].
      destruct (tensors_at_Ok enc i d Hd) as [_ [Hf _]]. eauto. }
    split; [|split].
    + apply Forall_forall. intros kv Hkv.
      destruct (length labels) as [|n] eqn:En; [lia|].
      destruct (Hbody n) as [_ Hf]; [lia|].
      rewrite Forall_forall in Hf. destruct (Hf kv Hkv) as [v [Hv _]].
      assert (n < length (snd kv)) by (apply nth_error_Some; congruence).
      lia.
    + apply Forall_forall. intros l Hl.
      apply In_nth_error in Hl as [i Hi].
      destruct (Hbody i) as [[l' [Hl' Hfit]] _].
      { apply nth_error_Some. congruence. }
      congruence.
    + unfold rows_fit. apply Forall_forall. intros kv Hkv.
      apply Forall_forall. intros v Hv.
      apply In_firstn_nth_error in Hv as [i [Hi Hv]].
      destruct (Hbody i Hi) as [_ Hf].
      rewrite Forall_forall in Hf. destruct (Hf kv Hkv) as [v' [Hv' Hfit]].
      congruence.
  - intros [Hlen [Hlab Hfit]]. apply mapM_total. intros i Hi.
    apply in_seq in Hi.
    destruct (tensors_at_total enc i) as [d Hd].
    { apply Forall_forall. intros kv Hkv.
      rewrite Forall_forall in Hlen. specialize (Hlen kv Hkv).
      destruct (nth_error (snd kv) i) as [v|] eqn:E;
        [|apply nth_error_None in E; lia].
      exists v. split; [reflexivity|].
      unfold rows_fit in Hfit. rewrite Forall_forall in Hfit.
      specialize (Hfit kv Hkv). rewrite Forall_forall in Hfit.
      apply Hfit. apply (firstn_In_nth_error _ _ i); [lia | exact E]. }
    rewrite Hd. cbn [Py.bind].
    destruct (nth_error labels i) as [l|] eqn:El;
      [|apply nth_error_None in El; lia].
    assert (E1 : item labels i = Ok l) by now apply item_Ok.
    assert (E2 : torch_tensor0 l = Ok (Tensor0 l)).
    { apply torch_tensor0_Ok. split; [reflexivity|].
      rewrite Forall_forall in Hlab. apply Hlab.
      exact (nth_error_In _ _ El). }
    rewrite E1. cbn [Py.bind]. rewrite E2. cbn. eauto.
  - intros e H. destruct (Cases e H) as [[-> _]|[-> _]]; auto.
  - intros H. destruct (Cases _ H) as [[_ G]|[G _]]; [exact G | discriminate].
  - intros H. destruct (Cases _ H) as [[G _]|[_ G]]; [discriminate | exact G].
Qed.

(** A key with two rows cannot serve three labels, and a token id of
    2^63 is one too large for a 64-bit tensor. *)
Example dataset_short_key :
  dataset [("input_ids", [[101; 102]; [101; 102]]%Z)] sample_labels
  = Raise IndexError /\
  dataset [("input_ids", [[101; 2 ^ 63]]%Z)] [0%Z] = Raise RuntimeError /\
  dataset [("input_ids", [[101; 2 ^ 63 - 1]]%Z)] [(- 2 ^ 63)%Z]
  = Ok [[("input_ids", Tensor1 [101; 2 ^ 63 - 1]%Z);
         ("labels", Tensor0 (- 2 ^ 63)%Z)]].
Proof.
  repeat split.
Qed.

(** ** The samples of a fold *)

Lemma Permutation_filter_split {A} (f : A -> bool) (l : list A) :
  Permutation (filter (fun x => negb (f x)) l ++ filter f l) l.
Proof.
  induction l as [|x l IH]; cbn [filter]; [constructor|].
  destruct (f x); cbn [negb app].
  - apply Permutation_sym, Permutation_cons_app, Permutation_sym, IH.
  - now constructor.
Qed.

Lemma map_nth_seq {A} (l : list A) (d : A) :
  map (fun j => nth j l d) (seq 0 (length l)) = l.
Proof.
  apply nth_error_ext. intros n. rewrite nth_error_map, nth_error_seq.
  destruct (Nat.ltb_spec n (length l)) as [Hlt|Hge]; cbn.
  - symmetry. now apply nth_error_nth'.
  - symmetry. now apply nth_error_None.
Qed.

Section FoldSamples.

Context {env : Environment}.

(** The labels of the examples of a dataset are the labels of its
    samples. *)
Lemma dataset_labels (tokenizer : Tokenizer) (texts : list cell)
  (labels : list Z) (idx : list nat) (ds : list example) :
  is_dataset_of tokenizer texts labels idx ds ->
  map example_label ds = map (fun j => nth j labels 0%Z) idx.
Proof.
  intros [enc [_ [Hlen Hex]]]. apply nth_error_ext. intros p.
  rewrite !nth_error_map.
  destruct (nth_error idx p) as [j|] eqn:Ej.
  - destruct (Hex p j Ej) as [ex [Hp [Hl _]]]. rewrite Hp. cbn.
    unfold example_label. now rewrite Hl.
  - apply nth_error_None in Ej. rewrite <- Hlen in Ej.
    apply nth_error_None in Ej. now rewrite Ej.
Qed.

(** X13: within a fold no sample is lost and none is used twice: the
    training set and the evaluation set the loop builds from a pair of
    index arrays of the splitter have together one example per sample,
    and the labels of their examples are, up to the order, the labels of
    all the samples. *)
Theorem fold_datasets_cover
  (skf : Sk.StratifiedKFold) (test_folds : list nat)
  (tokenizer : Tokenizer) (texts : list cell) (labels : list Z)
  (splits : list (list nat * list nat))
  (i : nat) (tr te : list nat) (dtr dte : list example) :
  Sk.split skf test_folds texts labels = Ok splits ->
  nth_error splits i = Some (tr, te) ->
  fold_datasets tokenizer texts labels tr te = Ok (dtr, dte) ->
  length dtr + length dte = length texts /\
  Permutation (map example_label (dtr ++ dte)) labels.
Proof.
  intros Hs Hi Hds.
  destruct (split_requirements _ _ _ _ _ Hs) as [Hy _].
  destruct (split_nth _ _ _ _ _ _ _ _ Hs Hi) as [_ [Etr Ete]].
  apply fold_datasets_Ok in Hds as [Htr Hte].
  assert (P : Permutation (tr ++ te) (seq 0 (length labels))).
  { rewrite Etr, Ete, Hy. apply Permutation_filter_split. }
  split.
  - destruct Htr as [_ [_ [Ltr _]]]. destruct Hte as [_ [_ [Lte _]]].
    rewrite Ltr, Lte, <- length_app, (Permutation_length P), length_seq.
    exact Hy.
  - rewrite map_app, (dataset_labels _ _ _ _ _ Htr),
      (dataset_labels _ _ _ _ _ Hte), <- map_app.
    eapply Permutation_trans; [apply Permutation_map, P|].
    now rewrite map_nth_seq.
Qed.

End FoldSamples.

Lemma fold_datasets_cover_witness :
  match @fold_datasets toy_env "bert-base-uncased"
          sample_texts sample_class_labels fold0_train fold0_test with
  | Ok (dtr, dte) =>
      length dtr + length dte = length sample_texts /\
      Permutation (map example_label (dtr ++ dte)) sample_class_labels
  | Raise _ => False
  end.
Proof.
  destruct (@fold_datasets toy_env "bert-base-uncased"
              sample_texts sample_class_labels fold0_train fold0_test)
    as [[dtr dte]|e] eqn:E.
  - eapply (@fold_datasets_cover toy_env (skf_of 10)
              (@test_folds_of toy_env 10 sample_class_labels)
              _ sample_texts sample_class_labels _ 0
              fold0_train fold0_test dtr dte);
      [vm_compute; reflexivity | reflexivity | exact E].
  - vm_compute in E. discriminate.
Defined.

(** ** The directories of the folds *)

Lemma to_uint_nonnil (n : nat) : Nat.to_uint n <> Decimal.Nil.
Proof.
  rewrite <- (DecimalNat.Unsigned.of_to n) at 1.
  rewrite DecimalNat.Unsigned.to_of. apply DecimalFacts.unorm_nonnil.
Qed.

Lemma str_of_nat_inj (n n' : nat) : str_of_nat n = str_of_nat n' -> n = n'.
Proof.
  unfold str_of_nat. intros H.
  apply (f_equal DecimalString.NilZero.uint_of_string) in H.
  rewrite !DecimalString.NilZero.usu in H by apply to_uint_nonnil.
  inversion H as [H']. now apply DecimalNat.Unsigned.to_uint_inj.
Qed.

Lemma append_cancel_l (s x y : string) :
  (s ++ x = s ++ y)%string -> x = y.
Proof.
  induction s as [|c s IH]; cbn; intros H; [exact H|].
  inversion H. auto.
Qed.

Lemma append_cancel_r (x y t : string) :
  (x ++ t = y ++ t)%string -> x = y.
Proof.
  revert y. induction x as [|c x IH]; intros [|c' y] H; cbn in H.
  - reflexivity.
  - apply (f_equal String.length) in H. cbn in H.
    rewrite string_length_append in H. lia.
  - apply (f_equal String.length) in H. cbn in H.
    rewrite string_length_append in H. lia.
  - inversion H. f_equal. now apply IH.
Qed.

Lemma append_assoc (x y z : string) :
  ((x ++ y) ++ z = x ++ (y ++ z))%string.
Proof.
  induction x as [|c x IH]; cbn; [reflexivity | now rewrite IH].
Qed.

Lemma join_cancel_l (a b b' : string) :
  OsPath.startswith_sep b = false -> OsPath.startswith_sep b' = false ->
  OsPath.join a b = OsPath.join a b' -> b = b'.
Proof.
  unfold OsPath.join. intros -> ->.
  destruct (String.eqb a "" || OsPath.endswith_sep a); intros H.
  - exact (append_cancel_l _ _ _ H).
  - apply append_cancel_l in H. now apply (append_cancel_l "/").
Qed.

(** X14: the folds do not share directories: two different folds get
    different output directories and different logging directories, and
    the logging directory of a fold is the directory [logs] inside its
    output directory. *)
Theorem training_args_directories (output : string) (fold fold' : nat) :
  fold <> fold' ->
  output_dir (training_args output fold)
  <> output_dir (training_args output fold') /\
  logging_dir (training_args output fold)
  <> logging_dir (training_args output fold') /\
  logging_dir (training_args output fold)
  = (output_dir (training_args output fold) ++ "/logs")%string.
Proof.
  intros Hne. cbn [training_args output_dir logging_dir].
  split; [|split].
  - intros H. apply join_cancel_l in H; [|reflexivity|reflexivity].
    apply (append_cancel_l "fold-") in H. now apply str_of_nat_inj in H.
  - intros H. apply join_cancel_l in H; [|reflexivity|reflexivity].
    apply (append_cancel_l "fold-") in H.
    apply append_cancel_r in H. now apply str_of_nat_inj in H.
  - unfold OsPath.join. cbn [OsPath.startswith_sep append Ascii.eqb].
    cbn. destruct (String.eqb output "" || OsPath.endswith_sep output).
    + change (String "f" (String "o" (String "l" (String "d" (String "-"
               (str_of_nat fold ++ "/logs"))))))%string
        with ("fold-" ++ (str_of_nat fold ++ "/logs"))%string.
      change (String "f" (String "o" (String "l" (String "d" (String "-"
               (str_of_nat fold))))))%string
        with ("fold-" ++ str_of_nat fold)%string.
      now rewrite <- !append_assoc.
    + change (String "/" (String "f" (String "o" (String "l" (String "d"
               (String "-" (str_of_nat fold ++ "/logs")))))))%string
        with ("/fold-" ++ (str_of_nat fold ++ "/logs"))%string.
      change (String "/" (String "f" (String "o" (String "l" (String "d"
               (String "-" (str_of_nat fold)))))))%string
        with ("/fold-" ++ str_of_nat fold)%string.
      now rewrite <- !append_assoc.
Qed.

Lemma training_args_directories_witness :
  output_dir (training_args "./evaluation" 0)
  <> output_dir (training_args "./evaluation" 1) /\
  logging_dir (training_args "./evaluation" 0)
  <> logging_dir (training_args "./evaluation" 1) /\
  logging_dir (training_args "./evaluation" 0)
  = (output_dir (training_args "./evaluation" 0) ++ "/logs")%string.
Proof.
  apply (training_args_directories "./evaluation" 0 1). discriminate.
Defined.


(** ** Rows of [fold_metrics.csv] and directories of the trainers *)

Section RowsAndTrainers.

Context {env : Environment}.

(** X15: when [cross_validate_model] completes, the file
    [fold_metrics.csv] it wrote under the output directory has one row
    per fold that ran, and the row at position [i] holds the metrics
    that [evaluate()] returned for the trainer that was made with the
    output directory [fold-i] and with [compute_metrics] as its metric
    function, and that was trained before; that row is numbered
    [i + 1]: the fold column is one more than the number in the name of
    the fold's directory. *)
Theorem fold_rows_match_trainers
  (model_id tokenizer_id : string) (texts : list cell) (labels : list Z)
  (k : nat) (multiclass : bool) (output : string) (avg : metrics)
  (fs fs' : FS) :
  cross_validate_model model_id tokenizer_id texts labels k multiclass
                       output fs = (Ok avg, fs') ->
  exists (tokenizer : Tokenizer) (fs0 fs1 : FS) (runs : list fold_run)
         (fold_rows : list metrics),
    AutoTokenizer_from_pretrained tokenizer_id fs = (Ok tokenizer, fs0) /\
    fold_steps model_id (if multiclass then 9 else 2) fs0 runs fs1 /\
    length runs = k /\
    read_file fs' (OsPath.join output "fold_metrics.csv")
    = Some (Csv fold_rows) /\
    length fold_rows = k /\
    forall i r,
      nth_error runs i = Some r ->
      output_dir (args (init r))
      = OsPath.join output ("fold-" ++ str_of_nat i) /\
      compute_metrics_fn (init r) = compute_metrics /\
      exists row,
        nth_error fold_rows i = Some row /\
        is_fold_row i (metrics_of r) row.
Proof.
  intros H.
  apply cross_validate_model_Ok in H
    as [tok [fs0 [fs1 [runs [Htok [_ [St [Hran [Hlen [_ Hfiles]]]]]]]]]].
  exists tok, fs0, fs1, runs,
         (map detailed (enumerate (map metrics_of runs))).
  split; [exact Htok|]. split; [|split; [exact Hlen|split; [|split]]].
  - replace (if multiclass then 9 else 2) with (num_labels multiclass)
      by (destruct multiclass; reflexivity).
    exact St.
  - unfold read_file. rewrite Hfiles. cbn [Py.lookup].
    now rewrite String.eqb_refl.
  - now rewrite length_detailed_rows, length_map.
  - intros i r Hi. destruct (Hran i r Hi) as [_ [Hargs Hcm]].
    split; [now rewrite Hargs|]. split; [exact Hcm|].
    now apply detailed_rows_of_runs.
Qed.

End RowsAndTrainers.

Lemma fold_rows_match_trainers_witness :
  match @cross_validate_model toy_env "bert-base-uncased" "bert-base-uncased"
          sample_texts sample_class_labels 10 true "./evaluation" empty_fs
  with
  | (Ok avg, fs') =>
      exists (runs : list (@fold_run toy_env)) (fold_rows : list metrics),
        length runs = 10 /\
        read_file fs' "./evaluation/fold_metrics.csv" = Some (Csv fold_rows) /\
        length fold_rows = 10 /\
        forall i r,
          nth_error runs i = Some r ->
          output_dir (args (init r))
          = OsPath.join "./evaluation" ("fold-" ++ str_of_nat i) /\
          compute_metrics_fn (init r) = compute_metrics /\
          exists row,
            nth_error fold_rows i = Some row /\
            is_fold_row i (metrics_of r) row
  | (Raise _, _) => False
  end.
Proof.
  destruct (@cross_validate_model toy_env "bert-base-uncased"
              "bert-base-uncased" sample_texts sample_class_labels 10 true
              "./evaluation" empty_fs) as [[avg|e] fs'] eqn:E.
  - destruct (@fold_rows_match_trainers toy_env _ _ _ _ _ _ _ _ _ _ E)
      as [tok [fs0 [fs1 [runs [rows [_ [_ [H1 [H2 [H3 H4]]]]]]]]]].
    exists runs, rows. auto.
  - vm_compute in E. discriminate.
Defined.

(** ** More on the labels of [load_data] *)

Lemma length_filter_tabulate (P : string * list Z -> bool)
  (F : string -> list Z) (ks : list string) :
  length (filter P (tabulate F ks))
  = length (filter (fun k => P (k, F k)) ks).
Proof.
  unfold tabulate. induction ks as [|k ks IH]; cbn [map filter];
    [reflexivity|].
  destruct (P (k, F k)); cbn [length]; now rewrite IH.
Qed.

Lemma emotion_in_cell_strings (emotion : string) (r : row) :
  emotion_in emotion r = true ->
  In emotion (cell_strings (emotion_A r) ++ cell_strings (emotion_B r)).
Proof.
  intros H. apply emotion_in_iff in H. apply in_app_iff.
  destruct H as [H|H]; rewrite H; cbn; tauto.
Qed.

Lemma length_cell_strings (c : cell) : length (cell_strings c) <= 1.
Proof.
  destruct c; cbn; lia.
Qed.

(** X16: in binary mode a row has at most two positive labels among the
    nine emotions: the lists of at most two emotions hold a 1 at the
    position of the row. *)
Theorem binary_labels_at_most_two
  (df : list row) (f : DataFrame) (bl : list (string * list Z)) :
  load_data df false = Ok (RetTuple f bl) ->
  forall i r,
    nth_error df i = Some r ->
    length (filter (positive_at i) bl) <= 2.
Proof.
  unfold load_data. rewrite binary_labels_of_eq. cbn [Py.bind].
  intros H i r Hr.
  assert (Hbl : bl = tabulate (fun k => map (flag k) df)
                              (Py.keys MULTICLASS_LABEL_MAP))
    by congruence.
  subst bl. clear H.
  rewrite length_filter_tabulate.
  rewrite (filter_ext (fun k => positive_at i (k, map (flag k) df))
                      (fun k => emotion_in k r)).
  - transitivity (length (cell_strings (emotion_A r)
                          ++ cell_strings (emotion_B r))).
    + apply NoDup_incl_length.
      * apply NoDup_filter, NoDup_keys_MULTICLASS.
      * intros k Hk. apply filter_In in Hk as [_ Hk].
        now apply emotion_in_cell_strings.
    + rewrite length_app.
      pose proof (length_cell_strings (emotion_A r)).
      pose proof (length_cell_strings (emotion_B r)). lia.
  - intros k. unfold positive_at. cbn [snd].
    rewrite nth_error_map, Hr. cbn [option_map]. unfold flag.
    destruct (emotion_in k r); reflexivity.
Qed.

Lemma binary_labels_at_most_two_witness :
  match load_data two_joy_rows false with
  | Ok (RetTuple f bl) =>
      forall i r,
        nth_error two_joy_rows i = Some r ->
        length (filter (positive_at i) bl) <= 2
  | _ => False
  end.
Proof.
  destruct (load_data two_joy_rows false) as [[f|f bl]|e] eqn:E.
  - vm_compute in E. discriminate.
  - exact (binary_labels_at_most_two two_joy_rows f bl E).
  - vm_compute in E. discriminate.
Defined.

Lemma lookup_In {V} (d : list (string * V)) (k : string) (v : V) :
  Py.lookup d k = Some v -> In (k, v) d.
Proof.
  induction d as [|[k0 v0] d IH]; cbn [Py.lookup]; [discriminate|].
  destruct (String.eqb_spec k0 k) as [->|_]; intros H.
  - inversion H. now left.
  - right. auto.
Qed.

Lemma In_snd_inj {K V} (d : list (K * V)) (k k' : K) (v : V) :
  NoDup (map snd d) -> In (k, v) d -> In (k', v) d -> k = k'.
Proof.
  induction d as [|[k0 v0] d IH]; cbn [map snd In]; [tauto|].
  intros Hnd. inversion Hnd as [|? ? Hnotin Hnd']; subst.
  intros [E|H] [E'|H'].
  - congruence.
  - inversion E; subst. exfalso. apply Hnotin.
    apply (in_map snd) in H'. exact H'.
  - inversion E'; subst. exfalso. apply Hnotin.
    apply (in_map snd) in H. exact H.
  - auto.
Qed.

Lemma NoDup_codes_MULTICLASS : NoDup (map snd MULTICLASS_LABEL_MAP).
Proof.
  cbn. repeat constructor; cbn; intuition discriminate.
Qed.

(** X17: the label of a row gives back its emotion-A: the label is the
    code of exactly one emotion of [MULTICLASS_LABEL_MAP], which is the
    row's emotion-A value; so two rows with the same label have the same
    emotion-A. *)
Theorem multiclass_label_decodes
  (df : list row) (f : DataFrame) (ls : list Z) :
  load_data df true = Ok (RetFrame f) ->
  labels_column f = Some ls ->
  (forall i r l,
     nth_error df i = Some r -> nth_error ls i = Some l ->
     exists s,
       emotion_A r = CStr s /\
       In (s, l) MULTICLASS_LABEL_MAP /\
       forall s', In (s', l) MULTICLASS_LABEL_MAP -> s' = s) /\
  (forall i j ri rj l,
     nth_error df i = Some ri -> nth_error df j = Some rj ->
     nth_error ls i = Some l -> nth_error ls j = Some l ->
     emotion_A ri = emotion_A rj).
Proof.
  intros H Hls.
  apply load_data_multiclass_inv in H as [ls' [H E]].
  inversion E; subst f. cbn in Hls. inversion Hls; subst ls'. clear E Hls.
  assert (Dec : forall i r l,
             nth_error df i = Some r -> nth_error ls i = Some l ->
             exists s,
               emotion_A r = CStr s /\
               In (s, l) MULTICLASS_LABEL_MAP /\
               forall s', In (s', l) MULTICLASS_LABEL_MAP -> s' = s).
  { intros i r l Hr Hl.
    destruct (multiclass_labels_nth df ls H i r Hr) as [z [Hz Hn]].
    assert (z = l) by congruence. subst z.
    destruct (emotion_A r) as [s|n|]; cbn [code_of] in Hz;
      try discriminate.
    exists s. split; [reflexivity|].
    apply lookup_In in Hz. split; [exact Hz|].
    intros s' Hs'.
    exact (In_snd_inj _ _ _ _ NoDup_codes_MULTICLASS Hs' Hz). }
  split; [exact Dec|].
  intros i j ri rj l Hi Hj Hli Hlj.
  destruct (Dec i ri l Hi Hli) as [s [Es [_ Us]]].
  destruct (Dec j rj l Hj Hlj) as [s' [Es' [Hin' _]]].
  rewrite Es, Es'. f_equal. symmetry. now apply Us.
Qed.

Lemma multiclass_label_decodes_witness :
  (forall i r l,
     nth_error two_joy_rows i = Some r ->
     nth_error [0%Z; 0%Z] i = Some l ->
     exists s,
       emotion_A r = CStr s /\
       In (s, l) MULTICLASS_LABEL_MAP /\
       forall s', In (s', l) MULTICLASS_LABEL_MAP -> s' = s) /\
  (forall i j ri rj l,
     nth_error two_joy_rows i = Some ri ->
     nth_error two_joy_rows j = Some rj ->
     nth_error [0%Z; 0%Z] i = Some l -> nth_error [0%Z; 0%Z] j = Some l ->
     emotion_A ri = emotion_A rj).
Proof.
  apply (multiclass_label_decodes two_joy_rows
           {| rows := two_joy_rows; labels_column := Some [0%Z; 0%Z] |}).
  - reflexivity.
  - reflexivity.
Defined.
